(** * smart-irrigation: feature engineering and inference-time reconciliation

    A shallow embedding of [ml-service/src/feature_engineering.py] and
    [ml-service/src/predict.py], and the properties of the design
    specification that concern them.

    Conventions of the embedding.
    - A float cell is an [option Q]: [None] is NaN (pandas' missing value) and
      [Some q] a number.  Floating-point rounding is idealised to exact
      rational arithmetic, which only enters through the means and the
      difference column.
    - A timestamp is a [Z], the number of nanoseconds since the Unix epoch
      (the representation of a pandas [DatetimeIndex]).
    - A [DataFrame] is its ordered column names and its rows, each row being
      an index label and a finite map from column name to cell.
    - A fallible call returns [option] (feature engineering) or a [result]
      (the prediction script, which also prints, prompts and exits). *)

From Stdlib Require Import ZArith QArith String Ascii List.
From Stdlib Require Import DecimalString DecimalPos DecimalZ.
From stdpp Require Import base option list gmap strings.

Local Open Scope Z_scope.
Local Open Scope string_scope.

(** ** Python strings *)

Module PyStr.

(** [s.startswith(p)] *)
Fixpoint startswith (p s : string) : bool :=
  match p, s with
  | EmptyString, _ => true
  | String _ _, EmptyString => false
  | String a p', String b s' => if Ascii.eqb a b then startswith p' s' else false
  end.

(** [k in s]: [k] occurs in [s] as a substring *)
Fixpoint contains (k s : string) : bool :=
  startswith k s ||
  match s with
  | EmptyString => false
  | String _ s' => contains k s'
  end.

Definition lower_ascii (c : ascii) : ascii :=
  let n := nat_of_ascii c in
  if ((65 <=? n) && (n <=? 90))%nat then ascii_of_nat (n + 32) else c.

(** [s.lower()].  A string is a sequence of bytes and the letters A to Z are
    mapped; feature names are taken to be ASCII. *)
Fixpoint lower (s : string) : string :=
  match s with
  | EmptyString => EmptyString
  | String c s' => String (lower_ascii c) (lower s')
  end.

(** [str(n)] for an [int] *)
Definition of_Z (n : Z) : string := NilZero.string_of_int (Z.to_int n).

(** [range(a, b)] *)
Definition range (a b : Z) : list Z :=
  map (fun i => a + Z.of_nat i) (seq 0 (Z.to_nat (b - a))).

End PyStr.

(** ** The pandas operations used by the pipeline *)

Module Pandas.

(** A float cell; [None] is NaN. *)
Abbreviation cell := (option Q).

Abbreviation row := (Z * gmap string cell)%type.

Record DataFrame := mkDF { colnames : list string; rows : list row }.

(** A [Series]: index labels paired with values. *)
Abbreviation Series := (list (Z * cell)).

Definition cell_of (m : gmap string cell) (c : string) : cell :=
  default None (m !! c).

Definition df_index (df : DataFrame) : list Z := (rows df).*1.

Definition col (df : DataFrame) (c : string) : Series :=
  map (fun r : row => (r.1, cell_of r.2 c)) (rows df).

(** [df[c]]; a [KeyError] is [None]. *)
Definition get_col (df : DataFrame) (c : string) : option Series :=
  if bool_decide (c ∈ colnames df) then Some (col df c) else None.

(** [df[c] = s] for a series [s] on the index of [df]: the column is
    replaced in place when it exists and appended otherwise. *)
Definition set_col (df : DataFrame) (c : string) (s : Series) : DataFrame :=
  {| colnames := if bool_decide (c ∈ colnames df) then colnames df
                 else colnames df ++ [c];
     rows := zip_with (fun (r : row) (v : Z * cell) => (r.1, <[c := v.2]> r.2))
                      (rows df) s |}.

(** [df[cols]] for a list of column names. *)
Definition select (df : DataFrame) (cols : list string) : option DataFrame :=
  if bool_decide (Forall (fun c => c ∈ colnames df) cols) then
    Some {| colnames := cols;
            rows := map (fun r : row =>
                           (r.1, filter (fun kv : string * cell => kv.1 ∈ cols) r.2))
                        (rows df) |}
  else None.

(** The value at position [z], NaN when [z] is not a position. *)
Definition lookupZ (vals : list cell) (z : Z) : cell :=
  if decide (0 <= z) then default None (vals !! Z.to_nat z) else None.

(** [s.shift(periods)]: the value [periods] rows earlier, NaN outside. *)
Definition shift (periods : Z) (s : Series) : Series :=
  imap (fun i (p : Z * cell) => (p.1, lookupZ s.*2 (Z.of_nat i - periods))) s.

Definition cell_sub (a b : cell) : cell :=
  match a, b with
  | Some x, Some y => Some (x - y)%Q
  | _, _ => None
  end.

(** [a - b] for two series on the same index. *)
Definition series_sub (a b : Series) : Series :=
  zip_with (fun x y : Z * cell => (x.1, cell_sub x.2 y.2)) a b.

Definition Qsum (l : list Q) : Q := foldr Qplus 0%Q l.

Definition Qmean (l : list Q) : Q := (Qsum l / inject_Z (Z.of_nat (length l)))%Q.

(** The non-missing values of a list of cells. *)
Definition present (l : list cell) : list Q := omap id l.

(** [mean()] of a group or window: NaN values are skipped, and the result
    is NaN when fewer than [min_periods] values remain. *)
Definition nanmean (min_periods : nat) (l : list cell) : cell :=
  let xs := present l in
  if decide (min_periods <= length xs)%nat then Some (Qmean xs) else None.

(** [s.rolling(window, min_periods).mean()]: the trailing window ending at
    the current row, shorter at the head of the series. *)
Definition rolling_mean (window min_periods : nat) (s : Series) : Series :=
  imap (fun i (p : Z * cell) =>
          (p.1, nanmean min_periods
                  (take (Nat.min window (S i)) (drop (S i - window) s.*2)))) s.

Definition row_complete (cols : list string) (r : row) : Prop :=
  Forall (fun c => is_Some (cell_of r.2 c)) cols.

Global Instance row_complete_dec cols r : Decision (row_complete cols r).
Proof. unfold row_complete. apply _. Defined.

(** [df.dropna()] *)
Definition dropna (df : DataFrame) : DataFrame :=
  {| colnames := colnames df;
     rows := filter (row_complete (colnames df)) (rows df) |}.

(** [df.dropna(subset=cols)]; a [KeyError] is [None]. *)
Definition dropna_subset (cols : list string) (df : DataFrame) : option DataFrame :=
  if bool_decide (Forall (fun c => c ∈ colnames df) cols) then
    Some {| colnames := colnames df;
            rows := filter (row_complete cols) (rows df) |}
  else None.

(** [s.reindex(idx)]: the value of [s] at each label of [idx], NaN for a
    label [s] does not have.  pandas refuses a series with duplicated
    labels (unless [idx] is its own index); so does the model. *)
Definition reindex (s : Series) (idx : list Z) : option Series :=
  if bool_decide (NoDup s.*1) then
    Some (map (fun t => (t, default None ((list_to_map s : gmap Z cell) !! t))) idx)
  else None.

(** Forward fill with a limit: a missing value takes the last known value
    unless [limit] consecutive ones have been filled before it. *)
Fixpoint ffill_go (limit : nat) (last : cell) (filled : nat) (l : list cell)
  : list cell :=
  match l with
  | [] => []
  | Some v :: l' => Some v :: ffill_go limit (Some v) 0 l'
  | None :: l' =>
      (if decide (filled < limit)%nat then last else None)
        :: ffill_go limit last (S filled) l'
  end.

Definition ffill_values (limit : nat) (l : list cell) : list cell :=
  ffill_go limit None 0 l.

Definition ffill_series (limit : nat) (s : Series) : Series :=
  zip s.*1 (ffill_values limit s.*2).

(** [df.ffill(limit)]: every column is filled on its own. *)
Definition ffill (limit : nat) (df : DataFrame) : DataFrame :=
  foldl (fun d c => set_col d c (ffill_series limit (col d c))) df (colnames df).

(** *** Calendar fields of a timestamp *)

Definition ns_per_minute : Z := 60 * 1000000000.
Definition ns_per_hour : Z := 60 * ns_per_minute.
Definition ns_per_day : Z := 24 * ns_per_hour.

Definition hour_of (t : Z) : Z := (t / ns_per_hour) mod 24.

(** Monday is 0; 1970-01-01 was a Thursday. *)
Definition dayofweek_of (t : Z) : Z := (t / ns_per_day + 3) mod 7.

Definition is_leap (y : Z) : bool :=
  ((y mod 4 =? 0)%Z && negb (y mod 100 =? 0)%Z) || (y mod 400 =? 0)%Z.

(** Day of the year, 1 for the first of January, from the count of days
    since the epoch, through the proleptic Gregorian calendar counted in
    400-year eras that start on a first of March. *)
Definition dayofyear_of (t : Z) : Z :=
  let z := t / ns_per_day + 719468 in
  let era := z / 146097 in
  let doe := z - era * 146097 in
  let yoe := (doe - doe / 1460 + doe / 36524 - doe / 146096) / 365 in
  let doy := doe - (365 * yoe + yoe / 4 - yoe / 100) in
  if (doy <? 306)%Z then doy + 60 + (if is_leap (yoe + era * 400) then 1 else 0)
  else doy - 305.

Definition index_field (f : Z -> Z) (df : DataFrame) : Series :=
  map (fun t => (t, Some (inject_Z (f t)))) (df_index df).

(** *** Resampling *)

(** [df.resample(rule).mean()] for a rule of [width] nanoseconds, with the
    pandas defaults (bins closed and labelled on the left, anchored at the
    midnight of the first day): the bins run from the one holding the
    earliest timestamp to the one holding the latest, and each holds the
    NaN-skipping mean of its observations, per column. *)
Definition bin_origin (width first : Z) : Z :=
  let day_start := first - first mod ns_per_day in
  first - (first - day_start) mod width.

Definition bin_count (width start last : Z) : nat :=
  Z.to_nat ((last - start) / width + 1).

Definition bin_of (width start t : Z) : Z := (t - start) / width.

Definition bin_rows (width start : Z) (k : nat) (rs : list row) : list row :=
  filter (fun r : row => bin_of width start r.1 = Z.of_nat k) rs.

Definition bin_mean (cols : list string) (rs : list row) : gmap string cell :=
  list_to_map (map (fun c => (c, nanmean 1 (map (fun r : row => cell_of r.2 c) rs))) cols).

Definition Zmin_list (d : Z) (l : list Z) : Z := foldr Z.min d l.
Definition Zmax_list (d : Z) (l : list Z) : Z := foldr Z.max d l.

Definition resample_mean (width : Z) (df : DataFrame) : DataFrame :=
  match df_index df with
  | [] => {| colnames := colnames df; rows := [] |}
  | t0 :: ts =>
      let start := bin_origin width (Zmin_list t0 ts) in
      let n := bin_count width start (Zmax_list t0 ts) in
      {| colnames := colnames df;
         rows := map (fun k => (start + Z.of_nat k * width,
                                bin_mean (colnames df) (bin_rows width start k (rows df))))
                     (seq 0 n) |}
  end.

End Pandas.

(** ** feature_engineering.py *)

Module FeatureEngineering.
Import Pandas.

Definition raw_columns : list string := ["moisture"; "temperature"; "humidity"].

(** [resample_and_aggregate(df, interval_minutes)], with [T] read as the
    pandas alias for minutes.  [None] stands for the exception raised when
    one of the three columns is missing or when the rule
    [f"{interval_minutes}T"] is not a positive frequency. *)
Definition resample_and_aggregate (df : DataFrame) (interval_minutes : Z)
  : option DataFrame :=
  sel ← select df raw_columns;
  if decide (0 < interval_minutes) then
    let agg := resample_mean (interval_minutes * ns_per_minute) sel in
    Some (ffill 2 agg)
  else None.

Definition lag_name (lag : Z) : string := "moisture_lag_" ++ PyStr.of_Z lag.

Definition target_name (horizon : Z) : string := "target_t_plus_" ++ PyStr.of_Z horizon.

(** The loop [for lag in range(1, lags + 1)]. *)
Definition add_lags (X : DataFrame) (lags : list Z) : option DataFrame :=
  foldl (fun acc lag =>
           X ← acc;
           m ← get_col X "moisture";
           Some (set_col X (lag_name lag) (shift lag m)))
        (Some X) lags.

(** [create_lag_features(df, lags)] *)
Definition create_lag_features (df : DataFrame) (lags : Z) : option DataFrame :=
  X ← add_lags df (PyStr.range 1 (lags + 1));
  m ← get_col X "moisture";
  let X := set_col X "moisture_diff_1" (series_sub m (shift 1 m)) in
  m ← get_col X "moisture";
  let X := set_col X "moisture_rolling_mean_3" (rolling_mean 3 1 m) in
  let X := set_col X "hour" (index_field hour_of X) in
  let X := set_col X "dayofyear" (index_field dayofyear_of X) in
  let X := set_col X "dayofweek" (index_field dayofweek_of X) in
  Some (dropna X).

(** The test of the list comprehension that builds [feature_cols]. *)
Definition is_feature_col (c : string) : bool :=
  PyStr.startswith "moisture_lag_" c
  || PyStr.startswith "moisture_rolling" c
  || bool_decide (c ∈ ["moisture_diff_1"; "temperature"; "humidity";
                       "hour"; "dayofyear"; "dayofweek"]).

(** [build_dataset(agg_df, lags, horizon)], returning [(X, y)]. *)
Definition build_dataset (agg_df : DataFrame) (lags horizon : Z)
  : option (DataFrame * Series) :=
  df ← create_lag_features agg_df lags;
  m ← get_col agg_df "moisture";
  target ← reindex (shift (- horizon) m) (df_index df);
  let df := set_col df (target_name horizon) target in
  df ← dropna_subset [target_name horizon] df;
  let feature_cols := List.filter is_feature_col (colnames df) in
  X ← select df feature_cols;
  y ← get_col df (target_name horizon);
  Some (X, y).

(** *** Vocabulary of the specification *)

(** The columns [create_lag_features] adds after the lag columns. *)
Definition derived_columns : list string :=
  ["moisture_diff_1"; "moisture_rolling_mean_3"; "hour"; "dayofyear"; "dayofweek"].

(** The cells of column [c] of the observations whose timestamp falls in
    the interval [[lo, lo + width)]. *)
Definition interval_cells (obs : DataFrame) (c : string) (lo width : Z) : list cell :=
  (fun r : row => cell_of r.2 c)
    <$> filter (fun r : row => lo <= r.1 < lo + width) (rows obs).

(** Its non-missing values, the ones a mean is taken of. *)
Definition interval_values (obs : DataFrame) (c : string) (lo width : Z) : list Q :=
  present (interval_cells obs c lo width).

End FeatureEngineering.

(** ** predict.py *)

Module Predict.

(** *** Python values met by the script *)

(** The argument of a [predict] call: the one-row frame with its named
    columns, or [X.values], the bare row of numbers. *)
Inductive predict_arg :=
| Structured (columns : list (string * Q))
| Flat (values : list Q).

Inductive outcome (A : Type) :=
| Returns (a : A)
| Raises (e : string).
Arguments Returns {A} a.
Arguments Raises {A} e.

(** An object other than [None], a list of names or a dict: its truth value
    and, when it has one, its [predict] method.  The method is given the
    number of calls made before, so that a handle may answer differently
    the second time. *)
Record object := mkObject {
  obj_truthy : bool;
  obj_predict : option (nat -> predict_arg -> outcome (list Z))
}.

#[warnings="-register-all"]
Inductive pyval :=
| PyNone
| PyNames (names : list string)
| PyDict (items : list (string * pyval))
| PyObj (o : object).

Definition truthy (v : pyval) : bool :=
  match v with
  | PyNone => false
  | PyNames l => negb (bool_decide (l = []))
  | PyDict items => match items with [] => false | _ => true end
  | PyObj o => obj_truthy o
  end.

Definition is_none (v : pyval) : bool :=
  match v with PyNone => true | _ => false end.

(** [hasattr(v, "predict")] *)
Definition has_predict (v : pyval) : bool :=
  match v with
  | PyObj o => match obj_predict o with Some _ => true | None => false end
  | _ => false
  end.

(** [a or b] *)
Definition py_or (a b : pyval) : pyval := if truthy a then a else b.

Fixpoint dict_lookup (items : list (string * pyval)) (k : string) : option pyval :=
  match items with
  | [] => None
  | (k', v) :: rest => if String.eqb k' k then Some v else dict_lookup rest k
  end.

(** [d.get(k)] and [d.get(k, dflt)] *)
Definition dict_get (items : list (string * pyval)) (k : string) : pyval :=
  default PyNone (dict_lookup items k).
Definition dict_get_default (items : list (string * pyval)) (k : string)
    (dflt : pyval) : pyval :=
  default dflt (dict_lookup items k).

(** *** Console, trace and control *)

(** A line typed at a prompt, as [float(v)] takes it. *)
Inductive reply := Numeric (q : Q) | NotNumeric.

Record prediction_doc := mkPrediction {
  deviceId : string;
  waterMM : Z;
  pumpTimeSec : Z;
  predictionId : string;
  used : bool
}.

Inductive event :=
| Stdout (line : string)
| Stderr (line : string)
| Input (prompt : string)
| PredictCall (arg : predict_arg)
| InsertOne (doc : prediction_doc).

Record world := mkWorld { stdin : list reply; trace : list event }.

(** How a computation ends: with a value, with an exception that
    [except Exception] catches, with [sys.exit(code)], or never. *)
Inductive result (A : Type) :=
| Ret (a : A)
| Raise (e : string)
| Exit (code : Z)
| Hang.
Arguments Ret {A} a.
Arguments Raise {A} e.
Arguments Exit {A} code.
Arguments Hang {A}.

Definition io (A : Type) : Type := world -> result A * world.

Global Instance io_ret : MRet io := fun A a w => (Ret a, w).

Global Instance io_bind : MBind io := fun A B f m w =>
  match m w with
  | (Ret a, w') => f a w'
  | (Raise e, w') => (Raise e, w')
  | (Exit c, w') => (Exit c, w')
  | (Hang, w') => (Hang, w')
  end.

(** The world after some more events. *)
Definition extend (w : world) (evs : list event) : world :=
  {| stdin := stdin w; trace := trace w ++ evs |}.

Definition emit (e : event) : io unit := fun w => (Ret tt, extend w [e]).

Definition print (line : string) : io unit := emit (Stdout line).
Definition eprint (line : string) : io unit := emit (Stderr line).

Definition raise {A} (e : string) : io A := fun w => (Raise e, w).

(** [sys.exit(code)] *)
Definition exit {A} (code : Z) : io A := fun w => (Exit code, w).

(** [try: body except Exception as e: handler(e)] *)
Definition try_except {A} (body : io A) (handler : string -> io A) : io A :=
  fun w =>
    match body w with
    | (Raise e, w') => handler e w'
    | r => r
    end.

(** The status the process ends with; an uncaught exception ends it
    with 1. *)
Definition exit_status (r : result unit) : option Z :=
  match r with
  | Ret _ => Some 0
  | Raise _ => Some 1
  | Exit c => Some c
  | Hang => None
  end.

(** *** The script *)

(** [_KEYWORDS], in the order of the dictionary. *)
Definition _KEYWORDS : list (string * list string) :=
  [("soil", ["soil"; "moist"]);
   ("temp", ["temp"; "temperature"]);
   ("hum", ["hum"; "humid"; "humidity"])].

Definition enter (name : string) : string := "Enter " ++ name ++ ": ".

(** [prompt_float(name)].  Each round reads a line; a line that is not a
    number prints the reminder and asks again.  At the end of the input
    [input] raises, which the loop catches like any other error: it never
    ends. *)
Fixpoint prompt_loop (name : string) (lines : list reply) (tr : list event)
  : result Q * world :=
  match lines with
  | [] => (Hang, {| stdin := []; trace := tr ++ [Input (enter name)] |})
  | Numeric q :: rest =>
      (Ret q, {| stdin := rest; trace := tr ++ [Input (enter name)] |})
  | NotNumeric :: rest =>
      prompt_loop name rest
        (tr ++ [Input (enter name); Stdout "Please enter a numeric value."])
  end.

Definition prompt_float (name : string) : io Q :=
  fun w => prompt_loop name (stdin w) (trace w).

(** [load_artifact], on the object [joblib.load] returned. *)
Definition load_artifact (obj : pyval) : io (pyval * pyval * pyval) :=
  match obj with
  | PyDict items =>
      let model := py_or (py_or (dict_get items "model") (dict_get items "pipeline"))
                         PyNone in
      let features := py_or (py_or (dict_get items "features")
                                   (dict_get items "feature_names"))
                            PyNone in
      let metadata := dict_get_default items "metadata" (PyDict []) in
      let model :=
        if is_none model then
          default PyNone (List.find has_predict items.*2)
        else model in
      mret (model, features, metadata)
  | _ =>
      if has_predict obj then mret (obj, PyNone, PyDict [])
      else raise "Model artifact does not contain a sklearn model or expected dict."
  end.

(** The first key of [kw] one of whose keywords occurs in [fl]. *)
Fixpoint keyword_scan (fl : string) (kw : list (string * list string))
  : option string :=
  match kw with
  | [] => None
  | (key, kws) :: rest =>
      if existsb (fun k => PyStr.contains k fl) kws then Some key
      else keyword_scan fl rest
  end.

(** The second loop: the first of [soil], [temp], [hum] that is the
    lower-cased name itself and has a value. *)
Fixpoint exact_scan (fl : string) (provided : gmap string Q) (keys : list string)
  : option Q :=
  match keys with
  | [] => None
  | key :: rest =>
      match provided !! key with
      | Some v => if String.eqb key fl then Some v else exact_scan fl provided rest
      | None => exact_scan fl provided rest
      end
  end.

(** One round of the loop over the features: the value of [row[feat]]. *)
Definition feature_value (provided : gmap string Q) (feat : string) : io Q :=
  let fl := PyStr.lower feat in
  match keyword_scan fl _KEYWORDS with
  | Some key =>
      match provided !! key with
      | Some val => mret val
      | None => prompt_float key
      end
  | None =>
      match exact_scan fl provided ["soil"; "temp"; "hum"] with
      | Some val => mret val
      | None => prompt_float feat
      end
  end.

Fixpoint map_inputs_loop (features : list string) (provided : gmap string Q)
    (row : gmap string Q) : io (gmap string Q) :=
  match features with
  | [] => mret row
  | feat :: rest =>
      val ← feature_value provided feat;
      map_inputs_loop rest provided (<[feat := val]> row)
  end.

(** [map_inputs_to_features(features, provided)].  [provided] binds a key
    to its number; a key whose value is [None] is unbound. *)
Definition map_inputs_to_features (features : list string)
    (provided : gmap string Q) : io (gmap string Q) :=
  map_inputs_loop features provided ∅.

(** The loop that asks for the raw inputs not supplied. *)
Fixpoint fill_missing (keys : list string) (provided : gmap string Q)
  : io (gmap string Q) :=
  match keys with
  | [] => mret provided
  | k :: rest =>
      match provided !! k with
      | Some _ => fill_missing rest provided
      | None =>
          v ← prompt_float k;
          fill_missing rest (<[k := v]> provided)
      end
  end.

(** [list(features)] *)
Definition as_list (features : pyval) : io (list string) :=
  match features with
  | PyNames l => mret l
  | PyDict items => mret items.*1
  | _ => raise "TypeError: object is not iterable"
  end.

(** The one-row frame [X]: its columns in order, each with its value. *)
Definition reconcile (features : pyval) (provided : gmap string Q)
  : io (list (string * Q)) :=
  if truthy features then
    features ← as_list features;
    row ← map_inputs_to_features features provided;
    mret ((fun f => (f, default 0%Q (row !! f))) <$> features)
  else
    provided ← fill_missing ["soil"; "temp"; "hum"] provided;
    mret ((fun k => (k, default 0%Q (provided !! k))) <$> ["soil"; "temp"; "hum"]).

Definition is_predict_call (e : event) : bool :=
  match e with PredictCall _ => true | _ => false end.

Definition calls_before (w : world) : nat :=
  length (List.filter is_predict_call (trace w)).

(** [model.predict(arg)]; the handle is told how many calls came before. *)
Definition call_predict (model : pyval) (arg : predict_arg) : io (list Z) :=
  match model with
  | PyObj {| obj_predict := Some f |} =>
      fun w =>
        let w' := extend w [PredictCall arg] in
        match f (calls_before w) arg with
        | Returns labels => (Ret labels, w')
        | Raises e => (Raise e, w')
        end
  | _ => raise "AttributeError: object has no attribute 'predict'"
  end.

(** The [try] around [model.predict]. *)
Definition predict_with_fallback (model : pyval) (X : list (string * Q))
  : io (list Z) :=
  try_except (call_predict model (Structured X)) (fun e =>
    try_except (call_predict model (Flat X.*2)) (fun e2 =>
      print ("Failed to call model.predict(): " ++ e ++ " " ++ e2);;
      exit 1)).

(** [int(yhat[0])] *)
Definition first_label (yhat : list Z) : io Z :=
  match yhat with
  | out :: _ => mret out
  | [] => raise "IndexError: index 0 is out of bounds"
  end.

Definition decision_text (raw : bool) (out : Z) : string :=
  if raw then PyStr.of_Z out
  else if (out =? 1)%Z then "PUMP: ON" else "PUMP: OFF".

Definition newline : string := String (ascii_of_nat 10) EmptyString.

Record sensor_doc := mkSensor {
  moisture : option Q;
  temperature : option Q;
  humidity : option Q;
  sensor_deviceId : option string
}.

(** The command line, as [parse_args] returns it. *)
Record arguments := mkArguments {
  arg_model : string;
  arg_soil : option Q;
  arg_temp : option Q;
  arg_hum : option Q;
  arg_from_db : bool;
  arg_device_id : option string;
  arg_mongo_uri : string;
  arg_raw : bool
}.

(** What surrounds the script: the file system, [joblib], the two
    collections of the document store and the clock. *)
Record env := mkEnv {
  path_exists : string -> bool;
  joblib_load : string -> outcome pyval;
  find_latest : string -> option string -> outcome (option sensor_doc);
  utcnow_isoformat : string;
  insert_one : string -> prediction_doc -> outcome string
}.

(** [s or dflt] for an optional string. *)
Definition str_or (s : option string) (dflt : string) : string :=
  match s with
  | Some (String c s') => String c s'
  | _ => dflt
  end.

Definition provided_of (soil temp hum : option Q) : gmap string Q :=
  let put k (v : option Q) (m : gmap string Q) :=
    match v with Some q => <[k := q]> m | None => m end in
  put "soil" soil (put "temp" temp (put "hum" hum ∅)).

Section Script.
(** [str(x)] for a float. *)
Variable str_float : Q -> string.
Variable E : env.

Definition str_value (v : option Q) : string :=
  match v with Some q => str_float q | None => "None" end.

(** [fetch_latest_sensor_data(mongo_uri, device_id)] *)
Definition fetch_latest_sensor_data (mongo_uri : string) (device_id : option string)
  : io sensor_doc :=
  let filter_query :=
    match device_id with
    | Some (String c s) => Some (String c s)
    | _ => None
    end in
  match find_latest E mongo_uri filter_query with
  | Returns (Some latest) => mret latest
  | Returns None =>
      raise ("Failed to fetch from MongoDB: No sensor data found"
               ++ match filter_query with
                  | Some d => " for device " ++ d
                  | None => ""
                  end)
  | Raises e => raise ("Failed to fetch from MongoDB: " ++ e)
  end.

(** The record [save_prediction_to_db] writes. *)
Definition make_prediction_doc (device_id : option string) (pump_status : Z)
  : prediction_doc :=
  {| deviceId := str_or device_id "unknown";
     waterMM := 10;
     pumpTimeSec := 20;
     predictionId := utcnow_isoformat E ++ "Z";
     used := (pump_status =? 0)%Z |}.

(** [save_prediction_to_db(mongo_uri, device_id, pump_status)] *)
Definition save_prediction_to_db (mongo_uri : string) (device_id : option string)
    (pump_status : Z) : io string :=
  let prediction_doc := make_prediction_doc device_id pump_status in
  emit (InsertOne prediction_doc);;
  match insert_one E mongo_uri prediction_doc with
  | Returns inserted_id => mret inserted_id
  | Raises e => raise ("Failed to save prediction to MongoDB: " ++ e)
  end.

(** The raw inputs and the device id: from the store or the command
    line. *)
Definition obtain_raw_input (args : arguments)
  : io (gmap string Q * option string) :=
  if arg_from_db args then
    try_except
      (print "Fetching latest sensor data from MongoDB...";;
       sensor_data ← fetch_latest_sensor_data (arg_mongo_uri args) (arg_device_id args);
       let device_id := sensor_deviceId sensor_data in
       print ("Using sensor data from device: " ++ str_or device_id "N/A");;
       print ("  Moisture: " ++ str_value (moisture sensor_data) ++ "%");;
       print ("  Temperature: " ++ str_value (temperature sensor_data) ++ "Â°C");;
       print ("  Humidity: " ++ str_value (humidity sensor_data) ++ "%");;
       mret (provided_of (moisture sensor_data) (temperature sensor_data)
                         (humidity sensor_data),
             device_id))
      (fun e => eprint ("Error fetching from database: " ++ e);; exit 1)
  else
    mret (provided_of (arg_soil args) (arg_temp args) (arg_hum args), None).

(** [main] up to the reconciled row. *)
Definition prepare (args : arguments)
  : io (pyval * list (string * Q) * option string) :=
  let model_path := arg_model args in
  if negb (path_exists E model_path) then
    print ("Model file not found: " ++ model_path);; exit 1
  else
    obj ← match joblib_load E model_path with
          | Returns obj => mret obj
          | Raises e => raise e
          end;
    '(model, features, metadata) ← load_artifact obj;
    if is_none model then
      print "No model found inside artifact.";; exit 1
    else
      '(provided, device_id) ← obtain_raw_input args;
      X ← reconcile features provided;
      mret (model, X, device_id).

(** [main] from the call of the model on. *)
Definition conclude (args : arguments) (model : pyval) (X : list (string * Q))
    (device_id : option string) : io unit :=
  yhat ← predict_with_fallback model X;
  out ← first_label yhat;
  print (decision_text (arg_raw args) out);;
  try_except
    (print (newline ++ "Saving prediction to MongoDB...");;
     inserted_id ← save_prediction_to_db (arg_mongo_uri args) device_id out;
     print ("Prediction saved with ID: " ++ inserted_id))
    (fun e => eprint ("Warning: Failed to save prediction to database: " ++ e)).

Definition main (args : arguments) : io unit :=
  '(model, X, device_id) ← prepare args;
  conclude args model X device_id.

End Script.

(** *** Vocabulary of the specification *)

(** The keyword sets in their priority order, as the specification lists
    them: the key of the first set with a keyword in the name. *)
Definition priority_key (fl : string) : option string :=
  if PyStr.contains "soil" fl || PyStr.contains "moist" fl then Some "soil"
  else if PyStr.contains "temp" fl || PyStr.contains "temperature" fl then Some "temp"
  else if PyStr.contains "hum" fl || PyStr.contains "humid" fl
          || PyStr.contains "humidity" fl then Some "hum"
  else None.

(** Whether an object exposing [predict] can be found in a bundle: among
    the values of a mapping, or the bundle itself otherwise. *)
Definition predictable_somewhere (obj : pyval) : bool :=
  match obj with
  | PyDict items => existsb has_predict items.*2
  | _ => has_predict obj
  end.

Definition is_mapping (obj : pyval) : bool :=
  match obj with PyDict _ => true | _ => false end.

(** The raw inputs that were not supplied, in the order they are asked. *)
Definition missing_keys (provided : gmap string Q) : list string :=
  filter (fun k => provided !! k = None) ["soil"; "temp"; "hum"].

End Predict.

(** ** Example inputs *)

Module Examples.
Import Pandas FeatureEngineering Predict.

(** Ten-minute observations over two hours, from 2024-05-24 00:00 UTC. *)
Definition demo_obs : DataFrame :=
  {| colnames := raw_columns;
     rows := (fun i : nat =>
                ((28608480 + Z.of_nat i * 10) * ns_per_minute,
                 list_to_map [("moisture", Some (inject_Z (Z.of_nat i)));
                              ("temperature", Some 20%Q);
                              ("humidity", Some 50%Q)]))
             <$> seq 0 12 |}.

Definition demo_agg : DataFrame :=
  default {| colnames := []; rows := [] |} (resample_and_aggregate demo_obs 15).

Definition bundle_without_model : pyval :=
  PyDict [("model", PyNone); ("features", PyNames ["soil"; "temp"; "hum"])].

(** A run used as an example: the model file holds a bundle whose handle
    refuses a frame with named columns and answers 1 on a bare array; the
    three raw inputs are given on the command line; the prediction store
    is down. *)
Definition picky_predict (calls : nat) (arg : predict_arg) : outcome (list Z) :=
  match arg with
  | Structured _ => Raises "named columns are not supported"
  | Flat _ => Returns [1]
  end.

Definition deaf_predict (calls : nat) (arg : predict_arg) : outcome (list Z) :=
  match arg with
  | Structured _ => Raises "named columns are not supported"
  | Flat _ => Raises "expected 12 features"
  end.

Definition picky_handle : object :=
  {| obj_truthy := true; obj_predict := Some picky_predict |}.

Definition deaf_handle : object :=
  {| obj_truthy := true; obj_predict := Some deaf_predict |}.

Definition demo_env (handle : object) : env :=
  {| path_exists := fun _ => true;
     joblib_load := fun _ => Returns (PyDict [("model", PyObj handle)]);
     find_latest := fun _ _ => Raises "connection refused";
     utcnow_isoformat := "2026-05-25T06:00:00.000000";
     insert_one := fun _ _ => Raises "connection refused" |}.

Definition demo_args : arguments :=
  {| arg_model := "model.pkl";
     arg_soil := Some 23.5%Q; arg_temp := Some 19%Q; arg_hum := Some 55%Q;
     arg_from_db := false; arg_device_id := None;
     arg_mongo_uri := "mongodb://127.0.0.1:27017";
     arg_raw := false |}.

Definition demo_row : list (string * Q) :=
  [("soil", 23.5%Q); ("temp", 19%Q); ("hum", 55%Q)].

Definition no_format : Q -> string := fun _ => "".

Definition fresh_world : world := {| stdin := []; trace := [] |}.

(** Raw inputs with the temperature only. *)
Definition temp_only : gmap string Q := {[ "temp" := 19%Q ]}.

End Examples.

(** ** Further vocabulary *)

Module Readings.
Import Pandas FeatureEngineering.

(** The cell of column [c] at interval [z] of a series, NaN when [z] is not
    an interval of it. *)
Definition cell_at (df : DataFrame) (c : string) (z : Z) : cell :=
  lookupZ (col df c).*2 z.

(** The target [build_dataset] finds for the row labelled [t]: the value the
    shifted moisture series has at that label. *)
Definition target_at (agg : DataFrame) (h : Z) (t : Z) : cell :=
  default None ((list_to_map (shift (- h) (col agg "moisture")) : gmap Z cell) !! t).

End Readings.

Module Runs.
Import Predict.

(** A computation only produces events of one kind: whatever it returns,
    the trace it leaves is the one it found and then events that satisfy
    [P]. *)
Definition only {A} (P : event -> Prop) (m : io A) : Prop :=
  forall w r w', m w = (r, w') ->
    exists evs, trace w' = (trace w ++ evs)%list /\ Forall P evs.

(** Printing and prompting. *)
Definition is_console (e : event) : Prop :=
  match e with
  | Stdout _ | Stderr _ | Input _ => True
  | PredictCall _ | InsertOne _ => False
  end.

Definition is_insert (e : event) : bool :=
  match e with InsertOne _ => true | _ => false end.

(** The raw input a feature name resolves to by its keywords, when it does
    and the input is supplied. *)
Definition resolved (provided : gmap string Q) (feat : string) : option Q :=
  key ← priority_key (PyStr.lower feat); provided !! key.

(** How a computation ended, whatever it returned. *)
Inductive ending := Returned | Raised | Exited (code : Z) | Hung.

Definition ending_of {A} (r : result A) : ending :=
  match r with
  | Ret _ => Returned
  | Raise _ => Raised
  | Exit c => Exited c
  | Hang => Hung
  end.

(** A computation only ends in the ways [R] allows. *)
Definition ends {A} (R : ending -> Prop) (m : io A) : Prop :=
  forall w, R (ending_of (m w).1).

(** It returns or waits for input for ever: it neither raises nor exits. *)
Definition returns_or_hangs (k : ending) : Prop := k = Returned \/ k = Hung.

(** When it exits, it exits with status 1. *)
Definition exits_with_1 (k : ending) : Prop := forall c, k = Exited c -> c = 1.

(** The events a run adds to the trace it starts from. *)
Definition produced {A} (m : io A) (w : world) : list event :=
  drop (length (trace w)) (trace (m w).2).

(** The device the latest document is asked for: an empty id asks for
    any. *)
Definition nonempty (s : option string) : option string :=
  match s with
  | Some (String c s') => Some (String c s')
  | _ => None
  end.

End Runs.

(** ** Further examples *)

Module Scenarios.
Import Pandas FeatureEngineering Predict Examples.

(** What [create_lag_features] keeps of the example series, with two lags. *)
Definition demo_feats : DataFrame :=
  default {| colnames := []; rows := [] |} (create_lag_features Examples.demo_agg 2).

(** The label of interval [i] of the example series. *)
Definition demo_label (i : Z) : Z := (28608480 + 15 * i) * ns_per_minute.

(** The first row kept. *)
Definition demo_kept : row := default (0, ∅) (rows demo_feats !! 0%nat).

(** The training pair of the example series, with two lags and horizon 1. *)
Definition demo_pair : DataFrame * Series :=
  default ({| colnames := []; rows := [] |}, []) (build_dataset Examples.demo_agg 2 1).

(** The first row of its feature matrix. *)
Definition demo_first : row := default (0, ∅) (rows demo_pair.1 !! 0%nat).

(** The same with horizon 0. *)
Definition demo_pair0 : DataFrame * Series :=
  default ({| colnames := []; rows := [] |}, []) (build_dataset Examples.demo_agg 2 0).

(** Three observations 75 minutes apart, the second without a temperature. *)
Definition gap_obs : DataFrame :=
  {| colnames := raw_columns;
     rows := (fun i : nat =>
                ((28608480 + 7 + Z.of_nat i * 75) * ns_per_minute,
                 list_to_map [("moisture", Some (inject_Z (Z.of_nat i)));
                              ("temperature", if Nat.even i then Some 20%Q else None);
                              ("humidity", Some 50%Q)]))
             <$> seq 0 3 |}.

Definition gap_agg : DataFrame :=
  default {| colnames := []; rows := [] |} (resample_and_aggregate gap_obs 15).

(** Its third interval, filled from the first. *)
Definition gap_filled : row := default (0, ∅) (rows gap_agg !! 2%nat).

(** The three raw inputs of the example run. *)
Definition demo_provided : gmap string Q :=
  provided_of (Some 23.5%Q) (Some 19%Q) (Some 55%Q).

(** The example run asked to use device "bed-7", the raw inputs still given
    on the command line. *)
Definition store_args : arguments :=
  {| arg_model := "model.pkl";
     arg_soil := Some 23.5%Q; arg_temp := Some 19%Q; arg_hum := Some 55%Q;
     arg_from_db := false; arg_device_id := Some "bed-7";
     arg_mongo_uri := "mongodb://127.0.0.1:27017";
     arg_raw := false |}.

(** The example run told to take the latest readings of device "bed-7"
    from the store. *)
Definition lookup_args : arguments :=
  {| arg_model := "model.pkl";
     arg_soil := None; arg_temp := None; arg_hum := None;
     arg_from_db := true; arg_device_id := Some "bed-7";
     arg_mongo_uri := "mongodb://127.0.0.1:27017";
     arg_raw := false |}.

End Scenarios.

(** * Properties *)

Module PyStrFacts.
Import PyStr.

Lemma to_int_nonnil (z : Z) :
  Z.to_int z <> Decimal.Pos Decimal.Nil /\ Z.to_int z <> Decimal.Neg Decimal.Nil.
Proof.
  destruct z as [|p|p]; simpl; split; try discriminate;
    intros [= H]; by apply (DecimalPos.Unsigned.to_uint_nonnil p).
Qed.

Lemma of_Z_inj (a b : Z) : of_Z a = of_Z b -> a = b.
Proof.
  unfold of_Z. intros H.
  apply (f_equal NilZero.int_of_string) in H.
  destruct (to_int_nonnil a), (to_int_nonnil b).
  rewrite !NilZero.isi in H by done. injection H as H.
  by apply DecimalZ.to_int_inj.
Qed.

Lemma startswith_app (p s : string) : startswith p (p ++ s) = true.
Proof. induction p as [|a p IH]; simpl; [done|]. by rewrite Ascii.eqb_refl. Qed.

Lemma range_elem (a b x : Z) : x ∈ range a b <-> a <= x < b.
Proof.
  unfold range. rewrite list_elem_of_fmap. split.
  - intros (i & -> & Hi). apply elem_of_seq in Hi. lia.
  - intros Hx. exists (Z.to_nat (x - a)). split; [lia|].
    apply elem_of_seq. lia.
Qed.

End PyStrFacts.

Module PandasFacts.
Import Pandas.

Lemma cell_of_insert (m : gmap string cell) (c c' : string) (v : cell) :
  cell_of (<[c := v]> m) c' = if decide (c = c') then v else cell_of m c'.
Proof.
  unfold cell_of. rewrite lookup_insert. by destruct (decide (c = c')).
Qed.

Lemma length_col df c : length (col df c) = length (rows df).
Proof. unfold col. by rewrite length_map. Qed.

Lemma col_index df c : (col df c).*1 = df_index df.
Proof.
  unfold col, df_index. rewrite <- list_fmap_compose. by apply list_fmap_ext.
Qed.

Lemma col_lookup df c i t r :
  rows df !! i = Some (t, r) -> col df c !! i = Some (t, cell_of r c).
Proof. intros H. unfold col. by rewrite list_lookup_fmap, H. Qed.

Lemma length_shift k (s : Series) : length (shift k s) = length s.
Proof. unfold shift. by rewrite length_imap. Qed.

Lemma shift_index k (s : Series) : (shift k s).*1 = s.*1.
Proof.
  unfold shift. apply list_eq. intros i.
  rewrite !list_lookup_fmap, list_lookup_imap. by destruct (s !! i).
Qed.

Lemma shift_lookup k (s : Series) i t v :
  s !! i = Some (t, v) ->
  shift k s !! i = Some (t, lookupZ s.*2 (Z.of_nat i - k)).
Proof. intros H. unfold shift. by rewrite list_lookup_imap, H. Qed.

Section SetCol.
Context (df : DataFrame) (c : string) (s : Series).
Hypothesis Hlen : length s = length (rows df).

Lemma length_set_col : length (rows (set_col df c s)) = length (rows df).
Proof. simpl. rewrite length_zip_with. lia. Qed.

Lemma set_col_index : df_index (set_col df c s) = df_index df.
Proof.
  unfold df_index. apply list_eq. intros i.
  rewrite !list_lookup_fmap. simpl. rewrite lookup_zip_with.
  destruct (rows df !! i) as [[t r]|] eqn:Hr; simpl; [|done].
  destruct (lookup_lt_is_Some_2 s i) as [v Hv].
  { rewrite Hlen. by eapply lookup_lt_Some. }
  by rewrite Hv.
Qed.

Lemma col_set_col_eq : (col (set_col df c s) c).*2 = s.*2.
Proof.
  apply list_eq. intros i. unfold col.
  rewrite !list_lookup_fmap. simpl. rewrite lookup_zip_with.
  destruct (s !! i) as [v|] eqn:Hv; simpl.
  - destruct (lookup_lt_is_Some_2 (rows df) i) as [r Hr].
    { rewrite <- Hlen. by eapply lookup_lt_Some. }
    rewrite Hr. simpl. rewrite cell_of_insert. by rewrite decide_True.
  - by destruct (rows df !! i).
Qed.

Lemma col_set_col_ne c' : c <> c' -> col (set_col df c s) c' = col df c'.
Proof.
  intros Hne. apply list_eq. intros i. unfold col.
  rewrite !list_lookup_fmap. simpl. rewrite lookup_zip_with.
  destruct (rows df !! i) as [[t r]|] eqn:Hr; simpl; [|done].
  destruct (lookup_lt_is_Some_2 s i) as [v Hv].
  { rewrite Hlen. by eapply lookup_lt_Some. }
  rewrite Hv. simpl. rewrite cell_of_insert. by rewrite decide_False.
Qed.
End SetCol.

Lemma set_col_colnames_elem df c s c' :
  c' ∈ colnames (set_col df c s) <-> c' = c \/ c' ∈ colnames df.
Proof.
  simpl. case_bool_decide as Hc.
  - split; [by right|]. by intros [->|].
  - rewrite elem_of_app, list_elem_of_singleton. tauto.
Qed.

Lemma set_col_colnames_new df c s :
  c ∉ colnames df -> colnames (set_col df c s) = (colnames df ++ [c])%list.
Proof. intros H. simpl. by rewrite bool_decide_eq_false_2. Qed.

Lemma get_col_Some df c : c ∈ colnames df -> get_col df c = Some (col df c).
Proof. intros H. unfold get_col. by rewrite bool_decide_eq_true_2. Qed.

End PandasFacts.

Module FeatureFacts.
Import Pandas PandasFacts FeatureEngineering.

Ltac len :=
  idtac;
  repeat first
    [ rewrite length_col | rewrite length_shift | rewrite length_imap
    | rewrite length_zip_with | rewrite length_fmap | rewrite length_map
    | rewrite length_set_col by len ];
  try lia.

(** Membership of a name in a literal list of column names. *)
Ltac split_elem :=
  repeat match goal with
    | H : _ ∈ _ :: _ |- _ => apply elem_of_cons in H as [H|H]
    | H : _ ∈ [] |- _ => by apply elem_of_nil in H
    end;
  subst; try discriminate.

Ltac is_elem := by repeat constructor.

Ltac not_elem := let H := fresh in intros H; by split_elem.

Lemma lag_name_inj a b : lag_name a = lag_name b -> a = b.
Proof. unfold lag_name. simpl. intros [= H]. by apply PyStrFacts.of_Z_inj. Qed.

Lemma lag_name_is_feature k : is_feature_col (lag_name k) = true.
Proof. unfold is_feature_col, lag_name. by rewrite PyStrFacts.startswith_app. Qed.

Lemma lag_name_fresh k :
  lag_name k ∉ ["moisture"; "temperature"; "humidity"; "moisture_diff_1";
                "moisture_rolling_mean_3"; "hour"; "dayofyear"; "dayofweek"].
Proof.
  unfold lag_name. simpl. rewrite !elem_of_cons, elem_of_nil.
  intros H. repeat destruct H as [H|H]; done.
Qed.

Lemma target_name_not_feature h : is_feature_col (target_name h) = false.
Proof. unfold is_feature_col, target_name. by simpl. Qed.

Lemma target_name_fresh h k :
  target_name h <> lag_name k /\
  target_name h ∉ ["moisture"; "temperature"; "humidity"; "moisture_diff_1";
                   "moisture_rolling_mean_3"; "hour"; "dayofyear"; "dayofweek"].
Proof.
  unfold lag_name, target_name. simpl. split; [done|].
  rewrite !elem_of_cons, elem_of_nil.
  intros H. repeat destruct H as [H|H]; done.
Qed.

(** What the lag loop leaves behind. *)
Lemma add_lags_spec (lags : list Z) : forall X : DataFrame,
  "moisture" ∈ colnames X ->
  exists X', add_lags X lags = Some X' /\
    df_index X' = df_index X /\
    length (rows X') = length (rows X) /\
    (forall c, c ∉ lag_name <$> lags -> col X' c = col X c) /\
    (forall k, k ∈ lags ->
       (col X' (lag_name k)).*2 = (shift k (col X "moisture")).*2) /\
    (forall c, c ∈ colnames X' <-> c ∈ colnames X \/ c ∈ lag_name <$> lags) /\
    (NoDup lags -> (forall k, k ∈ lags -> lag_name k ∉ colnames X) ->
     colnames X' = (colnames X ++ (lag_name <$> lags))%list).
Proof.
  induction lags as [|l ls IH]; intros X Hm.
  - exists X. do 4 (split; [done|]). split; [|split].
    + intros k Hk. by apply elem_of_nil in Hk.
    + intros c. rewrite fmap_nil, elem_of_nil. tauto.
    + intros _ _. by rewrite fmap_nil, app_nil_r.
  - set (m := col X "moisture").
    set (X1 := set_col X (lag_name l) (shift l m)).
    assert (Hlen : length (shift l m) = length (rows X)) by (unfold m; len).
    assert (Hne : lag_name l <> "moisture").
    { intros E. apply (lag_name_fresh l). rewrite E. set_solver. }
    assert (Hm1 : col X1 "moisture" = m) by (by apply col_set_col_ne).
    destruct (IH X1) as (X' & Hrun & Hidx & Hrows & Hother & Hlag & Hcols & Hexact).
    { apply set_col_colnames_elem. by right. }
    exists X'. split.
    { unfold add_lags in *. simpl. rewrite (get_col_Some X "moisture") by done.
      simpl. exact Hrun. }
    split. { rewrite Hidx. by apply set_col_index. }
    split. { rewrite Hrows. by apply length_set_col. }
    split.
    { intros c Hc. rewrite fmap_cons, not_elem_of_cons in Hc. destruct Hc as [Hc1 Hc2].
      rewrite Hother by done. by apply col_set_col_ne. }
    split.
    { intros k Hk. destruct (decide (k ∈ ls)) as [Hin|Hnin].
      - rewrite Hlag by done. by rewrite Hm1.
      - apply elem_of_cons in Hk as [->|Hk]; [|done].
        rewrite Hother.
        + by apply col_set_col_eq.
        + rewrite list_elem_of_fmap. intros (k' & Hk' & Hin).
          apply lag_name_inj in Hk'. by subst. }
    split.
    { intros c. rewrite Hcols. unfold X1. rewrite set_col_colnames_elem.
      rewrite fmap_cons, elem_of_cons. tauto. }
    intros Hnd Hfresh. apply NoDup_cons in Hnd as [Hl Hnd].
    rewrite Hexact.
    + unfold X1. rewrite set_col_colnames_new.
      * by rewrite fmap_cons, <- app_assoc.
      * apply Hfresh. by left.
    + done.
    + intros k Hk. unfold X1. rewrite set_col_colnames_elem.
      intros [E|Hin].
      * apply lag_name_inj in E. by subst.
      * apply (Hfresh k); [by right|done].
Qed.

Lemma range_NoDup a b : NoDup (PyStr.range a b).
Proof.
  unfold PyStr.range. apply NoDup_fmap_2; [|apply NoDup_seq].
  intros x y. lia.
Qed.

Lemma length_series_sub (a b : Series) :
  length a = length b -> length (series_sub a b) = length a.
Proof. intros H. unfold series_sub. rewrite length_zip_with. lia. Qed.

Lemma length_index_field f df : length (index_field f df) = length (rows df).
Proof. unfold index_field, df_index. by rewrite !length_fmap. Qed.

(** The frame [create_lag_features] builds before its final [dropna]. *)
Lemma create_lag_features_spec (agg : DataFrame) (lags : Z) :
  "moisture" ∈ colnames agg ->
  exists X, create_lag_features agg lags = Some (dropna X) /\
    df_index X = df_index agg /\
    col X "moisture" = col agg "moisture" /\
    (forall k, 1 <= k <= lags ->
       lag_name k ∈ colnames X /\
       (col X (lag_name k)).*2 = (shift k (col agg "moisture")).*2) /\
    (colnames agg = raw_columns ->
     colnames X = (raw_columns ++ (lag_name <$> PyStr.range 1 (lags + 1))
                     ++ derived_columns)%list).
Proof.
  intros Hm.
  destruct (add_lags_spec (PyStr.range 1 (lags + 1)) agg Hm)
    as (X0 & Hrun & Hidx & Hrows & Hother & Hlag & Hcols & Hexact).
  assert (Hm0 : "moisture" ∈ colnames X0) by (apply Hcols; by left).
  assert (Hfix : forall c, c ∈ "moisture" :: derived_columns ->
                   c ∉ lag_name <$> PyStr.range 1 (lags + 1)).
  { intros c Hc. rewrite list_elem_of_fmap. intros (k & -> & _).
    apply (lag_name_fresh k). unfold derived_columns in Hc.
    split_elem; rewrite Hc; is_elem. }
  set (m := col X0 "moisture").
  set (X1 := set_col X0 "moisture_diff_1" (series_sub m (shift 1 m))).
  set (X2 := set_col X1 "moisture_rolling_mean_3" (rolling_mean 3 1 (col X1 "moisture"))).
  set (X3 := set_col X2 "hour" (index_field hour_of X2)).
  set (X4 := set_col X3 "dayofyear" (index_field dayofyear_of X3)).
  set (X5 := set_col X4 "dayofweek" (index_field dayofweek_of X4)).
  assert (L1 : length (series_sub m (shift 1 m)) = length (rows X0)).
  { rewrite length_series_sub; unfold m; len. }
  assert (R1 : length (rows X1) = length (rows X0)) by (by apply length_set_col).
  assert (L2 : length (rolling_mean 3 1 (col X1 "moisture")) = length (rows X1)).
  { unfold rolling_mean. len. }
  assert (R2 : length (rows X2) = length (rows X1)) by (by apply length_set_col).
  assert (L3 : length (index_field hour_of X2) = length (rows X2))
    by apply length_index_field.
  assert (R3 : length (rows X3) = length (rows X2)) by (by apply length_set_col).
  assert (L4 : length (index_field dayofyear_of X3) = length (rows X3))
    by apply length_index_field.
  assert (R4 : length (rows X4) = length (rows X3)) by (by apply length_set_col).
  assert (L5 : length (index_field dayofweek_of X4) = length (rows X4))
    by apply length_index_field.
  assert (Hkeep : forall c, c ∉ derived_columns -> col X5 c = col X0 c).
  { intros c Hc. unfold derived_columns in Hc.
    rewrite !not_elem_of_cons in Hc. destruct Hc as (?&?&?&?&?&_).
    unfold X5. rewrite col_set_col_ne by done.
    unfold X4. rewrite col_set_col_ne by done.
    unfold X3. rewrite col_set_col_ne by done.
    unfold X2. rewrite col_set_col_ne by done.
    unfold X1. by rewrite col_set_col_ne by done. }
  assert (Hnames : forall c, c ∈ colnames X0 -> c ∈ colnames X5).
  { intros c Hc. unfold X5, X4, X3, X2, X1.
    rewrite !set_col_colnames_elem. tauto. }
  exists X5. split.
  { unfold create_lag_features. rewrite Hrun. simpl.
    rewrite (get_col_Some X0 "moisture") by done. simpl.
    rewrite (get_col_Some _ "moisture"); [done|].
    apply set_col_colnames_elem. by right. }
  split.
  { unfold X5. rewrite set_col_index by done.
    unfold X4. rewrite set_col_index by done.
    unfold X3. rewrite set_col_index by done.
    unfold X2. rewrite set_col_index by done.
    unfold X1. by rewrite set_col_index by done. }
  split.
  { rewrite Hkeep by (unfold derived_columns; not_elem).
    apply Hother, Hfix. by left. }
  split.
  { intros k Hk.
    assert (Hin : k ∈ PyStr.range 1 (lags + 1)) by (apply PyStrFacts.range_elem; lia).
    split.
    - apply Hnames, Hcols. right. by apply list_elem_of_fmap_2.
    - rewrite Hkeep; [by apply Hlag|].
      intros Hd. apply (Hfix (lag_name k)); [by right|].
      by apply list_elem_of_fmap_2. }
  intros Hraw.
  assert (E0 : colnames X0 = (raw_columns ++ (lag_name <$> PyStr.range 1 (lags + 1)))%list).
  { rewrite <- Hraw. apply Hexact; [apply range_NoDup|].
    intros k _. rewrite Hraw. intros Hin. apply (lag_name_fresh k).
    unfold raw_columns in Hin. split_elem; rewrite Hin; is_elem. }
  assert (Hnew : forall c (cs : list string), c ∈ derived_columns -> c ∉ cs ->
            c ∉ "moisture" :: "temperature" :: "humidity" :: cs ->
            c ∉ (colnames X0 ++ cs)%list).
  { intros c cs Hc Hncs Hraws. rewrite E0, !elem_of_app. intros [[Hr|Hl]|Hcs]; [| |done].
    - apply Hraws. unfold raw_columns in Hr. split_elem; is_elem.
    - apply (Hfix c); [by right|done]. }
  assert (C1 : colnames X1 = (colnames X0 ++ ["moisture_diff_1"])%list).
  { apply set_col_colnames_new. rewrite <- (app_nil_r (colnames X0)).
    apply Hnew; [is_elem|not_elem|not_elem]. }
  assert (C2 : colnames X2
               = (colnames X0 ++ ["moisture_diff_1"; "moisture_rolling_mean_3"])%list).
  { unfold X2. rewrite set_col_colnames_new; rewrite C1.
    - by rewrite <- app_assoc.
    - apply Hnew; [is_elem|not_elem|not_elem]. }
  assert (C3 : colnames X3
               = (colnames X0 ++ ["moisture_diff_1"; "moisture_rolling_mean_3";
                                  "hour"])%list).
  { unfold X3. rewrite set_col_colnames_new; rewrite C2.
    - by rewrite <- app_assoc.
    - apply Hnew; [is_elem|not_elem|not_elem]. }
  assert (C4 : colnames X4
               = (colnames X0 ++ ["moisture_diff_1"; "moisture_rolling_mean_3";
                                  "hour"; "dayofyear"])%list).
  { unfold X4. rewrite set_col_colnames_new; rewrite C3.
    - by rewrite <- app_assoc.
    - apply Hnew; [is_elem|not_elem|not_elem]. }
  unfold X5. rewrite set_col_colnames_new; rewrite C4.
  - rewrite E0. unfold derived_columns. by rewrite <- !app_assoc.
  - apply Hnew; [is_elem|not_elem|not_elem].
Qed.

End FeatureFacts.

Module ResampleFacts.
Import Pandas PandasFacts FeatureEngineering.

(** *** Forward fill *)

Lemma length_ffill_go limit (l : list cell) : forall last filled,
  length (ffill_go limit last filled l) = length l.
Proof.
  induction l as [|[v|] l IH]; intros last filled; simpl; by rewrite ?IH.
Qed.

(** A known value is kept, and filling restarts after it. *)
Lemma ffill_go_known limit (l : list cell) : forall k v last filled,
  l !! k = Some (Some v) ->
  ffill_go limit last filled l !! k = Some (Some v) /\
  drop (S k) (ffill_go limit last filled l)
  = ffill_go limit (Some v) 0 (drop (S k) l).
Proof.
  induction l as [|x l IH]; intros k v last filled Hk; [done|].
  destruct k as [|k].
  - simpl in Hk. injection Hk as ->. simpl. by rewrite drop_0.
  - simpl in Hk. destruct x as [x|]; simpl; by apply IH.
Qed.

(** Inside a run of missing values that follows a known one, a position is
    filled exactly while fewer than [limit] values have been filled. *)
Lemma ffill_go_run limit (l : list cell) : forall j g v filled,
  (forall i, (i < g)%nat -> l !! i = Some None) ->
  (j < g)%nat ->
  ffill_go limit (Some v) filled l !! j
  = Some (if decide (filled + j < limit)%nat then Some v else None).
Proof.
  induction l as [|x l IH]; intros j g v filled Hrun Hj.
  - specialize (Hrun j Hj). done.
  - assert (x = None) as ->.
    { specialize (Hrun 0%nat ltac:(lia)). simpl in Hrun. by injection Hrun. }
    destruct j as [|j]; cbn.
    + by rewrite Nat.add_0_r.
    + etrans; [apply (IH j (pred g) v (S filled))|].
      * intros i Hi. apply (Hrun (S i)). lia.
      * lia.
      * by replace (S filled + j)%nat with (filled + S j)%nat by lia.
Qed.

Lemma ffill_values_known limit (l : list cell) k v :
  l !! k = Some (Some v) -> ffill_values limit l !! k = Some (Some v).
Proof. intros H. by apply ffill_go_known. Qed.

Lemma ffill_values_run limit (l : list cell) k g j v :
  l !! k = Some (Some v) ->
  (forall i, (1 <= i <= g)%nat -> l !! (k + i)%nat = Some None) ->
  (1 <= j <= g)%nat ->
  ffill_values limit l !! (k + j)%nat
  = Some (if decide (j <= limit)%nat then Some v else None).
Proof.
  intros Hk Hrun Hj. unfold ffill_values.
  destruct (ffill_go_known limit l k v None 0%nat Hk) as [_ Hdrop].
  replace (k + j)%nat with (S k + pred j)%nat by lia.
  rewrite <- (lookup_drop (ffill_go limit None 0 l) (S k) (pred j)), Hdrop.
  rewrite (ffill_go_run limit _ (pred j) g v 0%nat).
  - simpl. destruct (decide (pred j < limit)%nat), (decide (j <= limit)%nat);
      (done || lia).
  - intros i Hi. rewrite lookup_drop.
    replace (S k + i)%nat with (k + S i)%nat by lia. apply Hrun. lia.
  - lia.
Qed.

Lemma length_ffill_series limit (s : Series) :
  length (ffill_series limit s) = length s.
Proof.
  unfold ffill_series, ffill_values.
  rewrite length_zip_with, length_ffill_go, !length_fmap. lia.
Qed.

Lemma ffill_series_values limit (s : Series) :
  (ffill_series limit s).*2 = ffill_values limit s.*2.
Proof.
  unfold ffill_series. apply snd_zip.
  unfold ffill_values. rewrite length_ffill_go, !length_fmap. lia.
Qed.

(** [ffill] on a frame that has exactly the three raw columns. *)
Lemma ffill_raw limit (df : DataFrame) :
  colnames df = raw_columns ->
  colnames (ffill limit df) = raw_columns /\
  df_index (ffill limit df) = df_index df /\
  forall c, c ∈ raw_columns ->
    (col (ffill limit df) c).*2 = ffill_values limit (col df c).*2.
Proof.
  intros Hc. unfold ffill. rewrite Hc. simpl.
  set (d1 := set_col df "moisture" (ffill_series limit (col df "moisture"))).
  set (d2 := set_col d1 "temperature" (ffill_series limit (col d1 "temperature"))).
  set (d3 := set_col d2 "humidity" (ffill_series limit (col d2 "humidity"))).
  assert (L1 : length (ffill_series limit (col df "moisture")) = length (rows df)).
  { by rewrite length_ffill_series, length_col. }
  assert (L2 : length (ffill_series limit (col d1 "temperature")) = length (rows d1)).
  { by rewrite length_ffill_series, length_col. }
  assert (L3 : length (ffill_series limit (col d2 "humidity")) = length (rows d2)).
  { by rewrite length_ffill_series, length_col. }
  assert (E1 : col d1 "temperature" = col df "temperature")
    by (by apply col_set_col_ne).
  assert (E2 : col d2 "humidity" = col df "humidity").
  { unfold d2. rewrite col_set_col_ne by done. by apply col_set_col_ne. }
  split; [|split].
  - unfold d3, d2, d1. simpl. rewrite Hc. by simpl.
  - unfold d3. rewrite set_col_index by done.
    unfold d2. rewrite set_col_index by done.
    by apply set_col_index.
  - intros c Hin. unfold raw_columns in Hin.
    apply elem_of_cons in Hin as [->|Hin]; [|apply elem_of_cons in Hin as [->|Hin]];
      [| |apply list_elem_of_singleton in Hin as ->].
    + unfold d3. rewrite col_set_col_ne by done.
      unfold d2. rewrite col_set_col_ne by done.
      unfold d1. rewrite col_set_col_eq by done. apply ffill_series_values.
    + unfold d3. rewrite col_set_col_ne by done.
      unfold d2. rewrite col_set_col_eq by done.
      by rewrite ffill_series_values, E1.
    + unfold d3. rewrite col_set_col_eq by done.
      by rewrite ffill_series_values, E2.
Qed.

(** *** Binning *)

Lemma bin_of_interval (width start t : Z) (k : nat) :
  0 < width ->
  bin_of width start t = Z.of_nat k <->
  start + Z.of_nat k * width <= t < start + Z.of_nat k * width + width.
Proof.
  intros Hw. unfold bin_of.
  pose proof (Z.div_mod (t - start) width ltac:(lia)) as Hdm.
  pose proof (Z.mod_pos_bound (t - start) width Hw) as Hmod.
  split.
  - intros <-. lia.
  - intros Ht. symmetry.
    apply (Z.div_unique_pos _ _ _ (t - start - Z.of_nat k * width)); lia.
Qed.

Lemma filter_fmap_label {A B} (P : B -> Prop) `{!forall x, Decision (P x)}
    (f : A -> B) (l : list A) :
  filter P (f <$> l) = f <$> filter (fun x => P (f x)) l.
Proof.
  induction l as [|a l IH]; [done|]. rewrite fmap_cons, !filter_cons.
  destruct (decide (P (f a))); by rewrite IH.
Qed.

Lemma cell_of_bin_mean (cols : list string) (rs : list row) c :
  c ∈ cols ->
  cell_of (bin_mean cols rs) c = nanmean 1 ((fun r : row => cell_of r.2 c) <$> rs).
Proof.
  intros Hc. unfold cell_of, bin_mean.
  erewrite elem_of_list_to_map_1'; [done| |].
  - intros y Hy. apply list_elem_of_fmap in Hy as (c' & [= <- ->] & _). done.
  - apply list_elem_of_fmap. by exists c.
Qed.

Lemma cell_of_restrict (cols : list string) (m : gmap string cell) c :
  c ∈ cols ->
  cell_of (filter (fun kv : string * cell => kv.1 ∈ cols) m) c = cell_of m c.
Proof.
  intros Hc. unfold cell_of. rewrite map_lookup_filter.
  destruct (m !! c) as [v|]; simpl; [|done]. by rewrite option_guard_True.
Qed.

Lemma select_spec df (cols : list string) sel :
  select df cols = Some sel ->
  colnames sel = cols /\
  rows sel = (fun r : row => (r.1, filter (fun kv : string * cell => kv.1 ∈ cols) r.2))
               <$> rows df.
Proof. unfold select. case_bool_decide; [|done]. by intros [= <-]. Qed.

Lemma resample_mean_colnames width df :
  colnames (resample_mean width df) = colnames df.
Proof. unfold resample_mean. by destruct (df_index df). Qed.

Lemma Zmin_list_le d (l : list Z) x : x ∈ d :: l -> Zmin_list d l <= x.
Proof.
  unfold Zmin_list. induction l as [|a l IH]; simpl.
  - intros Hx. apply list_elem_of_singleton in Hx. lia.
  - rewrite !elem_of_cons. intros [->|[->|Hx]].
    + assert (foldr Z.min d l <= d) by (apply IH; by left). lia.
    + lia.
    + assert (foldr Z.min d l <= x) by (apply IH; by right). lia.
Qed.

Lemma Zmax_list_ge d (l : list Z) x : x ∈ d :: l -> x <= Zmax_list d l.
Proof.
  unfold Zmax_list. induction l as [|a l IH]; simpl.
  - intros Hx. apply list_elem_of_singleton in Hx. lia.
  - rewrite !elem_of_cons. intros [->|[->|Hx]].
    + assert (d <= foldr Z.max d l) by (apply IH; by left). lia.
    + lia.
    + assert (x <= foldr Z.max d l) by (apply IH; by right). lia.
Qed.

Lemma resample_mean_rows width (df : DataFrame) :
  0 < width ->
  exists (start : Z) (n : nat),
    rows (resample_mean width df)
    = (fun k : nat =>
         (start + Z.of_nat k * width,
          bin_mean (colnames df)
            (filter (fun r : row => start + Z.of_nat k * width <= r.1
                                    < start + Z.of_nat k * width + width)
                    (rows df)))) <$> seq 0 n /\
    forall t, t ∈ df_index df ->
      exists k : nat, (k < n)%nat /\
        start + Z.of_nat k * width <= t < start + Z.of_nat k * width + width.
Proof.
  intros Hw. unfold resample_mean. destruct (df_index df) as [|t0 ts].
  - exists 0, 0%nat. split; [done|]. intros t Ht. by apply elem_of_nil in Ht.
  - eexists _, _. split.
    + simpl. apply list_fmap_ext. intros _ k _.
      f_equal. f_equal. unfold bin_rows. apply list_filter_iff. intros r.
      by apply bin_of_interval.
    + intros t Ht.
      pose proof (Zmin_list_le t0 ts t Ht) as Hlo.
      pose proof (Zmax_list_ge t0 ts t Ht) as Hhi.
      set (lo := Zmin_list t0 ts) in *. set (hi := Zmax_list t0 ts) in *.
      set (start := bin_origin width lo).
      assert (Hstart : start <= lo).
      { unfold start, bin_origin.
        pose proof (Z.mod_pos_bound (lo - (lo - lo `mod` ns_per_day)) width Hw). lia. }
      assert (Hk : 0 <= (t - start) / width <= (hi - start) / width).
      { split; [apply Z.div_pos; lia|apply Z.div_le_mono; lia]. }
      exists (Z.to_nat ((t - start) / width)). split.
      * unfold bin_count. fold start. lia.
      * apply bin_of_interval; [done|]. unfold bin_of. lia.
Qed.

(** The shape and the content of a resampled series. *)
Lemma resample_and_aggregate_spec obs w out :
  resample_and_aggregate obs w = Some out ->
  0 < w /\ colnames out = raw_columns /\
  exists (start : Z) (n : nat),
    df_index out
    = (fun k : nat => start + Z.of_nat k * (w * ns_per_minute)) <$> seq 0 n /\
    (forall t, t ∈ df_index obs ->
       exists k : nat, (k < n)%nat /\
         start + Z.of_nat k * (w * ns_per_minute) <= t
         < start + Z.of_nat k * (w * ns_per_minute) + w * ns_per_minute) /\
    forall c, c ∈ raw_columns ->
      (col out c).*2
      = ffill_values 2
          ((fun k : nat =>
              nanmean 1 (interval_cells obs c (start + Z.of_nat k * (w * ns_per_minute))
                                        (w * ns_per_minute)))
             <$> seq 0 n).
Proof.
  unfold resample_and_aggregate. intros H.
  destruct (select obs raw_columns) as [sel|] eqn:Hsel; [|done]. simpl in H.
  destruct (decide (0 < w)) as [Hw|]; [|done]. injection H as <-.
  apply select_spec in Hsel as [Hcols Hrows].
  set (width := w * ns_per_minute) in *.
  assert (Hwidth : 0 < width) by (unfold width, ns_per_minute; lia).
  pose proof (resample_mean_colnames width sel) as Hc0. rewrite Hcols in Hc0.
  destruct (ffill_raw 2 _ Hc0) as (Hc & Hidx & Hvals).
  destruct (resample_mean_rows width sel Hwidth) as (start & n & Hr & Hcover).
  split; [done|]. split; [done|]. exists start, n. split; [|split].
  - rewrite Hidx. unfold df_index. rewrite Hr, <- list_fmap_compose.
    by apply list_fmap_ext.
  - intros t Ht. apply Hcover. unfold df_index in *.
    rewrite Hrows, <- list_fmap_compose. exact Ht.
  - intros c Hin. rewrite (Hvals c Hin). f_equal.
    unfold col. rewrite Hr, <- !list_fmap_compose.
    apply list_fmap_ext. intros _ k _. simpl.
    rewrite Hcols, cell_of_bin_mean by done. f_equal.
    unfold interval_cells. rewrite Hrows, filter_fmap_label, <- list_fmap_compose.
    apply list_fmap_ext. intros _ r _. simpl. by apply cell_of_restrict.
Qed.

Lemma resampled_NoDup obs w out :
  resample_and_aggregate obs w = Some out -> NoDup (df_index out).
Proof.
  intros H. apply resample_and_aggregate_spec in H as (Hw & _ & start & n & -> & _).
  apply NoDup_fmap_2_strong; [|apply NoDup_seq].
  intros x y _ _ E. unfold ns_per_minute in E. nia.
Qed.

End ResampleFacts.

Module DatasetFacts.
Import Pandas PandasFacts FeatureEngineering FeatureFacts ResampleFacts.

Lemma lookupZ_Some (vals : list cell) (z : Z) (v : Q) :
  lookupZ vals z = Some v <-> 0 <= z /\ vals !! Z.to_nat z = Some (Some v).
Proof.
  unfold lookupZ. destruct (decide (0 <= z)) as [Hz|Hz].
  - destruct (vals !! Z.to_nat z) as [[x|]|]; simpl;
      (split; [intros E|intros [_ E]]); by simplify_eq.
  - split; [done|]. intros [? _]. lia.
Qed.

Lemma dropna_rows (X : DataFrame) (r : row) :
  r ∈ rows (dropna X) <-> row_complete (colnames X) r /\ r ∈ rows X.
Proof. unfold dropna. simpl. apply list_elem_of_filter. Qed.

Lemma index_lookup_row (df : DataFrame) i t :
  df_index df !! i = Some t <-> exists r, rows df !! i = Some (t, r).
Proof.
  unfold df_index. rewrite list_lookup_fmap. split.
  - destruct (rows df !! i) as [[t' r]|]; [|done]. intros [= <-]. by exists r.
  - intros [r ->]. done.
Qed.

(** The rows that [create_lag_features] keeps, read against its input. *)
Lemma lag_rows (agg : DataFrame) (lags : Z) :
  "moisture" ∈ colnames agg ->
  exists out, create_lag_features agg lags = Some out /\
    (colnames agg = raw_columns ->
     colnames out = (raw_columns ++ (lag_name <$> PyStr.range 1 (lags + 1))
                       ++ derived_columns)%list) /\
    (forall t r, (t, r) ∈ rows out -> forall c, c ∈ colnames out ->
       is_Some (cell_of r c)) /\
    (forall t r, (t, r) ∈ rows out ->
       exists i, df_index agg !! i = Some t /\
         forall k, 1 <= k <= lags ->
           lag_name k ∈ colnames out /\
           cell_of r (lag_name k)
           = lookupZ (col agg "moisture").*2 (Z.of_nat i - k)).
Proof.
  intros Hm.
  destruct (create_lag_features_spec agg lags Hm) as (X & Hrun & Hidx & HmX & Hlag & Hcols).
  exists (dropna X). split; [done|]. split; [done|]. split.
  - intros t r Hin c Hc. apply dropna_rows in Hin as [Hall _].
    unfold row_complete in Hall. rewrite Forall_forall in Hall. by apply Hall.
  - intros t r Hin. apply dropna_rows in Hin as [_ Hin].
    apply list_elem_of_lookup in Hin as [i Hi]. exists i. split.
    { rewrite <- Hidx. apply index_lookup_row. by exists r. }
    intros k Hk. destruct (Hlag k Hk) as [Hname Hvals]. split; [done|].
    assert (Hcell : (col X (lag_name k)).*2 !! i = Some (cell_of r (lag_name k))).
    { by rewrite list_lookup_fmap, (col_lookup _ _ _ _ _ Hi). }
    rewrite Hvals, list_lookup_fmap in Hcell.
    destruct (lookup_lt_is_Some_2 (col agg "moisture") i) as [[t' v'] Hmi].
    { rewrite length_col. apply (f_equal length) in Hidx. unfold df_index in Hidx.
      rewrite !length_fmap in Hidx. rewrite <- Hidx. by eapply lookup_lt_Some. }
    rewrite (shift_lookup _ _ _ _ _ Hmi) in Hcell. simpl in Hcell. by injection Hcell.
Qed.

Lemma filter_all {A} (f : A -> bool) (l : list A) :
  (forall x, x ∈ l -> f x = true) -> List.filter f l = l.
Proof.
  induction l as [|a l IH]; intros H; [done|]. simpl.
  rewrite (H a) by (by left). f_equal. apply IH. intros x Hx. apply H. by right.
Qed.

Lemma filter_In_elem {A} (f : A -> bool) (l : list A) x :
  x ∈ List.filter f l -> x ∈ l.
Proof. rewrite !list_elem_of_In, filter_In. tauto. Qed.

(** The target value [reindex] finds for the label of interval [i]. *)
Lemma target_lookup (agg : DataFrame) (h : Z) i t :
  NoDup (df_index agg) ->
  df_index agg !! i = Some t ->
  (list_to_map (shift (- h) (col agg "moisture")) : gmap Z cell) !! t
  = Some (lookupZ (col agg "moisture").*2 (Z.of_nat i + h)).
Proof.
  intros Hnd Hi. apply elem_of_list_to_map_1.
  - by rewrite shift_index, col_index.
  - apply index_lookup_row in Hi as [r Hr].
    apply list_elem_of_lookup. exists i.
    rewrite (shift_lookup _ _ _ t (cell_of r "moisture")) by (by apply col_lookup).
    do 3 f_equal. lia.
Qed.

(** Everything [build_dataset] returns on a resampled series. *)
Lemma build_dataset_spec obs w agg (lags h : Z) :
  resample_and_aggregate obs w = Some agg ->
  exists feats X y,
    create_lag_features agg lags = Some feats /\
    build_dataset agg lags h = Some (X, y) /\
    colnames X = (["temperature"; "humidity"]
                    ++ (lag_name <$> PyStr.range 1 (lags + 1))
                    ++ derived_columns)%list /\
    df_index X = y.*1 /\
    (forall t r c, (t, r) ∈ rows X -> c ∉ colnames X -> r !! c = None) /\
    forall t v, (t, v) ∈ y <->
      t ∈ df_index feats /\ is_Some v /\
      exists i, df_index agg !! i = Some t /\
        v = lookupZ (col agg "moisture").*2 (Z.of_nat i + h).
Proof.
  intros Hres. pose proof (resampled_NoDup _ _ _ Hres) as Hnd.
  apply resample_and_aggregate_spec in Hres as (_ & Hraw & _).
  assert (Hm : "moisture" ∈ colnames agg) by (rewrite Hraw; is_elem).
  destruct (lag_rows agg lags Hm) as (feats & Hfeats & Hcols & _ & Hrows).
  specialize (Hcols Hraw).
  set (m := col agg "moisture") in *.
  set (tn := target_name h).
  set (tv := fun t : Z => default None ((list_to_map (shift (- h) m) : gmap Z cell) !! t)).
  set (target := (fun t => (t, tv t)) <$> df_index feats).
  set (df1 := set_col feats tn target).
  assert (Hlen : length target = length (rows feats)).
  { unfold target, df_index. by rewrite !length_fmap. }
  assert (Hfresh : tn ∉ colnames feats).
  { rewrite Hcols, !elem_of_app. unfold tn.
    destruct (target_name_fresh h 0) as [_ Hfix].
    intros [Hr|[Hl|Hd]].
    - apply Hfix. unfold raw_columns in Hr. split_elem; rewrite Hr; is_elem.
    - apply list_elem_of_fmap in Hl as (k & Hk & _).
      by destruct (target_name_fresh h k).
    - apply Hfix. unfold derived_columns in Hd. split_elem; rewrite Hd; is_elem. }
  assert (Hc1 : colnames df1 = (colnames feats ++ [tn])%list)
    by (by apply set_col_colnames_new).
  assert (Hr1 : rows df1
                = (fun r : row => (r.1, <[tn := tv r.1]> r.2)) <$> rows feats).
  { unfold df1, set_col, target, df_index. simpl.
    rewrite <- list_fmap_compose, zip_with_fmap_r, zip_with_diag.
    by apply list_fmap_ext. }
  set (df2 := {| colnames := colnames df1;
                 rows := filter (row_complete [tn]) (rows df1) |}).
  set (fc := List.filter is_feature_col (colnames df2)).
  set (X := {| colnames := fc;
               rows := (fun r : row =>
                          (r.1, filter (fun kv : string * cell => kv.1 ∈ fc) r.2))
                         <$> rows df2 |}).
  exists feats, X, (col df2 tn). split; [done|]. split.
  { unfold build_dataset. rewrite Hfeats. cbn [mbind option_bind].
    rewrite (get_col_Some agg "moisture") by done. cbn [mbind option_bind].
    unfold reindex. rewrite bool_decide_eq_true_2
      by (by rewrite shift_index, col_index). cbn [mbind option_bind].
    unfold dropna_subset. change (set_col feats _ _) with df1.
    rewrite bool_decide_eq_true_2.
    2:{ apply Forall_singleton. rewrite Hc1, elem_of_app. right. is_elem. }
    cbn [mbind option_bind]. fold df2. unfold select. fold fc.
    rewrite bool_decide_eq_true_2.
    2:{ apply Forall_forall. intros c Hc. by apply filter_In_elem in Hc. }
    cbn [mbind option_bind]. fold X. rewrite get_col_Some; [done|].
    change (tn ∈ colnames df1).
    rewrite Hc1, elem_of_app. right. is_elem. }
  split.
  { unfold X, fc, df2. cbn [colnames]. rewrite Hc1, Hcols.
    rewrite !List.filter_app. simpl.
    rewrite (filter_all _ (lag_name <$> _)).
    2:{ intros c Hc. apply list_elem_of_fmap in Hc as (k & -> & _).
        apply lag_name_is_feature. }
    by rewrite app_nil_r. }
  split.
  { rewrite col_index. unfold df_index, X. simpl.
    rewrite <- list_fmap_compose. by apply list_fmap_ext. }
  split.
  { intros t r c Hin Hc. unfold X in Hin. cbn [rows] in Hin.
    apply list_elem_of_fmap in Hin as ([t2 r2] & [= -> ->] & _).
    apply map_lookup_filter_None. right. intros x _. exact Hc. }
  assert (Hval : forall t i, df_index agg !! i = Some t ->
            tv t = lookupZ m.*2 (Z.of_nat i + h)).
  { intros t i Hi. unfold tv, m. by rewrite (target_lookup agg h i t Hnd Hi). }
  intros t v. unfold col, df2. simpl. rewrite list_elem_of_fmap. split.
  - intros ([t' r'] & [= -> ->] & Hin). simpl in *.
    apply list_elem_of_filter in Hin as [Hcomp Hin].
    rewrite Hr1 in Hin. apply list_elem_of_fmap in Hin as ([t0 r0] & [= -> ->] & Hin0).
    simpl in *. rewrite cell_of_insert, decide_True by done.
    unfold row_complete in Hcomp. rewrite Forall_singleton in Hcomp. simpl in Hcomp.
    rewrite cell_of_insert, decide_True in Hcomp by done.
    split; [|split; [done|]].
    + unfold df_index. apply list_elem_of_fmap. by exists (t0, r0).
    + destruct (Hrows t0 r0 Hin0) as (i & Hi & _). exists i. split; [done|].
      by apply Hval.
  - intros (Hin & Hsome & i & Hi & ->).
    unfold df_index in Hin. apply list_elem_of_fmap in Hin as ([t0 r0] & -> & Hin0).
    simpl in *. exists (t0, <[tn := tv t0]> r0). simpl.
    rewrite cell_of_insert, decide_True by done. split.
    + f_equal. symmetry. by apply Hval.
    + apply list_elem_of_filter. split.
      * unfold row_complete. apply Forall_singleton. simpl.
        rewrite cell_of_insert, decide_True by done. by rewrite (Hval t0 i Hi).
      * rewrite Hr1. apply list_elem_of_fmap. by exists (t0, r0).
Qed.

End DatasetFacts.

(** ** The claims on feature engineering *)

Module FeatureClaims.
Import Pandas PandasFacts FeatureEngineering FeatureFacts ResampleFacts DatasetFacts.
Import Examples.

(** C1.  On every resampled series, for every lag count and horizon,
    [build_dataset] returns a feature matrix whose columns are exactly
    temperature, humidity, the columns [moisture_lag_k] for [k] from 1 to
    the lag count, [moisture_diff_1], [moisture_rolling_mean_3], hour,
    dayofyear and dayofweek: every column is a lag column or one of the
    seven fixed names, and the raw [moisture] column is neither among the
    column names nor in any row. *)
Theorem build_dataset_excludes_raw_moisture obs w agg (lags h : Z) :
  resample_and_aggregate obs w = Some agg ->
  exists X y, build_dataset agg lags h = Some (X, y) /\
    colnames X
    = (["temperature"; "humidity"]
         ++ (lag_name <$> PyStr.range 1 (lags + 1))
         ++ ["moisture_diff_1"; "moisture_rolling_mean_3";
             "hour"; "dayofyear"; "dayofweek"])%list /\
    (forall c, c ∈ colnames X <->
       (exists k, 1 <= k <= lags /\ c = lag_name k) \/
       c ∈ ["moisture_rolling_mean_3"; "moisture_diff_1"; "temperature";
            "humidity"; "hour"; "dayofyear"; "dayofweek"]) /\
    ("moisture" ∉ colnames X) /\
    (forall t r, (t, r) ∈ rows X -> r !! "moisture" = None).
Proof.
  intros Hres.
  destruct (build_dataset_spec obs w agg lags h Hres)
    as (feats & X & y & _ & Hrun & Hcols & _ & Hrows & _).
  assert (Hchar : forall c, c ∈ colnames X <->
    (exists k, 1 <= k <= lags /\ c = lag_name k) \/
    c ∈ ["moisture_rolling_mean_3"; "moisture_diff_1"; "temperature";
         "humidity"; "hour"; "dayofyear"; "dayofweek"]).
  { intros c. rewrite Hcols, !elem_of_app, list_elem_of_fmap. unfold derived_columns.
    split.
    - intros [Hc|[(k & -> & Hk)|Hc]].
      + right. split_elem; is_elem.
      + left. exists k. split; [|done]. apply PyStrFacts.range_elem in Hk. lia.
      + right. split_elem; is_elem.
    - intros [(k & Hk & ->)|Hc].
      + right. left. exists k. split; [done|]. apply PyStrFacts.range_elem. lia.
      + split_elem; first [left; is_elem | right; right; is_elem]. }
  assert (Hno : "moisture" ∉ colnames X).
  { rewrite Hchar. intros [(k & _ & E)|Hc].
    - apply (lag_name_fresh k). rewrite <- E. is_elem.
    - by split_elem. }
  exists X, y. split; [done|]. split; [done|]. split; [done|]. split; [done|].
  intros t r Hin. by apply (Hrows t r).
Qed.

Lemma build_dataset_excludes_raw_moisture_witness :
  exists X y, build_dataset demo_agg 2 1 = Some (X, y) /\
    colnames X
    = (["temperature"; "humidity"]
         ++ (lag_name <$> PyStr.range 1 (2 + 1))
         ++ ["moisture_diff_1"; "moisture_rolling_mean_3";
             "hour"; "dayofyear"; "dayofweek"])%list /\
    (forall c, c ∈ colnames X <->
       (exists k, 1 <= k <= 2 /\ c = lag_name k) \/
       c ∈ ["moisture_rolling_mean_3"; "moisture_diff_1"; "temperature";
            "humidity"; "hour"; "dayofyear"; "dayofweek"]) /\
    ("moisture" ∉ colnames X) /\
    (forall t r, (t, r) ∈ rows X -> r !! "moisture" = None).
Proof.
  apply (build_dataset_excludes_raw_moisture demo_obs 15 demo_agg 2 1).
  vm_compute. reflexivity.
Defined.

(** C2.  On every resampled series, for every lag count and horizon [h],
    [build_dataset] returns [(X, y)] with the same index, hence the same
    number of rows; the target of a retained row, at interval [i] of the
    series, is the moisture of interval [i + h], which exists and is not
    missing; and an interval whose shifted target is undefined ([i + h]
    outside the series, or the moisture there missing) has a row neither
    in [X] nor in [y]. *)
Theorem build_dataset_target_alignment obs w agg (lags h : Z) :
  resample_and_aggregate obs w = Some agg ->
  exists X y, build_dataset agg lags h = Some (X, y) /\
    df_index X = y.*1 /\
    length (rows X) = length y /\
    (forall t v, (t, v) ∈ y ->
       exists (i : nat) (q : Q),
         df_index agg !! i = Some t /\ v = Some q /\
         0 <= Z.of_nat i + h /\
         (col agg "moisture").*2 !! Z.to_nat (Z.of_nat i + h) = Some (Some q)) /\
    (forall (i : nat) t,
       df_index agg !! i = Some t ->
       Z.of_nat i + h < 0 \/
       Z.of_nat (length (rows agg)) <= Z.of_nat i + h \/
       (col agg "moisture").*2 !! Z.to_nat (Z.of_nat i + h) = Some None ->
       (t ∉ df_index X) /\ (t ∉ y.*1)).
Proof.
  intros Hres. pose proof (resampled_NoDup _ _ _ Hres) as Hnd.
  destruct (build_dataset_spec obs w agg lags h Hres)
    as (feats & X & y & _ & Hrun & _ & Hidx & _ & Hy).
  exists X, y. split; [done|]. split; [done|]. split.
  { apply (f_equal length) in Hidx. unfold df_index in Hidx.
    by rewrite !length_fmap in Hidx. }
  split.
  - intros t v Hin. apply Hy in Hin as (_ & [q ->] & i & Hi & Hv).
    exists i, q. symmetry in Hv. apply lookupZ_Some in Hv as [Hge Hv]. done.
  - intros i t Hi Hundef.
    assert (Hout : t ∉ y.*1); [|by rewrite Hidx].
    intros Hin. apply list_elem_of_fmap in Hin as ([t' v] & -> & Hin). simpl in Hi.
    apply Hy in Hin as (_ & [q ->] & i' & Hi' & Hv).
    assert (i' = i) as -> by (by eapply NoDup_lookup).
    symmetry in Hv. apply lookupZ_Some in Hv as [Hge Hv].
    destruct Hundef as [Hneg|[Hend|Hnan]]; [lia| |congruence].
    apply lookup_lt_Some in Hv. rewrite length_fmap, length_col in Hv. lia.
Qed.

Lemma build_dataset_target_alignment_witness :
  exists X y, build_dataset demo_agg 2 1 = Some (X, y) /\
    df_index X = y.*1 /\
    length (rows X) = length y /\
    (forall t v, (t, v) ∈ y ->
       exists (i : nat) (q : Q),
         df_index demo_agg !! i = Some t /\ v = Some q /\
         0 <= Z.of_nat i + 1 /\
         (col demo_agg "moisture").*2 !! Z.to_nat (Z.of_nat i + 1) = Some (Some q)) /\
    (forall (i : nat) t,
       df_index demo_agg !! i = Some t ->
       Z.of_nat i + 1 < 0 \/
       Z.of_nat (length (rows demo_agg)) <= Z.of_nat i + 1 \/
       (col demo_agg "moisture").*2 !! Z.to_nat (Z.of_nat i + 1) = Some None ->
       (t ∉ df_index X) /\ (t ∉ y.*1)).
Proof.
  apply (build_dataset_target_alignment demo_obs 15 demo_agg 2 1).
  vm_compute. reflexivity.
Defined.

(** C3.  On every resampled series and for every lag count,
    [create_lag_features] returns a frame in which a retained row, at
    interval [i] of the series, holds in each column [moisture_lag_k],
    [k] from 1 to the lag count, the moisture of interval [i - k], which
    exists and is not missing; an interval [i] with some [i - k] before
    the start of the series has no row in the output; and no cell of a
    retained row is missing. *)
Theorem create_lag_features_lag_alignment obs w agg (lags : Z) :
  resample_and_aggregate obs w = Some agg ->
  exists out, create_lag_features agg lags = Some out /\
    (forall t r, (t, r) ∈ rows out ->
       exists i : nat, df_index agg !! i = Some t /\
         forall k, 1 <= k <= lags ->
           exists q : Q,
             r !! lag_name k = Some (Some q) /\
             k <= Z.of_nat i /\
             (col agg "moisture").*2 !! Z.to_nat (Z.of_nat i - k) = Some (Some q)) /\
    (forall (i : nat) t k,
       df_index agg !! i = Some t -> 1 <= k <= lags -> Z.of_nat i - k < 0 ->
       t ∉ df_index out) /\
    (forall t r c, (t, r) ∈ rows out -> c ∈ colnames out ->
       exists q : Q, r !! c = Some (Some q)).
Proof.
  intros Hres. pose proof (resampled_NoDup _ _ _ Hres) as Hnd.
  apply resample_and_aggregate_spec in Hres as (_ & Hraw & _).
  assert (Hm : "moisture" ∈ colnames agg) by (rewrite Hraw; is_elem).
  destruct (lag_rows agg lags Hm) as (out & Hrun & _ & Hfull & Hrows).
  assert (Hcell : forall (r : gmap string cell) c,
            is_Some (cell_of r c) -> exists q : Q, r !! c = Some (Some q)).
  { intros r c [q Hq]. exists q. unfold cell_of in Hq.
    destruct (r !! c) as [[x|]|]; simpl in Hq; by simplify_eq. }
  assert (Hlag : forall t r, (t, r) ∈ rows out ->
            exists i : nat, df_index agg !! i = Some t /\
              forall k, 1 <= k <= lags ->
                exists q : Q,
                  r !! lag_name k = Some (Some q) /\
                  k <= Z.of_nat i /\
                  (col agg "moisture").*2 !! Z.to_nat (Z.of_nat i - k)
                  = Some (Some q)).
  { intros t r Hin. destruct (Hrows t r Hin) as (i & Hi & Hk).
    exists i. split; [done|]. intros k Hrange.
    destruct (Hk k Hrange) as [Hname Hval].
    destruct (Hcell r (lag_name k) (Hfull t r Hin _ Hname)) as [q Hq].
    exists q. split; [done|].
    unfold cell_of in Hval. rewrite Hq in Hval. simpl in Hval.
    symmetry in Hval. apply lookupZ_Some in Hval as [Hge Hval]. split; [lia|done]. }
  exists out. split; [done|]. split; [done|]. split.
  - intros i t k Hi Hrange Hneg Hin.
    unfold df_index in Hin. apply list_elem_of_fmap in Hin as ([t' r] & -> & Hin).
    simpl in Hi. destruct (Hlag t' r Hin) as (i' & Hi' & Hk).
    assert (i' = i) as -> by (by eapply NoDup_lookup).
    destruct (Hk k Hrange) as (q & _ & Hle & _). lia.
  - intros t r c Hin Hc. apply Hcell. by eapply Hfull.
Qed.

Lemma create_lag_features_lag_alignment_witness :
  exists out, create_lag_features demo_agg 2 = Some out /\
    (forall t r, (t, r) ∈ rows out ->
       exists i : nat, df_index demo_agg !! i = Some t /\
         forall k, 1 <= k <= 2 ->
           exists q : Q,
             r !! lag_name k = Some (Some q) /\
             k <= Z.of_nat i /\
             (col demo_agg "moisture").*2 !! Z.to_nat (Z.of_nat i - k)
             = Some (Some q)) /\
    (forall (i : nat) t k,
       df_index demo_agg !! i = Some t -> 1 <= k <= 2 -> Z.of_nat i - k < 0 ->
       t ∉ df_index out) /\
    (forall t r c, (t, r) ∈ rows out -> c ∈ colnames out ->
       exists q : Q, r !! c = Some (Some q)).
Proof.
  apply (create_lag_features_lag_alignment demo_obs 15 demo_agg 2).
  vm_compute. reflexivity.
Defined.

Lemma nanmean_values (cells : list cell) :
  nanmean 1 cells
  = if decide (present cells = []) then None else Some (Qmean (present cells)).
Proof.
  unfold nanmean. destruct (present cells) as [|x xs]; simpl; [done|].
  destruct (decide (1 <= S (length xs))%nat); [done|lia].
Qed.

Lemma filter_nothing {A} (P : A -> Prop) `{!forall x, Decision (P x)} (l : list A) :
  Forall (fun x => ~ P x) l -> filter P l = [].
Proof.
  induction 1 as [|x l Hx _ IH]; [done|]. by rewrite filter_cons_False.
Qed.

Lemma filled_count (v : Q) (g : nat) :
  length (filter is_Some
            ((fun j : nat => if decide (j <= 2)%nat then Some v else None)
               <$> seq 1 g))
  = Nat.min g 2.
Proof.
  destruct g as [|[|g]]; [done|done|].
  replace (Nat.min (S (S g)) 2) with 2%nat by lia.
  change (seq 1 (S (S g))) with (1 :: 2 :: seq 3 g)%nat.
  rewrite !fmap_cons. rewrite !filter_cons_True by (by eexists). simpl.
  do 2 f_equal. apply length_zero_iff_nil, filter_nothing.
  apply Forall_fmap, Forall_forall. intros j Hj. apply elem_of_seq in Hj. simpl.
  destruct (decide (j <= 2)%nat); [lia|]. by intros [? ?].
Qed.

(** C4.  For every frame of observations that has the three raw columns
    and every positive interval width, [resample_and_aggregate] returns a
    series on a regular grid of intervals in which, column by column,
    (0) every observation falls in one interval of the grid,
    (1) an interval in which the column was observed holds the arithmetic
    mean of the values observed in it, and (2) in a run of [g] consecutive
    intervals without a value that follows such an interval, the first two
    hold the value of that interval and the others are missing, so that
    exactly [min g 2] intervals of the run are filled. *)
Theorem resample_mean_and_fill_cap (obs : DataFrame) (w : Z) :
  Forall (fun c => c ∈ colnames obs) raw_columns ->
  0 < w ->
  exists out (start : Z) (n : nat),
    resample_and_aggregate obs w = Some out /\
    df_index out
    = (fun k : nat => start + Z.of_nat k * (w * ns_per_minute)) <$> seq 0 n /\
    (forall t, t ∈ df_index obs ->
       exists k : nat, (k < n)%nat /\
         start + Z.of_nat k * (w * ns_per_minute) <= t
         < start + Z.of_nat k * (w * ns_per_minute) + w * ns_per_minute) /\
    forall c, c ∈ raw_columns ->
      (forall (k : nat) t r,
         rows out !! k = Some (t, r) ->
         interval_values obs c t (w * ns_per_minute) <> [] ->
         cell_of r c = Some (Qmean (interval_values obs c t (w * ns_per_minute)))) /\
      (forall (k g : nat) t r,
         rows out !! k = Some (t, r) ->
         interval_values obs c t (w * ns_per_minute) <> [] ->
         (k + g < n)%nat ->
         (forall j : nat, (1 <= j <= g)%nat ->
            interval_values obs c (t + Z.of_nat j * (w * ns_per_minute))
                            (w * ns_per_minute) = []) ->
         (forall j : nat, (1 <= j <= g)%nat ->
            exists rj,
              rows out !! (k + j)%nat
              = Some (t + Z.of_nat j * (w * ns_per_minute), rj) /\
              cell_of rj c = if decide (j <= 2)%nat then cell_of r c else None) /\
         length (filter is_Some
                   ((fun r : row => cell_of r.2 c) <$> take g (drop (S k) (rows out))))
         = Nat.min g 2).
Proof.
  intros Hcols Hw.
  assert (Hrun : exists out, resample_and_aggregate obs w = Some out).
  { unfold resample_and_aggregate, select.
    rewrite bool_decide_eq_true_2 by done. cbn [mbind option_bind].
    rewrite decide_True by done. by eexists. }
  destruct Hrun as [out Hrun].
  destruct (resample_and_aggregate_spec _ _ _ Hrun)
    as (_ & _ & start & n & Hidx & Hcover & Hvals).
  exists out, start, n. split; [done|]. split; [done|]. split; [done|].
  set (width := w * ns_per_minute) in *.
  intros c Hc. specialize (Hvals c Hc).
  set (pre := (fun k : nat =>
                 nanmean 1 (interval_cells obs c (start + Z.of_nat k * width) width))
                <$> seq 0 n) in *.
  assert (Hlen : length (rows out) = n).
  { apply (f_equal length) in Hidx. unfold df_index in Hidx.
    by rewrite !length_fmap, length_seq in Hidx. }
  assert (Hrow : forall (k : nat) t r, rows out !! k = Some (t, r) ->
            (k < n)%nat /\ t = start + Z.of_nat k * width /\
            ffill_values 2 pre !! k = Some (cell_of r c)).
  { intros k t r Hk.
    assert (Hkn : (k < n)%nat) by (rewrite <- Hlen; by eapply lookup_lt_Some).
    split; [done|]. split.
    - assert (Ht : df_index out !! k = Some t) by (apply index_lookup_row; by exists r).
      rewrite Hidx, list_lookup_fmap, lookup_seq_lt in Ht by done.
      simpl in Ht. by injection Ht.
    - rewrite <- Hvals, list_lookup_fmap. by rewrite (col_lookup _ _ _ _ _ Hk). }
  assert (Hpre : forall k : nat, (k < n)%nat ->
            pre !! k = Some (if decide (interval_values obs c (start + Z.of_nat k * width)
                                                        width = [])
                             then None
                             else Some (Qmean (interval_values obs c
                                                 (start + Z.of_nat k * width) width)))).
  { intros k Hk. unfold pre. rewrite list_lookup_fmap, lookup_seq_lt by done.
    simpl. by rewrite nanmean_values. }
  assert (Hmean : forall (k : nat) t r, rows out !! k = Some (t, r) ->
            interval_values obs c t width <> [] ->
            pre !! k = Some (Some (Qmean (interval_values obs c t width))) /\
            cell_of r c = Some (Qmean (interval_values obs c t width))).
  { intros k t r Hk Hne. destruct (Hrow k t r Hk) as (Hkn & -> & Hcell).
    assert (Hp := Hpre k Hkn). rewrite decide_False in Hp by done.
    split; [done|]. apply (ffill_values_known 2) in Hp. congruence. }
  split; [intros k t r Hk Hne; by apply (Hmean k t r)|].
  intros k g t r Hk Hne Hkg Hempty.
  destruct (Hmean k t r Hk Hne) as [Hp Hcell].
  destruct (Hrow k t r Hk) as (_ & Ht & _).
  assert (Hfill : forall j : nat, (1 <= j <= g)%nat ->
            ffill_values 2 pre !! (k + j)%nat
            = Some (if decide (j <= 2)%nat then cell_of r c else None)).
  { intros j Hj. rewrite Hcell.
    apply (ffill_values_run 2 pre k g j _ Hp); [|done].
    intros i Hi. rewrite Hpre by lia.
    replace (start + Z.of_nat (k + i) * width) with (t + Z.of_nat i * width) by lia.
    by rewrite decide_True by (by apply Hempty). }
  split.
  - intros j Hj.
    destruct (lookup_lt_is_Some_2 (rows out) (k + j)%nat) as [[tj rj] Hrj]; [lia|].
    destruct (Hrow _ _ _ Hrj) as (_ & -> & Hcj).
    exists rj. split.
    + rewrite Hrj. do 2 f_equal. lia.
    + rewrite (Hfill j Hj) in Hcj. by injection Hcj.
  - rewrite <- (filled_count (default 0%Q (cell_of r c)) g). do 2 f_equal.
    apply list_eq. intros j.
    rewrite !list_lookup_fmap.
    destruct (decide (j < g)%nat) as [Hj|Hj].
    + rewrite lookup_take_lt, lookup_drop, lookup_seq_lt by done.
      destruct (lookup_lt_is_Some_2 (rows out) (S k + j)%nat) as [[tj rj] Hrj]; [lia|].
      rewrite Hrj. simpl.
      destruct (Hrow _ _ _ Hrj) as (_ & _ & Hcj).
      replace (S k + j)%nat with (k + S j)%nat in Hcj by lia.
      rewrite (Hfill (S j)) in Hcj by lia. injection Hcj as <-.
      by rewrite Hcell.
    + rewrite lookup_take_ge, lookup_seq_ge by lia. done.
Qed.

Lemma resample_mean_and_fill_cap_witness :
  exists out (start : Z) (n : nat),
    resample_and_aggregate Scenarios.gap_obs 15 = Some out /\
    df_index out
    = (fun k : nat => start + Z.of_nat k * (15 * ns_per_minute)) <$> seq 0 n /\
    (forall t, t ∈ df_index Scenarios.gap_obs ->
       exists k : nat, (k < n)%nat /\
         start + Z.of_nat k * (15 * ns_per_minute) <= t
         < start + Z.of_nat k * (15 * ns_per_minute) + 15 * ns_per_minute) /\
    (forall c, c ∈ raw_columns ->
      (forall (k : nat) t r,
         rows out !! k = Some (t, r) ->
         interval_values Scenarios.gap_obs c t (15 * ns_per_minute) <> [] ->
         cell_of r c = Some (Qmean (interval_values Scenarios.gap_obs c t (15 * ns_per_minute)))) /\
      (forall (k g : nat) t r,
         rows out !! k = Some (t, r) ->
         interval_values Scenarios.gap_obs c t (15 * ns_per_minute) <> [] ->
         (k + g < n)%nat ->
         (forall j : nat, (1 <= j <= g)%nat ->
            interval_values Scenarios.gap_obs c (t + Z.of_nat j * (15 * ns_per_minute))
                            (15 * ns_per_minute) = []) ->
         (forall j : nat, (1 <= j <= g)%nat ->
            exists rj,
              rows out !! (k + j)%nat
              = Some (t + Z.of_nat j * (15 * ns_per_minute), rj) /\
              cell_of rj c = if decide (j <= 2)%nat then cell_of r c else None) /\
         length (filter is_Some
                   ((fun r : row => cell_of r.2 c) <$> take g (drop (S k) (rows out))))
         = Nat.min g 2)) /\
    exists r,
      rows out !! 0%nat = Some (start, r) /\
      interval_values Scenarios.gap_obs "moisture" start (15 * ns_per_minute) = [0%Q] /\
      (0 + 4 < n)%nat /\
      (forall j : nat, (1 <= j <= 4)%nat ->
         interval_values Scenarios.gap_obs "moisture" (start + Z.of_nat j * (15 * ns_per_minute))
                         (15 * ns_per_minute) = []) /\
      cell_of r "moisture" = Some (Qmean [0%Q]) /\
      (forall j : nat, (1 <= j <= 4)%nat ->
         exists rj,
           rows out !! (0 + j)%nat
           = Some (start + Z.of_nat j * (15 * ns_per_minute), rj) /\
           cell_of rj "moisture"
           = if decide (j <= 2)%nat then Some (Qmean [0%Q]) else None) /\
      length (filter is_Some
                ((fun r : row => cell_of r.2 "moisture")
                   <$> take 4 (drop 1 (rows out))))
      = 2%nat.
Proof.
  destruct (resample_mean_and_fill_cap Scenarios.gap_obs 15)
    as (out & start & n & Hrun & Hidx & Hcover & Hcols).
  - vm_compute. repeat constructor.
  - lia.
  - exists out, start, n.
    split; [exact Hrun|]. split; [exact Hidx|]. split; [exact Hcover|].
    split; [exact Hcols|].
    assert (Hout : out = Scenarios.gap_agg) by (unfold Scenarios.gap_agg; by rewrite Hrun).
    assert (Hn : n = 11%nat).
    { apply (f_equal length) in Hidx. rewrite length_fmap, length_seq, Hout in Hidx.
      rewrite <- Hidx. vm_compute. reflexivity. }
    assert (Hr0 : exists r, rows Scenarios.gap_agg !! 0%nat = Some (28608480 * ns_per_minute, r)).
    { vm_compute. eexists. reflexivity. }
    assert (Hstart : start = 28608480 * ns_per_minute).
    { assert (H0 : df_index Scenarios.gap_agg !! 0%nat = Some (28608480 * ns_per_minute))
        by (vm_compute; reflexivity).
      rewrite <- Hout, Hidx, Hn in H0. simpl in H0. injection H0 as H0. lia. }
    destruct Hr0 as [r Hr]. rewrite <- Hout, <- Hstart in Hr.
    assert (Hobs : interval_values Scenarios.gap_obs "moisture" start (15 * ns_per_minute) = [0%Q]).
    { rewrite Hstart. vm_compute. reflexivity. }
    assert (Hgap : forall j : nat, (1 <= j <= 4)%nat ->
              interval_values Scenarios.gap_obs "moisture"
                (start + Z.of_nat j * (15 * ns_per_minute)) (15 * ns_per_minute) = []).
    { intros j Hj. rewrite Hstart.
      destruct j as [|[|[|[|[|j]]]]]; try lia; vm_compute; reflexivity. }
    assert (Hin : "moisture" ∈ raw_columns) by (vm_compute; repeat constructor).
    destruct (Hcols "moisture" Hin) as [Hmean Hfill].
    assert (Hne : interval_values Scenarios.gap_obs "moisture" start (15 * ns_per_minute) <> [])
      by (rewrite Hobs; discriminate).
    pose proof (Hmean 0%nat start r Hr Hne) as Hv. rewrite Hobs in Hv.
    destruct (Hfill 0%nat 4%nat start r Hr Hne ltac:(lia) Hgap) as [Hrows Hcount].
    exists r. split; [exact Hr|]. split; [exact Hobs|]. split; [lia|].
    split; [exact Hgap|]. split; [exact Hv|]. split.
    + intros j Hj. destruct (Hrows j Hj) as (rj & Hrj & Hcell).
      exists rj. split; [exact Hrj|]. rewrite Hcell. destruct (decide (j <= 2)%nat); [exact Hv|done].
    + exact Hcount.
Defined.

End FeatureClaims.

(** ** The claims on the prediction script *)

Module PredictFacts.
Import Predict.

Lemma keyword_scan_priority (fl : string) :
  keyword_scan fl _KEYWORDS = priority_key fl.
Proof.
  unfold priority_key. simpl. rewrite !orb_false_r.
  destruct (PyStr.contains "soil" fl), (PyStr.contains "moist" fl),
    (PyStr.contains "temp" fl), (PyStr.contains "temperature" fl),
    (PyStr.contains "hum" fl), (PyStr.contains "humid" fl),
    (PyStr.contains "humidity" fl); reflexivity.
Qed.

(** A name found by the exact-name loop is one of the three keys. *)
Lemma exact_scan_Some (fl : string) (provided : gmap string Q) (keys : list string)
    (v : Q) :
  exact_scan fl provided keys = Some v -> fl ∈ keys.
Proof.
  induction keys as [|key rest IH]; simpl; [done|].
  destruct (provided !! key) as [x|].
  - destruct (String.eqb_spec key fl) as [->|_].
    + intros _. by left.
    + intros H. right. by apply IH.
  - intros H. right. by apply IH.
Qed.

Lemma feature_value_keyword (provided : gmap string Q) (feat key : string) :
  priority_key (PyStr.lower feat) = Some key ->
  feature_value provided feat
  = match provided !! key with
    | Some val => mret val
    | None => prompt_float key
    end.
Proof.
  intros H. unfold feature_value. by rewrite keyword_scan_priority, H.
Qed.

Lemma map_inputs_loop_spec (features : list string) (provided : gmap string Q) :
  forall (row0 row : gmap string Q) (w w' : world),
    map_inputs_loop features provided row0 w = (Ret row, w') ->
    forall feat,
      (feat ∈ features ->
       forall key v, priority_key (PyStr.lower feat) = Some key ->
                     provided !! key = Some v -> row !! feat = Some v) /\
      (feat ∉ features -> row !! feat = row0 !! feat).
Proof.
  induction features as [|f rest IH]; intros row0 row w w' Hrun feat.
  - injection Hrun as <- <-. split; [|done]. intros Hin. by apply elem_of_nil in Hin.
  - simpl in Hrun. unfold mbind, io_bind in Hrun.
    destruct (feature_value provided f w) as [[val| | |] w1] eqn:Hval; try done.
    destruct (IH _ _ _ _ Hrun feat) as [Hin Hout].
    destruct (decide (feat ∈ rest)) as [Hr|Hr].
    + split; [intros _; by apply Hin|]. rewrite not_elem_of_cons. tauto.
    + split.
      * intros Hf key v Hkey Hv.
        apply elem_of_cons in Hf as [->|Hf]; [|done].
        rewrite (Hout Hr), lookup_insert_eq.
        rewrite (feature_value_keyword _ _ _ Hkey), Hv in Hval.
        by injection Hval as ->.
      * rewrite not_elem_of_cons. intros [Hne _].
        by rewrite (Hout Hr), lookup_insert_ne.
Qed.

Lemma map_inputs_loop_total (features : list string) (provided : gmap string Q) :
  (forall feat, feat ∈ features ->
     exists key, priority_key (PyStr.lower feat) = Some key /\
                 is_Some (provided !! key)) ->
  forall row0 w, exists row, map_inputs_loop features provided row0 w = (Ret row, w).
Proof.
  induction features as [|f rest IH]; intros Hall row0 w.
  - by exists row0.
  - destruct (Hall f) as (key & Hkey & [v Hv]); [by left|].
    simpl. unfold mbind, io_bind.
    rewrite (feature_value_keyword _ _ _ Hkey), Hv. simpl.
    apply IH. intros feat Hin. apply Hall. by right.
Qed.

Lemma find_existsb_false {A} (f : A -> bool) (l : list A) :
  existsb f l = false -> List.find f l = None.
Proof.
  induction l as [|a l IH]; simpl; [done|].
  destruct (f a); simpl; [done|exact IH].
Qed.

Lemma py_or_falsy (a b : pyval) :
  truthy a = false -> truthy b = false -> is_none (py_or (py_or a b) PyNone) = true.
Proof. intros Ha Hb. unfold py_or. by rewrite Ha, Hb. Qed.

(** *** Running a sequence *)

Lemma bind_run {A B} (m : io A) (f : A -> io B) (w w' : world) (a : A) :
  m w = (Ret a, w') -> (m ≫= f) w = f a w'.
Proof. intros H. unfold mbind, io_bind. by rewrite H. Qed.

Lemma bind_exit {A B} (m : io A) (f : A -> io B) (w w' : world) (c : Z) :
  m w = (Exit c, w') -> (m ≫= f) w = (Exit c, w').
Proof. intros H. unfold mbind, io_bind. by rewrite H. Qed.

Lemma extend_extend (w : world) (l1 l2 : list event) :
  extend (extend w l1) l2 = extend w (l1 ++ l2).
Proof. unfold extend. simpl. by rewrite app_assoc. Qed.

Lemma calls_before_extend (w : world) (a : predict_arg) :
  calls_before (extend w [PredictCall a]) = S (calls_before w).
Proof.
  unfold calls_before, extend. simpl.
  rewrite List.filter_app, length_app. simpl. lia.
Qed.

Lemma call_predict_run (t : bool) f (arg : predict_arg) (w : world) :
  call_predict (PyObj {| obj_truthy := t; obj_predict := Some f |}) arg w
  = (match f (calls_before w) arg with
     | Returns labels => Ret labels
     | Raises e => Raise e
     end, extend w [PredictCall arg]).
Proof. simpl. by destruct (f (calls_before w) arg). Qed.

(** *** Prompting *)

Lemma prompt_float_numeric (name : string) (q : Q) (rest : list reply)
    (tr : list event) :
  prompt_float name {| stdin := Numeric q :: rest; trace := tr |}
  = (Ret q, {| stdin := rest; trace := tr ++ [Input (enter name)] |}).
Proof. reflexivity. Qed.

Lemma prompt_loop_inputs (name : string) (lines : list reply) :
  forall (tr : list event) (q : Q) (w' : world),
    prompt_loop name lines tr = (Ret q, w') ->
    exists evs, trace w' = (tr ++ evs)%list /\
      Input (enter name) ∈ evs /\
      forall p, Input p ∈ evs -> p = enter name.
Proof.
  induction lines as [|[x|] lines IH]; intros tr q w' H; simpl in H.
  - done.
  - injection H as <- <-. exists [Input (enter name)]. simpl.
    split; [done|]. split; [by left|].
    intros p Hp. apply list_elem_of_singleton in Hp. by injection Hp.
  - destruct (IH _ _ _ H) as (evs & Htr & Hin & Hall).
    exists ([Input (enter name); Stdout "Please enter a numeric value."] ++ evs)%list.
    split; [by rewrite Htr, <- app_assoc|]. split; [by left|].
    intros p Hp. rewrite elem_of_app in Hp. destruct Hp as [Hp|Hp]; [|by apply Hall].
    apply elem_of_cons in Hp as [Hp|Hp]; [by injection Hp|].
    by apply list_elem_of_singleton in Hp.
Qed.

(** The loop that asks for what is missing: what it asks and what it
    leaves in the dictionary. *)
Lemma fill_missing_spec (keys : list string) :
  forall (provided p' : gmap string Q) (w w' : world),
    fill_missing keys provided w = (Ret p', w') ->
    exists evs, trace w' = (trace w ++ evs)%list /\
      (forall p, Input p ∈ evs <->
         exists k, k ∈ keys /\ provided !! k = None /\ p = enter k) /\
      (forall k v, provided !! k = Some v -> p' !! k = Some v) /\
      (forall k, k ∈ keys -> is_Some (p' !! k)).
Proof.
  induction keys as [|k rest IH]; intros provided p' w w' H; simpl in H.
  - injection H as <- <-. exists []. rewrite app_nil_r. split; [done|].
    split; [|split; [done|]].
    + intros p. split; [intros Hp; by apply elem_of_nil in Hp|].
      intros (k & Hk & _). by apply elem_of_nil in Hk.
    + intros k Hk. by apply elem_of_nil in Hk.
  - destruct (provided !! k) as [v0|] eqn:Hk.
    + destruct (IH _ _ _ _ H) as (evs & Htr & Hin & Hkeep & Hall).
      exists evs. split; [done|]. split; [|split; [done|]].
      * intros p. rewrite Hin. split.
        -- intros (k' & Hk' & Hnone & ->). exists k'. split; [by right|done].
        -- intros (k' & Hk' & Hnone & ->). exists k'.
           apply elem_of_cons in Hk' as [->|Hk']; [congruence|done].
      * intros k' Hk'. apply elem_of_cons in Hk' as [->|Hk']; [|by apply Hall].
        rewrite (Hkeep k v0 Hk). by eexists.
    + unfold mbind, io_bind in H.
      destruct (prompt_float k w) as [[v| | |] w1] eqn:Hprompt; try done.
      unfold prompt_float in Hprompt.
      destruct (prompt_loop_inputs _ _ _ _ _ Hprompt) as (evs1 & Htr1 & Hin1 & Hall1).
      destruct (IH _ _ _ _ H) as (evs2 & Htr2 & Hin2 & Hkeep & Hall).
      exists (evs1 ++ evs2)%list. split; [by rewrite Htr2, Htr1, <- app_assoc|].
      split; [|split].
      * intros p. rewrite elem_of_app, Hin2. split.
        -- intros [Hp|(k' & Hk' & Hnone & ->)].
           ++ exists k. rewrite (Hall1 p Hp). split; [by left|done].
           ++ exists k'. split; [by right|]. split; [|done].
              destruct (decide (k = k')) as [->|Hne].
              ** by rewrite lookup_insert_eq in Hnone.
              ** by rewrite lookup_insert_ne in Hnone.
        -- intros (k' & Hk' & Hnone & ->).
           destruct (decide (k = k')) as [<-|Hne]; [by left|].
           right. exists k'. apply elem_of_cons in Hk' as [->|Hk']; [done|].
           split; [done|]. split; [|done]. by rewrite lookup_insert_ne.
      * intros k' v' Hv'. apply Hkeep.
        rewrite lookup_insert_ne; [done|]. intros ->. congruence.
      * intros k' Hk'. apply elem_of_cons in Hk' as [->|Hk']; [|by apply Hall].
        rewrite (Hkeep k v); [by eexists|]. by rewrite lookup_insert_eq.
Qed.

Lemma filter_ext_elem {A} (P1 P2 : A -> Prop)
    `{!forall x, Decision (P1 x), !forall x, Decision (P2 x)} (l : list A) :
  (forall x, x ∈ l -> P1 x <-> P2 x) -> filter P1 l = filter P2 l.
Proof.
  induction l as [|a l IH]; intros Hext; [done|].
  rewrite !filter_cons.
  assert (Ha : P1 a <-> P2 a) by (apply Hext; by left).
  rewrite IH by (intros x Hx; apply Hext; by right).
  destruct (decide (P1 a)), (decide (P2 a)); tauto || done.
Qed.

Lemma raw_keys_NoDup : NoDup ["soil"; "temp"; "hum"].
Proof.
  repeat (apply NoDup_cons_2;
          [rewrite ?elem_of_cons, elem_of_nil; intuition discriminate|]).
  apply NoDup_nil_2.
Qed.

(** With a number typed at each prompt, the loop asks once for each
    missing key, in order, and ends. *)
Lemma fill_missing_numeric (keys : list string) :
  NoDup keys ->
  forall (provided : gmap string Q) (qs : list Q) (rest : list reply)
         (tr : list event),
    length qs = length (filter (fun k => provided !! k = None) keys) ->
    exists p',
      fill_missing keys provided {| stdin := (Numeric <$> qs) ++ rest; trace := tr |}
      = (Ret p',
         {| stdin := rest;
            trace := tr ++ ((fun k => Input (enter k))
                              <$> filter (fun k => provided !! k = None) keys) |}) /\
      forall (i : nat) k q,
        filter (fun k => provided !! k = None) keys !! i = Some k ->
        qs !! i = Some q -> p' !! k = Some q.
Proof.
  induction 1 as [|k keys Hk Hnd IH]; intros provided qs rest tr Hlen.
  - rewrite filter_nil in *. destruct qs; [|done]. exists provided. simpl.
    rewrite app_nil_r. split; [done|]. intros i k q Hi. done.
  - simpl. destruct (provided !! k) as [v0|] eqn:Hpk.
    + rewrite filter_cons_False in * by (rewrite Hpk; done).
      by apply IH.
    + rewrite filter_cons_True in * by done.
      destruct qs as [|q qs]; [done|]. simpl in Hlen.
      assert (Hsame : filter (fun k' => <[k := q]> provided !! k' = None) keys
                      = filter (fun k' => provided !! k' = None) keys).
      { apply filter_ext_elem. intros k' Hk'.
        rewrite lookup_insert_ne; [done|]. intros ->. done. }
      destruct (IH (<[k := q]> provided) qs rest (tr ++ [Input (enter k)])%list)
        as (p' & Hrun & Hvals).
      { rewrite Hsame. lia. }
      exists p'. split.
      * rewrite fmap_cons, <- app_comm_cons.
        rewrite (bind_run _ _ _ _ _ (prompt_float_numeric _ _ _ _)).
        rewrite Hrun, Hsame. by rewrite <- app_assoc.
      * intros i k' q' Hi Hq. destruct i as [|i]; simpl in *.
        -- injection Hi as <-. injection Hq as <-.
           destruct (fill_missing_spec _ _ _ _ _ Hrun) as (_ & _ & _ & Hkeep & _).
           apply Hkeep. by rewrite lookup_insert_eq.
        -- apply (Hvals i); [by rewrite Hsame|done].
Qed.

End PredictFacts.

Module PredictClaims.
Import Predict PredictFacts Examples.

(** C5.  For every feature name and every set of raw inputs, the key
    [map_inputs_to_features] resolves the name to is the one of the first
    keyword set, in the order soil, temp, hum, with a keyword in the
    lower-cased name, and the value assigned is the raw input of that key:
    the supplied one, or the one asked for under that key when it was not
    supplied.  A name with both "soil" and "temp" in it, such as
    "soil_moisture_lag_1" or "soil_temp", goes to soil.  In the row the
    function returns, every feature resolved to a supplied input holds
    that input, and when every feature is, the function returns without
    asking anything. *)
Theorem map_inputs_keyword_priority (feat : string) (provided : gmap string Q) :
  keyword_scan (PyStr.lower feat) _KEYWORDS = priority_key (PyStr.lower feat) /\
  (forall key, priority_key (PyStr.lower feat) = Some key ->
     feature_value provided feat
     = match provided !! key with
       | Some val => mret val
       | None => prompt_float key
       end) /\
  (PyStr.contains "soil" (PyStr.lower feat) = true ->
   priority_key (PyStr.lower feat) = Some "soil") /\
  priority_key (PyStr.lower "soil_moisture_lag_1") = Some "soil" /\
  priority_key (PyStr.lower "soil_temp") = Some "soil" /\
  (forall features (row : gmap string Q) w w',
     map_inputs_to_features features provided w = (Ret row, w') ->
     feat ∈ features ->
     forall key v, priority_key (PyStr.lower feat) = Some key ->
                   provided !! key = Some v -> row !! feat = Some v) /\
  (forall features w,
     (forall f, f ∈ features ->
        exists key, priority_key (PyStr.lower f) = Some key /\
                    is_Some (provided !! key)) ->
     exists row, map_inputs_to_features features provided w = (Ret row, w)).
Proof.
  split; [apply keyword_scan_priority|].
  split; [intros key; apply feature_value_keyword|].
  split; [intros H; unfold priority_key; by rewrite H|].
  split; [done|]. split; [done|]. split.
  - intros features row w w' Hrun Hin.
    by apply (map_inputs_loop_spec features provided ∅ row w w' Hrun feat).
  - intros features w Hall. by apply map_inputs_loop_total.
Qed.

(** C10.  The exact-name loop of [map_inputs_to_features] never assigns:
    whenever the keyword scan finds no key for a lower-cased name, the
    exact-name loop finds none either, because a name equal to "soil",
    "temp" or "hum" has that very keyword in it.  The value of a feature
    is therefore decided by the keyword scan or asked for. *)
Theorem exact_name_branch_unreachable (fl : string) (provided : gmap string Q) :
  keyword_scan fl _KEYWORDS = None ->
  exact_scan fl provided ["soil"; "temp"; "hum"] = None /\
  (forall key, key ∈ ["soil"; "temp"; "hum"] ->
     keyword_scan key _KEYWORDS = Some key) /\
  (forall feat, PyStr.lower feat = fl ->
     feature_value provided feat = prompt_float feat).
Proof.
  intros Hscan.
  assert (Hkeys : forall key, key ∈ ["soil"; "temp"; "hum"] ->
            keyword_scan key _KEYWORDS = Some key).
  { intros key Hin. repeat (apply elem_of_cons in Hin as [->|Hin]; [done|]).
    by apply elem_of_nil in Hin. }
  assert (Hexact : exact_scan fl provided ["soil"; "temp"; "hum"] = None).
  { destruct (exact_scan fl provided ["soil"; "temp"; "hum"]) as [v|] eqn:Hv; [|done].
    apply exact_scan_Some in Hv. rewrite (Hkeys fl Hv) in Hscan. done. }
  split; [done|]. split; [done|].
  intros feat <-. unfold feature_value. by rewrite Hscan, Hexact.
Qed.

Lemma exact_name_branch_unreachable_witness :
  exact_scan "ph" {[ "soil" := 23.5%Q ]} ["soil"; "temp"; "hum"] = None /\
  (forall key, key ∈ ["soil"; "temp"; "hum"] ->
     keyword_scan key _KEYWORDS = Some key) /\
  (forall feat, PyStr.lower feat = "ph" ->
     feature_value {[ "soil" := 23.5%Q ]} feat = prompt_float feat).
Proof.
  apply (exact_name_branch_unreachable "ph" {[ "soil" := 23.5%Q ]}).
  reflexivity.
Defined.

(** C7, as stated, fails: a mapping without a model, none of whose values
    exposes [predict], does not make [load_artifact] fail; the function
    returns, with [None] for the model. *)
Lemma load_artifact_mapping_without_model_returns :
  ~ (forall obj w, predictable_somewhere obj = false ->
       exists e, (load_artifact obj w).1 = Raise e).
Proof.
  intros H.
  destruct (H (PyDict [("model", PyNone); ("features", PyNames ["soil"; "temp"; "hum"])])
              {| stdin := []; trace := [] |} eq_refl) as [e He].
  discriminate He.
Qed.

(** C7, amended.  When no object exposing [predict] can be found in the
    bundle: a bundle that is not a mapping makes [load_artifact] raise; a
    mapping whose "model" and "pipeline" fields are absent or falsy makes
    it return [None] for the model, without raising, and [main] then
    prints "No model found inside artifact." and exits with status 1. *)
Theorem load_artifact_without_predictor (obj : pyval) (w : world) :
  predictable_somewhere obj = false ->
  (is_mapping obj = false ->
   load_artifact obj w
   = (Raise "Model artifact does not contain a sklearn model or expected dict.", w)) /\
  (forall items,
     obj = PyDict items ->
     truthy (dict_get items "model") = false ->
     truthy (dict_get items "pipeline") = false ->
     exists features metadata,
       load_artifact obj w = (Ret (PyNone, features, metadata), w) /\
       forall str_float E args,
         path_exists E (arg_model args) = true ->
         joblib_load E (arg_model args) = Returns obj ->
         main str_float E args w
         = (Exit 1, extend w [Stdout "No model found inside artifact."]) /\
         exit_status (main str_float E args w).1 = Some 1).
Proof.
  intros Hno. split.
  - intros Hmap. destruct obj as [|names|items|o]; try done; simpl in *.
    by rewrite Hno.
  - intros items -> Hmodel Hpipe. simpl in Hno.
    assert (Hload : load_artifact (PyDict items) w
                    = (Ret (PyNone,
                            py_or (py_or (dict_get items "features")
                                         (dict_get items "feature_names")) PyNone,
                            dict_get_default items "metadata" (PyDict [])), w)).
    { unfold load_artifact. rewrite (py_or_falsy _ _ Hmodel Hpipe).
      by rewrite (find_existsb_false _ _ Hno). }
    eexists _, _. split; [exact Hload|].
    intros str_float E args Hexists Hjob.
    assert (Hmain : main str_float E args w
                    = (Exit 1, extend w [Stdout "No model found inside artifact."])).
    { unfold main. apply bind_exit. unfold prepare. rewrite Hexists, Hjob.
      cbn [negb]. rewrite (bind_run _ _ w w (PyDict items)) by done.
      by rewrite (bind_run _ _ w w _ Hload). }
    by rewrite Hmain.
Qed.

Lemma load_artifact_without_predictor_witness :
  (is_mapping bundle_without_model = false ->
   load_artifact bundle_without_model {| stdin := []; trace := [] |}
   = (Raise "Model artifact does not contain a sklearn model or expected dict.",
      {| stdin := []; trace := [] |})) /\
  (forall items,
     bundle_without_model = PyDict items ->
     truthy (dict_get items "model") = false ->
     truthy (dict_get items "pipeline") = false ->
     exists features metadata,
       load_artifact bundle_without_model {| stdin := []; trace := [] |}
       = (Ret (PyNone, features, metadata), {| stdin := []; trace := [] |}) /\
       forall str_float E args,
         path_exists E (arg_model args) = true ->
         joblib_load E (arg_model args) = Returns bundle_without_model ->
         main str_float E args {| stdin := []; trace := [] |}
         = (Exit 1, extend {| stdin := []; trace := [] |}
                           [Stdout "No model found inside artifact."]) /\
         exit_status (main str_float E args {| stdin := []; trace := [] |}).1 = Some 1).
Proof.
  apply (load_artifact_without_predictor bundle_without_model
           {| stdin := []; trace := [] |}).
  reflexivity.
Defined.

(** C9.  In a run that reaches the call of the model, with a handle that
    has a [predict] method: the handle is first called with the frame of
    named columns; when that call returns, it is the only call; when it
    raises, the handle is called once more, with the bare row of values,
    and a result of that call is the prediction; when both calls raise,
    the run prints the two error messages on one line and exits with
    status 1. *)
Theorem predict_retries_once_with_flat_array
    (str_float : Q -> string) (E : env) (args : arguments)
    (model : pyval) (X : list (string * Q)) (device_id : option string)
    (w0 w1 : world) (t : bool) f :
  prepare str_float E args w0 = (Ret (model, X, device_id), w1) ->
  model = PyObj {| obj_truthy := t; obj_predict := Some f |} ->
  (forall labels,
     f (calls_before w1) (Structured X) = Returns labels ->
     predict_with_fallback model X w1
     = (Ret labels, extend w1 [PredictCall (Structured X)])) /\
  (forall e labels,
     f (calls_before w1) (Structured X) = Raises e ->
     f (S (calls_before w1)) (Flat X.*2) = Returns labels ->
     predict_with_fallback model X w1
     = (Ret labels, extend w1 [PredictCall (Structured X); PredictCall (Flat X.*2)])) /\
  (forall e e2,
     f (calls_before w1) (Structured X) = Raises e ->
     f (S (calls_before w1)) (Flat X.*2) = Raises e2 ->
     main str_float E args w0
     = (Exit 1,
        extend w1 [PredictCall (Structured X); PredictCall (Flat X.*2);
                   Stdout ("Failed to call model.predict(): " ++ e ++ " " ++ e2)]) /\
     exit_status (main str_float E args w0).1 = Some 1).
Proof.
  intros Hprep ->. split; [|split].
  - intros labels H1. unfold predict_with_fallback, try_except.
    by rewrite call_predict_run, H1.
  - intros e labels H1 H2. unfold predict_with_fallback, try_except.
    rewrite call_predict_run, H1, call_predict_run, calls_before_extend, H2.
    by rewrite extend_extend.
  - intros e e2 H1 H2.
    assert (Hmain : main str_float E args w0
              = (Exit 1,
                 extend w1 [PredictCall (Structured X); PredictCall (Flat X.*2);
                            Stdout ("Failed to call model.predict(): "
                                      ++ e ++ " " ++ e2)])).
    { unfold main. rewrite (bind_run _ _ _ _ _ Hprep). unfold conclude.
      apply bind_exit. unfold predict_with_fallback, try_except.
      rewrite call_predict_run, H1, call_predict_run, calls_before_extend, H2.
      unfold mbind, io_bind, print, emit, exit. by rewrite !extend_extend. }
    by rewrite Hmain.
Qed.

Lemma predict_retries_once_with_flat_array_witness :
  (forall labels,
     deaf_predict (calls_before fresh_world) (Structured demo_row) = Returns labels ->
     predict_with_fallback (PyObj deaf_handle) demo_row fresh_world
     = (Ret labels, extend fresh_world [PredictCall (Structured demo_row)])) /\
  (forall e labels,
     deaf_predict (calls_before fresh_world) (Structured demo_row) = Raises e ->
     deaf_predict (S (calls_before fresh_world)) (Flat demo_row.*2) = Returns labels ->
     predict_with_fallback (PyObj deaf_handle) demo_row fresh_world
     = (Ret labels,
        extend fresh_world [PredictCall (Structured demo_row);
                            PredictCall (Flat demo_row.*2)])) /\
  (forall e e2,
     deaf_predict (calls_before fresh_world) (Structured demo_row) = Raises e ->
     deaf_predict (S (calls_before fresh_world)) (Flat demo_row.*2) = Raises e2 ->
     main no_format (demo_env deaf_handle) demo_args fresh_world
     = (Exit 1,
        extend fresh_world
          [PredictCall (Structured demo_row); PredictCall (Flat demo_row.*2);
           Stdout ("Failed to call model.predict(): " ++ e ++ " " ++ e2)]) /\
     exit_status (main no_format (demo_env deaf_handle) demo_args fresh_world).1
     = Some 1).
Proof.
  apply (predict_retries_once_with_flat_array no_format (demo_env deaf_handle)
           demo_args (PyObj deaf_handle) demo_row None fresh_world fresh_world
           true deaf_predict).
  - vm_compute. reflexivity.
  - reflexivity.
Defined.

(** C6.  When the artifact gives no list of feature names:
    (a) with the three raw inputs supplied, the row is the three columns
    soil, temp, hum, in that order, with the supplied values, and nothing
    is asked;
    (b) in any case the row has these three columns in that order, a
    supplied input is in it unchanged, and the prompts are those for the
    inputs that are missing and no others;
    (c) with a number typed at each prompt, each missing input is asked
    once, in the order soil, temp, hum, and the row holds the answers;
    (d) in [main], with the three inputs on the command line, that row is
    what the run goes on with to call the model. *)
Theorem absent_feature_list_fixed_order (features : pyval)
    (provided : gmap string Q) :
  truthy features = false ->
  (forall s t h w,
     provided !! "soil" = Some s -> provided !! "temp" = Some t ->
     provided !! "hum" = Some h ->
     reconcile features provided w
     = (Ret [("soil", s); ("temp", t); ("hum", h)], w)) /\
  (forall w X w',
     reconcile features provided w = (Ret X, w') ->
     X.*1 = ["soil"; "temp"; "hum"] /\
     (forall k v, k ∈ ["soil"; "temp"; "hum"] -> provided !! k = Some v ->
                  (k, v) ∈ X) /\
     exists evs, trace w' = (trace w ++ evs)%list /\
       forall p, Input p ∈ evs <-> exists k, k ∈ missing_keys provided /\ p = enter k) /\
  (forall (qs : list Q) rest tr,
     length qs = length (missing_keys provided) ->
     exists X,
       reconcile features provided {| stdin := (Numeric <$> qs) ++ rest; trace := tr |}
       = (Ret X,
          {| stdin := rest;
             trace := tr ++ ((fun k => Input (enter k)) <$> missing_keys provided) |}) /\
       X.*1 = ["soil"; "temp"; "hum"] /\
       forall (i : nat) k q,
         missing_keys provided !! i = Some k -> qs !! i = Some q -> (k, q) ∈ X) /\
  (forall str_float E args obj model metadata w s t h,
     path_exists E (arg_model args) = true ->
     joblib_load E (arg_model args) = Returns obj ->
     load_artifact obj w = (Ret (model, features, metadata), w) ->
     is_none model = false ->
     arg_from_db args = false ->
     arg_soil args = Some s -> arg_temp args = Some t -> arg_hum args = Some h ->
     prepare str_float E args w
     = (Ret (model, [("soil", s); ("temp", t); ("hum", h)], None), w) /\
     main str_float E args w
     = conclude E args model [("soil", s); ("temp", t); ("hum", h)] None w).
Proof.
  intros Hf.
  assert (Ha : forall s t h w,
            provided !! "soil" = Some s -> provided !! "temp" = Some t ->
            provided !! "hum" = Some h ->
            reconcile features provided w
            = (Ret [("soil", s); ("temp", t); ("hum", h)], w)).
  { intros s t h w Hs Ht Hh. unfold reconcile. rewrite Hf. simpl.
    rewrite Hs, Ht, Hh. unfold mbind, io_bind, mret, io_ret. simpl.
    by rewrite Hs, Ht, Hh. }
  assert (Hrow : forall (p' : gmap string Q),
            ((fun k => (k, default 0%Q (p' !! k))) <$> ["soil"; "temp"; "hum"]).*1
            = ["soil"; "temp"; "hum"]) by done.
  assert (Hmem : forall (p' : gmap string Q) k v,
            k ∈ ["soil"; "temp"; "hum"] -> p' !! k = Some v ->
            (k, v) ∈ (fun k => (k, default 0%Q (p' !! k))) <$> ["soil"; "temp"; "hum"]).
  { intros p' k v Hk Hv. apply list_elem_of_fmap. exists k. by rewrite Hv. }
  split; [exact Ha|]. split; [|split].
  - intros w X w' Hrun. unfold reconcile in Hrun. rewrite Hf in Hrun.
    unfold mbind, io_bind in Hrun.
    destruct (fill_missing ["soil"; "temp"; "hum"] provided w)
      as [[p'| | |] w1] eqn:Hfill; try done.
    injection Hrun as <- <-.
    destruct (fill_missing_spec _ _ _ _ _ Hfill) as (evs & Htr & Hin & Hkeep & _).
    split; [apply Hrow|]. split.
    + intros k v Hk Hv. apply Hmem; [done|]. by apply Hkeep.
    + exists evs. split; [done|]. intros p. rewrite Hin.
      unfold missing_keys. split.
      * intros (k & Hk & Hnone & ->). exists k. split; [|done].
        by apply list_elem_of_filter.
      * intros (k & Hk & ->). apply list_elem_of_filter in Hk as [Hnone Hk]. by exists k.
  - intros qs rest tr Hlen.
    destruct (fill_missing_numeric ["soil"; "temp"; "hum"] raw_keys_NoDup
                provided qs rest tr Hlen) as (p' & Hrun & Hvals).
    eexists. split; [|split].
    + unfold reconcile. rewrite Hf. by rewrite (bind_run _ _ _ _ _ Hrun).
    + apply Hrow.
    + intros i k q Hi Hq. apply Hmem; [|by apply (Hvals i)].
      apply list_elem_of_lookup_2 in Hi. unfold missing_keys in Hi.
      by apply list_elem_of_filter in Hi as [_ Hi].
  - intros str_float E args obj model metadata w s t h
           Hexists Hjob Hload Hmodel Hdb Hs Ht Hh.
    assert (Hprep : prepare str_float E args w
              = (Ret (model, [("soil", s); ("temp", t); ("hum", h)], None), w)).
    { unfold prepare. rewrite Hexists, Hjob. cbn [negb].
      rewrite (bind_run _ _ w w obj) by done.
      rewrite (bind_run _ _ w w _ Hload). rewrite Hmodel.
      unfold obtain_raw_input. rewrite Hdb, Hs, Ht, Hh.
      rewrite (bind_run _ _ w w (provided_of (Some s) (Some t) (Some h), None)) by done.
      unfold reconcile. rewrite Hf. by vm_compute. }
    split; [done|]. unfold main. by rewrite (bind_run _ _ _ _ _ Hprep).
Qed.

Lemma absent_feature_list_fixed_order_witness :
  (forall s t h w,
     temp_only !! "soil" = Some s -> temp_only !! "temp" = Some t ->
     temp_only !! "hum" = Some h ->
     reconcile PyNone temp_only w
     = (Ret [("soil", s); ("temp", t); ("hum", h)], w)) /\
  (forall w X w',
     reconcile PyNone temp_only w = (Ret X, w') ->
     X.*1 = ["soil"; "temp"; "hum"] /\
     (forall k v, k ∈ ["soil"; "temp"; "hum"] -> temp_only !! k = Some v ->
                  (k, v) ∈ X) /\
     exists evs, trace w' = (trace w ++ evs)%list /\
       forall p, Input p ∈ evs <-> exists k, k ∈ missing_keys temp_only /\ p = enter k) /\
  (forall (qs : list Q) rest tr,
     length qs = length (missing_keys temp_only) ->
     exists X,
       reconcile PyNone temp_only {| stdin := (Numeric <$> qs) ++ rest; trace := tr |}
       = (Ret X,
          {| stdin := rest;
             trace := tr ++ ((fun k => Input (enter k)) <$> missing_keys temp_only) |}) /\
       X.*1 = ["soil"; "temp"; "hum"] /\
       forall (i : nat) k q,
         missing_keys temp_only !! i = Some k -> qs !! i = Some q -> (k, q) ∈ X) /\
  (forall str_float E args obj model metadata w s t h,
     path_exists E (arg_model args) = true ->
     joblib_load E (arg_model args) = Returns obj ->
     load_artifact obj w = (Ret (model, PyNone, metadata), w) ->
     is_none model = false ->
     arg_from_db args = false ->
     arg_soil args = Some s -> arg_temp args = Some t -> arg_hum args = Some h ->
     prepare str_float E args w
     = (Ret (model, [("soil", s); ("temp", t); ("hum", h)], None), w) /\
     main str_float E args w
     = conclude E args model [("soil", s); ("temp", t); ("hum", h)] None w).
Proof.
  apply (absent_feature_list_fixed_order PyNone temp_only). reflexivity.
Defined.

(** C8.  In a run that has produced a decision, the decision text is
    printed before the prediction store is written to, whatever the store
    then does; and when the write fails, the run prints a warning on the
    error stream and ends normally, with status 0. *)
Theorem persistence_failure_is_a_warning
    (str_float : Q -> string) (E : env) (args : arguments)
    (model : pyval) (X : list (string * Q)) (device_id : option string)
    (w0 w1 w2 : world) (out : Z) (others : list Z) :
  prepare str_float E args w0 = (Ret (model, X, device_id), w1) ->
  predict_with_fallback model X w1 = (Ret (out :: others), w2) ->
  (exists evs,
     (main str_float E args w0).2
     = extend w2 (Stdout (decision_text (arg_raw args) out) :: evs)) /\
  (forall e,
     insert_one E (arg_mongo_uri args) (make_prediction_doc E device_id out)
     = Raises e ->
     main str_float E args w0
     = (Ret tt,
        extend w2
          [Stdout (decision_text (arg_raw args) out);
           Stdout (newline ++ "Saving prediction to MongoDB...");
           InsertOne (make_prediction_doc E device_id out);
           Stderr ("Warning: Failed to save prediction to database: "
                     ++ "Failed to save prediction to MongoDB: " ++ e)]) /\
     exit_status (main str_float E args w0).1 = Some 0).
Proof.
  intros Hprep Hpred.
  assert (Hmain : main str_float E args w0
            = match insert_one E (arg_mongo_uri args)
                      (make_prediction_doc E device_id out) with
              | Returns inserted_id =>
                  (Ret tt,
                   extend w2
                     [Stdout (decision_text (arg_raw args) out);
                      Stdout (newline ++ "Saving prediction to MongoDB...");
                      InsertOne (make_prediction_doc E device_id out);
                      Stdout ("Prediction saved with ID: " ++ inserted_id)])
              | Raises e =>
                  (Ret tt,
                   extend w2
                     [Stdout (decision_text (arg_raw args) out);
                      Stdout (newline ++ "Saving prediction to MongoDB...");
                      InsertOne (make_prediction_doc E device_id out);
                      Stderr ("Warning: Failed to save prediction to database: "
                                ++ "Failed to save prediction to MongoDB: " ++ e)])
              end).
  { unfold main. rewrite (bind_run _ _ _ _ _ Hprep). unfold conclude.
    rewrite (bind_run _ _ _ _ _ Hpred).
    rewrite (bind_run _ _ w2 w2 out) by done.
    unfold try_except, save_prediction_to_db, mbind, io_bind, print, eprint, emit,
      raise, mret, io_ret.
    destruct (insert_one E (arg_mongo_uri args) (make_prediction_doc E device_id out));
      by rewrite !extend_extend. }
  split.
  - rewrite Hmain.
    destruct (insert_one E (arg_mongo_uri args) (make_prediction_doc E device_id out));
      by eexists.
  - intros e He. rewrite Hmain, He. done.
Qed.

Lemma persistence_failure_is_a_warning_witness :
  (exists evs,
     (main no_format (demo_env picky_handle) demo_args fresh_world).2
     = extend (extend fresh_world [PredictCall (Structured demo_row);
                                   PredictCall (Flat demo_row.*2)])
              (Stdout (decision_text (arg_raw demo_args) 1) :: evs)) /\
  (forall e,
     insert_one (demo_env picky_handle) (arg_mongo_uri demo_args)
                (make_prediction_doc (demo_env picky_handle) None 1)
     = Raises e ->
     main no_format (demo_env picky_handle) demo_args fresh_world
     = (Ret tt,
        extend (extend fresh_world [PredictCall (Structured demo_row);
                                    PredictCall (Flat demo_row.*2)])
          [Stdout (decision_text (arg_raw demo_args) 1);
           Stdout (newline ++ "Saving prediction to MongoDB...");
           InsertOne (make_prediction_doc (demo_env picky_handle) None 1);
           Stderr ("Warning: Failed to save prediction to database: "
                     ++ "Failed to save prediction to MongoDB: " ++ e)]) /\
     exit_status (main no_format (demo_env picky_handle) demo_args fresh_world).1
     = Some 0).
Proof.
  apply (persistence_failure_is_a_warning no_format (demo_env picky_handle) demo_args
           (PyObj picky_handle) demo_row None fresh_world fresh_world
           (extend fresh_world [PredictCall (Structured demo_row);
                                PredictCall (Flat demo_row.*2)])
           1 []).
  - vm_compute. reflexivity.
  - vm_compute. reflexivity.
Defined.

End PredictClaims.

(** * More on what the code does *)

Module FrameFacts.
Import Pandas PandasFacts FeatureEngineering FeatureFacts ResampleFacts DatasetFacts.
Import Readings.

Lemma cell_at_row (df : DataFrame) (c : string) (i : nat) t r :
  rows df !! i = Some (t, r) -> cell_at df c (Z.of_nat i) = cell_of r c.
Proof.
  intros H. unfold cell_at, lookupZ. rewrite decide_True by lia.
  by rewrite Nat2Z.id, list_lookup_fmap, (col_lookup _ _ _ _ _ H).
Qed.

Lemma cell_at_shift (df : DataFrame) (c : string) (z : Z) :
  cell_at df c z = lookupZ (col df c).*2 z.
Proof. done. Qed.

Lemma lookup_series_sub (a b : Series) (i : nat) t t' x y :
  a !! i = Some (t, x) -> b !! i = Some (t', y) ->
  series_sub a b !! i = Some (t, cell_sub x y).
Proof. intros Ha Hb. unfold series_sub. by rewrite lookup_zip_with, Ha; simpl; rewrite Hb. Qed.

Lemma lookup_rolling_mean (window min_periods : nat) (s : Series) (i : nat) t v :
  s !! i = Some (t, v) ->
  rolling_mean window min_periods s !! i
  = Some (t, nanmean min_periods
               (take (Nat.min window (S i)) (drop (S i - window) s.*2))).
Proof. intros H. unfold rolling_mean. by rewrite list_lookup_imap, H. Qed.

Lemma lookup_index_field (f : Z -> Z) (df : DataFrame) (i : nat) t :
  df_index df !! i = Some t ->
  index_field f df !! i = Some (t, Some (inject_Z (f t))).
Proof. intros H. unfold index_field. by rewrite list_lookup_fmap, H. Qed.

(** The frame [create_lag_features] builds before its final [dropna], cell
    by cell. *)
Lemma lag_frame_cells (agg : DataFrame) (lags : Z) :
  colnames agg = raw_columns ->
  exists X, create_lag_features agg lags = Some (dropna X) /\
    df_index X = df_index agg /\
    colnames X = (raw_columns ++ (lag_name <$> PyStr.range 1 (lags + 1))
                    ++ derived_columns)%list /\
    forall (i : nat) t r, rows X !! i = Some (t, r) ->
      (forall c, c ∈ raw_columns -> cell_of r c = cell_at agg c (Z.of_nat i)) /\
      (forall k, 1 <= k <= lags ->
         cell_of r (lag_name k) = cell_at agg "moisture" (Z.of_nat i - k)) /\
      cell_of r "moisture_diff_1"
      = cell_sub (cell_at agg "moisture" (Z.of_nat i))
                 (cell_at agg "moisture" (Z.of_nat i - 1)) /\
      cell_of r "moisture_rolling_mean_3"
      = nanmean 1 (take (Nat.min 3 (S i)) (drop (S i - 3) (col agg "moisture").*2)) /\
      cell_of r "hour" = Some (inject_Z (hour_of t)) /\
      cell_of r "dayofyear" = Some (inject_Z (dayofyear_of t)) /\
      cell_of r "dayofweek" = Some (inject_Z (dayofweek_of t)).
Proof.
  intros Hraw.
  assert (Hm : "moisture" ∈ colnames agg) by (rewrite Hraw; is_elem).
  destruct (add_lags_spec (PyStr.range 1 (lags + 1)) agg Hm)
    as (X0 & Hrun & Hidx & Hrows & Hother & Hlag & Hcols & Hexact).
  assert (Hm0 : "moisture" ∈ colnames X0) by (apply Hcols; by left).
  assert (Hfix : forall c, c ∈ "moisture" :: derived_columns ->
                   c ∉ lag_name <$> PyStr.range 1 (lags + 1)).
  { intros c Hc. rewrite list_elem_of_fmap. intros (k & -> & _).
    apply (lag_name_fresh k). unfold derived_columns in Hc.
    split_elem; rewrite Hc; is_elem. }
  set (m := col X0 "moisture").
  set (X1 := set_col X0 "moisture_diff_1" (series_sub m (shift 1 m))).
  set (X2 := set_col X1 "moisture_rolling_mean_3" (rolling_mean 3 1 (col X1 "moisture"))).
  set (X3 := set_col X2 "hour" (index_field hour_of X2)).
  set (X4 := set_col X3 "dayofyear" (index_field dayofyear_of X3)).
  set (X5 := set_col X4 "dayofweek" (index_field dayofweek_of X4)).
  assert (L1 : length (series_sub m (shift 1 m)) = length (rows X0)).
  { rewrite length_series_sub; unfold m; len. }
  assert (R1 : length (rows X1) = length (rows X0)) by (by apply length_set_col).
  assert (L2 : length (rolling_mean 3 1 (col X1 "moisture")) = length (rows X1)).
  { unfold rolling_mean. len. }
  assert (R2 : length (rows X2) = length (rows X1)) by (by apply length_set_col).
  assert (L3 : length (index_field hour_of X2) = length (rows X2))
    by apply length_index_field.
  assert (R3 : length (rows X3) = length (rows X2)) by (by apply length_set_col).
  assert (L4 : length (index_field dayofyear_of X3) = length (rows X3))
    by apply length_index_field.
  assert (R4 : length (rows X4) = length (rows X3)) by (by apply length_set_col).
  assert (L5 : length (index_field dayofweek_of X4) = length (rows X4))
    by apply length_index_field.
  assert (Hkeep : forall c, c ∉ derived_columns -> col X5 c = col X0 c).
  { intros c Hc. unfold derived_columns in Hc.
    rewrite !not_elem_of_cons in Hc. destruct Hc as (?&?&?&?&?&_).
    unfold X5. rewrite col_set_col_ne by done.
    unfold X4. rewrite col_set_col_ne by done.
    unfold X3. rewrite col_set_col_ne by done.
    unfold X2. rewrite col_set_col_ne by done.
    unfold X1. by rewrite col_set_col_ne by done. }
  assert (Hnames : forall c, c ∈ colnames X0 -> c ∈ colnames X5).
  { intros c Hc. unfold X5, X4, X3, X2, X1.
    rewrite !set_col_colnames_elem. tauto. }
  assert (Hmagg : m = col agg "moisture") by (apply Hother, Hfix; by left).
  assert (I1 : df_index X1 = df_index agg) by (unfold X1; by rewrite set_col_index).
  assert (I2 : df_index X2 = df_index agg) by (unfold X2; by rewrite set_col_index).
  assert (I3 : df_index X3 = df_index agg) by (unfold X3; by rewrite set_col_index).
  assert (I4 : df_index X4 = df_index agg) by (unfold X4; by rewrite set_col_index).
  assert (I5 : df_index X5 = df_index agg) by (unfold X5; by rewrite set_col_index).
  exists X5. split.
  { unfold create_lag_features. rewrite Hrun. simpl.
    rewrite (get_col_Some X0 "moisture") by done. simpl.
    rewrite (get_col_Some _ "moisture"); [done|].
    apply set_col_colnames_elem. by right. }
  split; [done|]. split.
  {
  assert (E0 : colnames X0 = (raw_columns ++ (lag_name <$> PyStr.range 1 (lags + 1)))%list).
    { rewrite <- Hraw. apply Hexact; [apply range_NoDup|].
      intros k _. rewrite Hraw. intros Hin. apply (lag_name_fresh k).
      unfold raw_columns in Hin. split_elem; rewrite Hin; is_elem. }
    assert (Hnew : forall c (cs : list string), c ∈ derived_columns -> c ∉ cs ->
              c ∉ "moisture" :: "temperature" :: "humidity" :: cs ->
              c ∉ (colnames X0 ++ cs)%list).
    { intros c cs Hc Hncs Hraws. rewrite E0, !elem_of_app. intros [[Hr|Hl]|Hcs]; [| |done].
      - apply Hraws. unfold raw_columns in Hr. split_elem; is_elem.
      - apply (Hfix c); [by right|done]. }
    assert (C1 : colnames X1 = (colnames X0 ++ ["moisture_diff_1"])%list).
    { apply set_col_colnames_new. rewrite <- (app_nil_r (colnames X0)).
      apply Hnew; [is_elem|not_elem|not_elem]. }
    assert (C2 : colnames X2
                 = (colnames X0 ++ ["moisture_diff_1"; "moisture_rolling_mean_3"])%list).
    { unfold X2. rewrite set_col_colnames_new; rewrite C1.
      - by rewrite <- app_assoc.
      - apply Hnew; [is_elem|not_elem|not_elem]. }
    assert (C3 : colnames X3
                 = (colnames X0 ++ ["moisture_diff_1"; "moisture_rolling_mean_3";
                                    "hour"])%list).
    { unfold X3. rewrite set_col_colnames_new; rewrite C2.
      - by rewrite <- app_assoc.
      - apply Hnew; [is_elem|not_elem|not_elem]. }
    assert (C4 : colnames X4
                 = (colnames X0 ++ ["moisture_diff_1"; "moisture_rolling_mean_3";
                                    "hour"; "dayofyear"])%list).
    { unfold X4. rewrite set_col_colnames_new; rewrite C3.
      - by rewrite <- app_assoc.
      - apply Hnew; [is_elem|not_elem|not_elem]. }
    unfold X5. rewrite set_col_colnames_new; rewrite C4.
    - rewrite E0. unfold derived_columns. by rewrite <- !app_assoc.
    - apply Hnew; [is_elem|not_elem|not_elem]. }
  intros i t r Hi.
  assert (Hcell : forall c, (col X5 c).*2 !! i = Some (cell_of r c)).
  { intros c. by rewrite list_lookup_fmap, (col_lookup _ _ _ _ _ Hi). }
  assert (Hti : df_index agg !! i = Some t).
  { rewrite <- I5. apply index_lookup_row. by exists r. }
  destruct (proj1 (index_lookup_row agg i t) Hti) as [ra Hra].
  assert (Hmi : m !! i = Some (t, cell_of ra "moisture")).
  { rewrite Hmagg. by apply col_lookup. }
  assert (Hs1 : shift 1 m !! i = Some (t, cell_at agg "moisture" (Z.of_nat i - 1))).
  { rewrite (shift_lookup _ _ _ _ _ Hmi). by rewrite Hmagg. }
  split.
  { intros c Hc. rewrite (cell_at_row _ _ _ _ _ Hra).
    assert (Hcol : col X5 c = col agg c).
    { rewrite Hkeep.
      - apply Hother. rewrite list_elem_of_fmap. intros (k & -> & _).
        apply (lag_name_fresh k). unfold raw_columns in Hc. split_elem; rewrite Hc; is_elem.
      - unfold raw_columns, derived_columns in *. intros Hd. by split_elem; split_elem. }
    specialize (Hcell c). rewrite Hcol, list_lookup_fmap, (col_lookup _ _ _ _ _ Hra) in Hcell.
    by injection Hcell. }
  split.
  { intros k Hk.
    assert (Hin : k ∈ PyStr.range 1 (lags + 1)) by (apply PyStrFacts.range_elem; lia).
    specialize (Hcell (lag_name k)). rewrite Hkeep in Hcell.
    - rewrite (Hlag k Hin), list_lookup_fmap in Hcell.
      rewrite <- Hmagg, (shift_lookup _ _ _ _ _ Hmi) in Hcell. simpl in Hcell.
      injection Hcell as <-. by rewrite Hmagg.
    - intros Hd. apply (Hfix (lag_name k)); [by right|]. by apply list_elem_of_fmap_2. }
  split.
  { specialize (Hcell "moisture_diff_1").
    unfold X5 in Hcell. rewrite col_set_col_ne in Hcell by done.
    unfold X4 in Hcell. rewrite col_set_col_ne in Hcell by done.
    unfold X3 in Hcell. rewrite col_set_col_ne in Hcell by done.
    unfold X2 in Hcell. rewrite col_set_col_ne in Hcell by done.
    unfold X1 in Hcell. rewrite col_set_col_eq in Hcell by done.
    rewrite list_lookup_fmap, (lookup_series_sub _ _ _ _ _ _ _ Hmi Hs1) in Hcell.
    simpl in Hcell. injection Hcell as <-.
    by rewrite (cell_at_row _ _ _ _ _ Hra). }
  split.
  { specialize (Hcell "moisture_rolling_mean_3").
    unfold X5 in Hcell. rewrite col_set_col_ne in Hcell by done.
    unfold X4 in Hcell. rewrite col_set_col_ne in Hcell by done.
    unfold X3 in Hcell. rewrite col_set_col_ne in Hcell by done.
    unfold X2 in Hcell. rewrite col_set_col_eq in Hcell by done.
    assert (Hm1 : col X1 "moisture" = m) by (unfold X1; by rewrite col_set_col_ne).
    rewrite Hm1, list_lookup_fmap, (lookup_rolling_mean _ _ _ _ _ _ Hmi) in Hcell.
    simpl in Hcell. injection Hcell as <-. by rewrite Hmagg. }
  split.
  { specialize (Hcell "hour").
    unfold X5 in Hcell. rewrite col_set_col_ne in Hcell by done.
    unfold X4 in Hcell. rewrite col_set_col_ne in Hcell by done.
    unfold X3 in Hcell. rewrite col_set_col_eq in Hcell by done.
    rewrite list_lookup_fmap, (lookup_index_field _ _ _ t) in Hcell by (by rewrite I2).
    simpl in Hcell. by injection Hcell as <-. }
  split.
  { specialize (Hcell "dayofyear").
    unfold X5 in Hcell. rewrite col_set_col_ne in Hcell by done.
    unfold X4 in Hcell. rewrite col_set_col_eq in Hcell by done.
    rewrite list_lookup_fmap, (lookup_index_field _ _ _ t) in Hcell by (by rewrite I3).
    simpl in Hcell. by injection Hcell as <-. }
  specialize (Hcell "dayofweek").
  unfold X5 in Hcell. rewrite col_set_col_eq in Hcell by done.
  rewrite list_lookup_fmap, (lookup_index_field _ _ _ t) in Hcell by (by rewrite I4).
  simpl in Hcell. by injection Hcell as <-.
Qed.

End FrameFacts.

(** ** The frames of the training pipeline *)

Module FrameProperties.
Import Pandas PandasFacts FeatureEngineering FeatureFacts ResampleFacts DatasetFacts.
Import Readings FrameFacts Examples Scenarios.

Lemma cell_at_lookup (df : DataFrame) (c : string) (z : Z) (q : Q) :
  cell_at df c z = Some q <->
  0 <= z /\ (col df c).*2 !! Z.to_nat z = Some (Some q).
Proof. apply lookupZ_Some. Qed.

Lemma cell_sub_is_Some (a b : cell) :
  is_Some (cell_sub a b) <-> is_Some a /\ is_Some b.
Proof.
  destruct a, b; simpl; split; try (intros [[? ?] [? ?]]); try (intros [? ?]);
    try done; by split; eexists.
Qed.

Lemma nanmean_is_Some (l : list cell) (q : Q) :
  Some q ∈ l -> is_Some (nanmean 1 l).
Proof.
  intros Hin. rewrite FeatureClaims.nanmean_values.
  assert (Hq : q ∈ present l).
  { unfold present. apply list_elem_of_omap. by exists (Some q). }
  destruct (decide (present l = [])) as [E|_]; [|by eexists].
  rewrite E in Hq. by apply elem_of_nil in Hq.
Qed.

Lemma window_last (l : list cell) (i : nat) (x : cell) :
  l !! i = Some x -> x ∈ take (Nat.min 3 (S i)) (drop (S i - 3) l).
Proof.
  intros H. apply list_elem_of_lookup. exists (i - (S i - 3))%nat.
  rewrite lookup_take_lt by lia. rewrite lookup_drop.
  by replace (S i - 3 + (i - (S i - 3)))%nat with i by lia.
Qed.

(** The trailing window of three: its non-missing values are those among
    the cells at [i - 2], [i - 1] and [i]. *)
Lemma window_present (l : list cell) (i : nat) :
  (i < length l)%nat ->
  present (take (Nat.min 3 (S i)) (drop (S i - 3) l))
  = present [lookupZ l (Z.of_nat i - 2); lookupZ l (Z.of_nat i - 1);
             lookupZ l (Z.of_nat i)].
Proof.
  intros Hi.
  assert (Hat : forall j : nat, (j < length l)%nat ->
            exists x, l !! j = Some x /\ lookupZ l (Z.of_nat j) = x).
  { intros j Hj. destruct (lookup_lt_is_Some_2 l j Hj) as [x Hx]. exists x.
    split; [done|]. unfold lookupZ. rewrite decide_True by lia.
    by rewrite Nat2Z.id, Hx. }
  destruct i as [|[|i]].
  - destruct (Hat 0%nat Hi) as (x & Hx & Ex).
    rewrite Ex. destruct l; [done|]. simpl in Hx. by injection Hx as ->.
  - destruct (Hat 0%nat ltac:(lia)) as (x0 & Hx0 & E0).
    destruct (Hat 1%nat Hi) as (x1 & Hx1 & E1).
    replace (Z.of_nat 1 - 1) with (Z.of_nat 0) by lia.
    rewrite E0, E1. destruct l as [|a [|b l]]; try done. simpl in Hx0, Hx1.
    injection Hx0 as ->. by injection Hx1 as ->.
  - destruct (Hat i ltac:(lia)) as (x0 & Hx0 & E0).
    destruct (Hat (S i) ltac:(lia)) as (x1 & Hx1 & E1).
    destruct (Hat (S (S i)) Hi) as (x2 & Hx2 & E2).
    replace (Z.of_nat (S (S i)) - 2) with (Z.of_nat i) by lia.
    replace (Z.of_nat (S (S i)) - 1) with (Z.of_nat (S i)) by lia.
    rewrite E0, E1, E2.
    replace (S (S (S i)) - 3)%nat with i by lia.
    replace (Nat.min 3 (S (S (S i)))) with 3%nat by lia.
    rewrite (drop_S _ _ _ Hx0), (drop_S _ _ _ Hx1), (drop_S _ _ _ Hx2). done.
Qed.

(** Which intervals [create_lag_features] keeps, and in which order. *)
Lemma retained_intervals obs w agg (lags : Z) out :
  resample_and_aggregate obs w = Some agg ->
  create_lag_features agg lags = Some out ->
  df_index out `sublist_of` df_index agg /\
  forall (i : nat) t, df_index agg !! i = Some t ->
    (t ∈ df_index out <->
     is_Some (cell_at agg "temperature" (Z.of_nat i)) /\
     is_Some (cell_at agg "humidity" (Z.of_nat i)) /\
     forall k, 0 <= k <= Z.max lags 1 ->
       is_Some (cell_at agg "moisture" (Z.of_nat i - k))).
Proof.
  intros Hres Hout. pose proof (resampled_NoDup _ _ _ Hres) as Hnd.
  apply resample_and_aggregate_spec in Hres as (_ & Hraw & _).
  destruct (lag_frame_cells agg lags Hraw) as (X & Hrun & Hidx & Hcols & Hcells).
  rewrite Hrun in Hout. injection Hout as <-.
  split.
  { rewrite <- Hidx. unfold df_index, dropna. simpl.
    apply fmap_sublist, sublist_filter. }
  intros i t Hi.
  assert (Hrow : exists r, rows X !! i = Some (t, r)).
  { apply index_lookup_row. by rewrite Hidx. }
  destruct Hrow as [r Hr].
  destruct (Hcells i t r Hr) as (Craw & Clag & Cdiff & Croll & Chour & Cdoy & Cdow).
  assert (Hkept : t ∈ df_index (dropna X) <-> row_complete (colnames X) (t, r)).
  { unfold df_index. rewrite list_elem_of_fmap. split.
    - intros ([t' r'] & -> & Hin). simpl in *.
      apply dropna_rows in Hin as [Hcomp Hin].
      apply list_elem_of_lookup in Hin as [j Hj].
      assert (j = i) as ->.
      { apply (NoDup_lookup (df_index agg) j i t' Hnd); [|done].
        rewrite <- Hidx. apply index_lookup_row. by exists r'. }
      rewrite Hr in Hj. by injection Hj as ->.
    - intros Hcomp. exists (t, r). split; [done|]. apply dropna_rows. split; [done|].
      by eapply list_elem_of_lookup_2. }
  rewrite Hkept. unfold row_complete. rewrite Forall_forall. simpl.
  assert (Hin_raw : forall c, c ∈ raw_columns -> c ∈ colnames X).
  { intros c Hc. rewrite Hcols, elem_of_app. by left. }
  assert (Hin_lag : forall k, 1 <= k <= lags -> lag_name k ∈ colnames X).
  { intros k Hk. rewrite Hcols, !elem_of_app. right. left.
    apply list_elem_of_fmap_2, PyStrFacts.range_elem. lia. }
  assert (Hin_der : forall c, c ∈ derived_columns -> c ∈ colnames X).
  { intros c Hc. rewrite Hcols, !elem_of_app. by right; right. }
  assert (Hmoist : cell_of r "moisture" = cell_at agg "moisture" (Z.of_nat i - 0)).
  { rewrite Z.sub_0_r. apply Craw. unfold raw_columns. is_elem. }
  split.
  - intros Hall.
    split. { rewrite <- Craw by (unfold raw_columns; is_elem).
             apply Hall, Hin_raw. unfold raw_columns. is_elem. }
    split. { rewrite <- Craw by (unfold raw_columns; is_elem).
             apply Hall, Hin_raw. unfold raw_columns. is_elem. }
    intros k Hk.
    destruct (decide (k = 0)) as [->|Hk0].
    { rewrite <- Hmoist. apply Hall, Hin_raw. unfold raw_columns. is_elem. }
    destruct (decide (k <= lags)) as [Hle|Hgt].
    + rewrite <- Clag by lia. apply Hall, Hin_lag. lia.
    + replace k with 1 by lia.
      assert (Hd : is_Some (cell_of r "moisture_diff_1")).
      { apply Hall, Hin_der. unfold derived_columns. is_elem. }
      rewrite Cdiff in Hd. by apply cell_sub_is_Some in Hd as [_ Hd].
  - intros (Ht & Hh & Hm) c Hc.
    assert (Hm0 : is_Some (cell_of r "moisture")).
    { rewrite Hmoist. apply Hm. lia. }
    rewrite Hcols, !elem_of_app in Hc. destruct Hc as [Hc|[Hc|Hc]].
    + unfold raw_columns in Hc. split_elem.
      * done.
      * rewrite Craw by (unfold raw_columns; is_elem). done.
      * rewrite Craw by (unfold raw_columns; is_elem). done.
    + apply list_elem_of_fmap in Hc as (k & -> & Hk).
      apply PyStrFacts.range_elem in Hk. rewrite Clag by lia. apply Hm. lia.
    + unfold derived_columns in Hc. split_elem.
      * rewrite Cdiff. apply cell_sub_is_Some. split.
        -- rewrite <- (Z.sub_0_r (Z.of_nat i)). apply Hm. lia.
        -- apply Hm. lia.
      * rewrite Croll. destruct Hm0 as [q Hq].
        apply (nanmean_is_Some _ q), window_last.
        destruct (proj1 (index_lookup_row agg i t) Hi) as [ra Hra].
        rewrite list_lookup_fmap, (col_lookup _ _ _ _ _ Hra). simpl.
        rewrite Hmoist, Z.sub_0_r, (cell_at_row _ _ _ _ _ Hra) in Hq. by rewrite Hq.
      * rewrite Chour. by eexists.
      * rewrite Cdoy. by eexists.
      * rewrite Cdow. by eexists.
Qed.
Lemma target_at_interval (agg : DataFrame) (h : Z) (i : nat) t :
  NoDup (df_index agg) -> df_index agg !! i = Some t ->
  target_at agg h t = cell_at agg "moisture" (Z.of_nat i + h).
Proof.
  intros Hnd Hi. unfold target_at. by rewrite (target_lookup agg h i t Hnd Hi).
Qed.

(** The rows [build_dataset] returns, read against those of
    [create_lag_features]. *)
Lemma build_dataset_rows obs w agg (lags h : Z) :
  resample_and_aggregate obs w = Some agg ->
  exists feats X y,
    create_lag_features agg lags = Some feats /\
    build_dataset agg lags h = Some (X, y) /\
    colnames X = (["temperature"; "humidity"]
                    ++ (lag_name <$> PyStr.range 1 (lags + 1))
                    ++ derived_columns)%list /\
    y = (fun r : row => (r.1, target_at agg h r.1))
          <$> filter (fun r : row => is_Some (target_at agg h r.1)) (rows feats) /\
    rows X = (fun r : row =>
                (r.1, filter (fun kv : string * cell => kv.1 ∈ colnames X)
                             (<[target_name h := target_at agg h r.1]> r.2)))
               <$> filter (fun r : row => is_Some (target_at agg h r.1)) (rows feats).
Proof.
  intros Hres. pose proof (resampled_NoDup _ _ _ Hres) as Hnd.
  apply resample_and_aggregate_spec in Hres as (_ & Hraw & _).
  assert (Hm : "moisture" ∈ colnames agg) by (rewrite Hraw; is_elem).
  destruct (lag_rows agg lags Hm) as (feats & Hfeats & Hcols & _ & _).
  specialize (Hcols Hraw).
  set (m := col agg "moisture") in *.
  set (tn := target_name h).
  set (target := (fun t => (t, target_at agg h t)) <$> df_index feats).
  set (df1 := set_col feats tn target).
  assert (Hlen : length target = length (rows feats)).
  { unfold target, df_index. by rewrite !length_fmap. }
  assert (Hfresh : tn ∉ colnames feats).
  { rewrite Hcols, !elem_of_app. unfold tn.
    destruct (target_name_fresh h 0) as [_ Hfix].
    intros [Hr|[Hl|Hd]].
    - apply Hfix. unfold raw_columns in Hr. split_elem; rewrite Hr; is_elem.
    - apply list_elem_of_fmap in Hl as (k & Hk & _).
      by destruct (target_name_fresh h k).
    - apply Hfix. unfold derived_columns in Hd. split_elem; rewrite Hd; is_elem. }
  assert (Hc1 : colnames df1 = (colnames feats ++ [tn])%list)
    by (by apply set_col_colnames_new).
  assert (Hr1 : rows df1
                = (fun r : row => (r.1, <[tn := target_at agg h r.1]> r.2)) <$> rows feats).
  { unfold df1, set_col, target, df_index. simpl.
    rewrite <- list_fmap_compose, zip_with_fmap_r, zip_with_diag.
    by apply list_fmap_ext. }
  set (df2 := {| colnames := colnames df1;
                 rows := filter (row_complete [tn]) (rows df1) |}).
  set (fc := List.filter is_feature_col (colnames df2)).
  set (X := {| colnames := fc;
               rows := (fun r : row =>
                          (r.1, filter (fun kv : string * cell => kv.1 ∈ fc) r.2))
                         <$> rows df2 |}).
  assert (Hr2 : rows df2
                = (fun r : row => (r.1, <[tn := target_at agg h r.1]> r.2))
                    <$> filter (fun r : row => is_Some (target_at agg h r.1)) (rows feats)).
  { unfold df2. cbn [rows]. rewrite Hr1, filter_fmap_label. f_equal.
    apply list_filter_iff. intros r. unfold row_complete.
    rewrite Forall_singleton. simpl. by rewrite cell_of_insert, decide_True. }
  exists feats, X, (col df2 tn). split; [done|]. split.
  { unfold build_dataset. rewrite Hfeats. cbn [mbind option_bind].
    rewrite (get_col_Some agg "moisture") by done. cbn [mbind option_bind].
    unfold reindex. rewrite bool_decide_eq_true_2
      by (by rewrite shift_index, col_index). cbn [mbind option_bind].
    unfold dropna_subset. change (set_col feats _ _) with df1.
    rewrite bool_decide_eq_true_2.
    2:{ apply Forall_singleton. rewrite Hc1, elem_of_app. right. is_elem. }
    cbn [mbind option_bind]. fold df2. unfold select. fold fc.
    rewrite bool_decide_eq_true_2.
    2:{ apply Forall_forall. intros c Hc. by apply filter_In_elem in Hc. }
    cbn [mbind option_bind]. fold X. rewrite get_col_Some; [done|].
    change (tn ∈ colnames df1).
    rewrite Hc1, elem_of_app. right. is_elem. }
  split.
  { unfold X, fc, df2. cbn [colnames]. rewrite Hc1, Hcols.
    rewrite !List.filter_app. simpl.
    rewrite (filter_all _ (lag_name <$> _)).
    2:{ intros c Hc. apply list_elem_of_fmap in Hc as (k & -> & _).
        apply lag_name_is_feature. }
    by rewrite app_nil_r. }
  split.
  - unfold col. rewrite Hr2, <- list_fmap_compose. apply list_fmap_ext.
    intros _ r _. simpl. by rewrite cell_of_insert, decide_True.
  - unfold X. cbn [rows colnames]. rewrite Hr2, <- list_fmap_compose. done.
Qed.
(** The cells of a row [create_lag_features] keeps. *)
Lemma retained_row_cells obs w agg (lags : Z) out t r :
  resample_and_aggregate obs w = Some agg ->
  create_lag_features agg lags = Some out ->
  (t, r) ∈ rows out ->
  exists i : nat, df_index agg !! i = Some t /\
    (forall c, c ∈ colnames out -> is_Some (cell_of r c)) /\
    (forall c, c ∈ raw_columns -> cell_of r c = cell_at agg c (Z.of_nat i)) /\
    cell_of r "moisture_diff_1"
    = cell_sub (cell_at agg "moisture" (Z.of_nat i))
               (cell_at agg "moisture" (Z.of_nat i - 1)) /\
    cell_of r "moisture_rolling_mean_3"
    = nanmean 1 (take (Nat.min 3 (S i)) (drop (S i - 3) (col agg "moisture").*2)) /\
    cell_of r "hour" = Some (inject_Z (hour_of t)) /\
    cell_of r "dayofyear" = Some (inject_Z (dayofyear_of t)) /\
    cell_of r "dayofweek" = Some (inject_Z (dayofweek_of t)) /\
    colnames out = (raw_columns ++ (lag_name <$> PyStr.range 1 (lags + 1))
                      ++ derived_columns)%list.
Proof.
  intros Hres Hout Hin.
  apply resample_and_aggregate_spec in Hres as (_ & Hraw & _).
  destruct (lag_frame_cells agg lags Hraw) as (X & Hrun & Hidx & Hcols & Hcells).
  rewrite Hrun in Hout. injection Hout as <-.
  apply dropna_rows in Hin as [Hcomp Hin].
  apply list_elem_of_lookup in Hin as [i Hi]. exists i.
  destruct (Hcells i t r Hi) as (Craw & _ & Cdiff & Croll & Chour & Cdoy & Cdow).
  split. { rewrite <- Hidx. apply index_lookup_row. by exists r. }
  split. { unfold row_complete in Hcomp. rewrite Forall_forall in Hcomp. exact Hcomp. }
  done.
Qed.
Lemma filter_everything {A} (P : A -> Prop) `{!forall x, Decision (P x)} (l : list A) :
  Forall P l -> filter P l = l.
Proof.
  induction 1 as [|x l Hx _ IH]; [done|]. by rewrite filter_cons_True, IH.
Qed.

(** Which intervals [build_dataset] keeps. *)
Lemma kept_by_build_dataset obs w agg (lags h : Z) X y (i : nat) t :
  resample_and_aggregate obs w = Some agg ->
  build_dataset agg lags h = Some (X, y) ->
  df_index agg !! i = Some t ->
  (t ∈ df_index X <->
   is_Some (cell_at agg "temperature" (Z.of_nat i)) /\
   is_Some (cell_at agg "humidity" (Z.of_nat i)) /\
   (forall k, 0 <= k <= Z.max lags 1 ->
      is_Some (cell_at agg "moisture" (Z.of_nat i - k))) /\
   is_Some (cell_at agg "moisture" (Z.of_nat i + h))).
Proof.
  intros Hres Hrun Hi. pose proof (resampled_NoDup _ _ _ Hres) as Hnd.
  destruct (build_dataset_rows obs w agg lags h Hres)
    as (feats & X' & y' & Hfeats & Hrun' & _ & _ & HX).
  rewrite Hrun in Hrun'. injection Hrun' as <- <-.
  pose proof (proj2 (retained_intervals obs w agg lags feats Hres Hfeats) i t Hi) as Hkept.
  rewrite <- (target_at_interval agg h i t Hnd Hi).
  assert (HinX : t ∈ df_index X <->
                 t ∈ df_index feats /\ is_Some (target_at agg h t)).
  { unfold df_index. rewrite HX, <- list_fmap_compose, !list_elem_of_fmap. split.
    - intros ([t' r] & -> & Hin). apply list_elem_of_filter in Hin as [Htv Hin].
      simpl in *. split; [|done]. by exists (t', r).
    - intros (([t' r] & -> & Hin) & Htv). exists (t', r). split; [done|].
      by apply list_elem_of_filter. }
  rewrite HinX, Hkept. tauto.
Qed.

Lemma cell_at_in_range (df : DataFrame) (c : string) (z : Z) :
  is_Some (cell_at df c z) -> 0 <= z < Z.of_nat (length (rows df)).
Proof.
  intros [q Hq]. apply cell_at_lookup in Hq as [Hz Hq].
  apply lookup_lt_Some in Hq. rewrite length_fmap, length_col in Hq. lia.
Qed.

Lemma cell_at_complete (df : DataFrame) (c : string) (z : Z) :
  Forall (row_complete raw_columns) (rows df) -> c ∈ raw_columns ->
  0 <= z < Z.of_nat (length (rows df)) ->
  is_Some (cell_at df c z).
Proof.
  intros Hall Hc Hz.
  destruct (lookup_lt_is_Some_2 (rows df) (Z.to_nat z)) as [[t r] Hr]; [lia|].
  rewrite <- (Z2Nat.id z) by lia. rewrite (cell_at_row _ _ _ _ _ Hr).
  rewrite Forall_forall in Hall.
  specialize (Hall (t, r) (list_elem_of_lookup_2 _ _ _ Hr)).
  unfold row_complete in Hall. rewrite Forall_forall in Hall. by apply Hall.
Qed.
(** Where a value of a forward-filled list comes from: from the list at
    that place, or from the last known value at most [limit] places
    before, with nothing known in between; or, at the head, from the value
    carried in. *)
Lemma ffill_go_origin (limit : nat) (l : list cell) :
  forall (last : cell) (filled k : nat) (v : Q),
    ffill_go limit last filled l !! k = Some (Some v) ->
    (exists j : nat, (j <= k)%nat /\ (j <= limit)%nat /\
       l !! (k - j)%nat = Some (Some v) /\
       forall i : nat, (k - j < i <= k)%nat -> l !! i = Some None) \/
    (last = Some v /\ (filled + k < limit)%nat /\
     forall i : nat, (i <= k)%nat -> l !! i = Some None).
Proof.
  induction l as [|x l IH]; intros last filled k v H; [done|].
  destruct k as [|k].
  - destruct x as [x|]; simpl in H.
    + left. exists 0%nat. injection H as ->.
      split; [lia|]. split; [lia|]. split; [done|]. intros i Hi. lia.
    + right. destruct (decide (filled < limit)%nat); [|done].
      injection H as ->. split; [done|]. split; [lia|].
      intros i Hi. by replace i with 0%nat by lia.
  - destruct x as [x|]; cbn in H.
    + destruct (IH _ _ _ _ H) as [(j & Hj & Hlim & Hv & Hgap)|(Hlast & Hlt & Hgap)].
      * left. exists j. split; [lia|]. split; [lia|]. split.
        -- by replace (S k - j)%nat with (S (k - j)) by lia.
        -- intros i Hi. destruct i as [|i]; [lia|]. apply Hgap. lia.
      * left. exists (S k). injection Hlast as ->.
        split; [lia|]. split; [lia|]. split.
        -- by replace (S k - S k)%nat with 0%nat by lia.
        -- intros i Hi. destruct i as [|i]; [lia|]. apply Hgap. lia.
    + destruct (IH _ _ _ _ H) as [(j & Hj & Hlim & Hv & Hgap)|(Hlast & Hlt & Hgap)].
      * left. exists j. split; [lia|]. split; [lia|]. split.
        -- by replace (S k - j)%nat with (S (k - j)) by lia.
        -- intros i Hi. destruct i as [|i]; [lia|]. apply Hgap. lia.
      * right. split; [done|]. split; [lia|].
        intros i Hi. destruct i as [|i]; [done|]. apply Hgap. lia.
Qed.

Lemma ffill_values_origin (limit : nat) (l : list cell) (k : nat) (v : Q) :
  ffill_values limit l !! k = Some (Some v) ->
  exists j : nat, (j <= k)%nat /\ (j <= limit)%nat /\
    l !! (k - j)%nat = Some (Some v) /\
    forall i : nat, (k - j < i <= k)%nat -> l !! i = Some None.
Proof.
  intros H. by destruct (ffill_go_origin _ _ _ _ _ _ H) as [?|[? _]].
Qed.

Lemma Zmin_list_attained d (l : list Z) : Zmin_list d l ∈ d :: l.
Proof.
  unfold Zmin_list. induction l as [|a l IH]; simpl; [apply list_elem_of_here|].
  destruct (Z.min_spec a (foldr Z.min d l)) as [[_ ->]|[_ ->]].
  - apply list_elem_of_further, list_elem_of_here.
  - apply elem_of_cons in IH as [->|IH]; [apply list_elem_of_here|].
    by do 2 apply list_elem_of_further.
Qed.

Lemma Zmax_list_attained d (l : list Z) : Zmax_list d l ∈ d :: l.
Proof.
  unfold Zmax_list. induction l as [|a l IH]; simpl; [apply list_elem_of_here|].
  destruct (Z.max_spec a (foldr Z.max d l)) as [[_ ->]|[_ ->]].
  - apply elem_of_cons in IH as [->|IH]; [apply list_elem_of_here|].
    by do 2 apply list_elem_of_further.
  - apply list_elem_of_further, list_elem_of_here.
Qed.

(** The labels of the resampled frame, from the first and the last
    observation. *)
Lemma resampled_index obs w out :
  resample_and_aggregate obs w = Some out ->
  0 < w /\
  match df_index obs with
  | [] => df_index out = []
  | t0 :: ts =>
      let width := w * ns_per_minute in
      let start := bin_origin width (Zmin_list t0 ts) in
      df_index out
      = (fun k : nat => start + Z.of_nat k * width)
          <$> seq 0 (bin_count width start (Zmax_list t0 ts))
  end.
Proof.
  unfold resample_and_aggregate. intros H.
  destruct (select obs raw_columns) as [sel|] eqn:Hsel; [|done]. simpl in H.
  destruct (decide (0 < w)) as [Hw|]; [|done]. injection H as <-.
  apply select_spec in Hsel as [Hcols Hrows]. split; [done|].
  pose proof (resample_mean_colnames (w * ns_per_minute) sel) as Hc0. rewrite Hcols in Hc0.
  destruct (ffill_raw 2 _ Hc0) as (_ & -> & _).
  assert (Hidx : df_index sel = df_index obs).
  { unfold df_index. rewrite Hrows, <- list_fmap_compose. by apply list_fmap_ext. }
  unfold resample_mean. rewrite Hidx. destruct (df_index obs) as [|t0 ts]; [done|].
  cbv zeta. unfold df_index. cbn [rows].
  change (@List.map) with (@fmap list _). rewrite <- list_fmap_compose.
  by apply list_fmap_ext.
Qed.

Lemma bin_origin_bounds (width first : Z) :
  0 < width ->
  bin_origin width first <= first < bin_origin width first + width /\
  (ns_per_day mod width = 0 -> bin_origin width first mod width = 0).
Proof.
  intros Hw. unfold bin_origin. cbv zeta.
  set (day_start := first - first mod ns_per_day).
  pose proof (Z.mod_pos_bound (first - day_start) width Hw) as Hmod.
  split; [lia|]. intros Hday.
  assert (Hd : day_start mod width = 0).
  { assert (Hnz : ns_per_day <> 0) by done.
    pose proof (Z.div_mod first ns_per_day Hnz) as Hdm.
    apply Z.div_exact in Hday; [|lia].
    replace day_start with (first / ns_per_day * (ns_per_day / width) * width)
      by (unfold day_start; lia).
    apply Z.mod_mul. lia. }
  pose proof (Z.div_mod (first - day_start) width ltac:(lia)) as Hdm.
  replace (first - (first - day_start) mod width)
    with (day_start + (first - day_start) / width * width) by lia.
  by rewrite Z.mod_add by lia.
Qed.


(** X1.  [create_lag_features] keeps the row of an interval exactly when the
    temperature and the humidity of the interval are known and so is the
    moisture of the interval and of each of the [max lags 1] intervals before
    it, all of which must exist. *)
Theorem create_lag_features_keeps_exactly obs w agg (lags : Z) out (i : nat) t :
  resample_and_aggregate obs w = Some agg ->
  create_lag_features agg lags = Some out ->
  df_index agg !! i = Some t ->
  (t ∈ df_index out <->
   is_Some (cell_at agg "temperature" (Z.of_nat i)) /\
   is_Some (cell_at agg "humidity" (Z.of_nat i)) /\
   forall k, 0 <= k <= Z.max lags 1 ->
     is_Some (cell_at agg "moisture" (Z.of_nat i - k))).
Proof.
  intros Hres Hout Hi.
  by apply (proj2 (retained_intervals obs w agg lags out Hres Hout)).
Qed.

Lemma create_lag_features_keeps_exactly_witness :
  demo_label 3 ∈ df_index demo_feats <->
  is_Some (cell_at demo_agg "temperature" (Z.of_nat 3)) /\
  is_Some (cell_at demo_agg "humidity" (Z.of_nat 3)) /\
  forall k, 0 <= k <= Z.max 2 1 ->
    is_Some (cell_at demo_agg "moisture" (Z.of_nat 3 - k)).
Proof.
  apply (create_lag_features_keeps_exactly demo_obs 15 demo_agg 2 demo_feats 3).
  - vm_compute. reflexivity.
  - vm_compute. reflexivity.
  - vm_compute. reflexivity.
Defined.

(** X2.  In a row that [create_lag_features] keeps, for interval [i]: the
    three raw columns hold the values of the interval; [moisture_diff_1] is
    the moisture of the interval minus that of the one before;
    [moisture_rolling_mean_3] is the mean of the moisture values known among
    the intervals [i - 2], [i - 1] and [i]; and the calendar columns are the
    hour, the day of the year and the day of the week of the label. *)
Theorem create_lag_features_row_values obs w agg (lags : Z) out t r :
  resample_and_aggregate obs w = Some agg ->
  create_lag_features agg lags = Some out ->
  (t, r) ∈ rows out ->
  exists (i : nat) (a b : Q),
    df_index agg !! i = Some t /\
    (forall c, c ∈ raw_columns -> cell_of r c = cell_at agg c (Z.of_nat i)) /\
    cell_at agg "moisture" (Z.of_nat i) = Some a /\
    cell_at agg "moisture" (Z.of_nat i - 1) = Some b /\
    cell_of r "moisture_diff_1" = Some (a - b)%Q /\
    cell_of r "moisture_rolling_mean_3"
    = Some (Qmean (present [cell_at agg "moisture" (Z.of_nat i - 2);
                            cell_at agg "moisture" (Z.of_nat i - 1);
                            cell_at agg "moisture" (Z.of_nat i)])) /\
    cell_of r "hour" = Some (inject_Z (hour_of t)) /\
    cell_of r "dayofyear" = Some (inject_Z (dayofyear_of t)) /\
    cell_of r "dayofweek" = Some (inject_Z (dayofweek_of t)).
Proof.
  intros Hres Hout Hin.
  destruct (retained_row_cells _ _ _ _ _ _ _ Hres Hout Hin)
    as (i & Hi & Hfull & Craw & Cdiff & Croll & Chour & Cdoy & Cdow & Hcols).
  assert (Hd : is_Some (cell_of r "moisture_diff_1")).
  { apply Hfull. rewrite Hcols, !elem_of_app. right; right.
    unfold derived_columns. is_elem. }
  rewrite Cdiff in Hd. apply cell_sub_is_Some in Hd as [[a Ha] [b Hb]].
  exists i, a, b. split; [done|]. split; [done|]. split; [done|]. split; [done|].
  split. { by rewrite Cdiff, Ha, Hb. }
  split; [|done].
  assert (Hr : is_Some (cell_of r "moisture_rolling_mean_3")).
  { apply Hfull. rewrite Hcols, !elem_of_app. right; right.
    unfold derived_columns. is_elem. }
  rewrite Croll in *. rewrite FeatureClaims.nanmean_values in *.
  destruct (decide _) as [|_]; [by destruct Hr|].
  do 2 f_equal. apply window_present.
  apply cell_at_lookup in Ha as [_ Ha]. apply lookup_lt_Some in Ha.
  by rewrite Nat2Z.id in Ha.
Qed.

(** X3.  Whatever the lag count, [create_lag_features] drops the first
    interval of the series, whose difference has no predecessor; and a lag
    count of zero or less is accepted: it adds no lag column and gives what
    a lag count of zero gives. *)
Theorem create_lag_features_first_interval_and_no_lags obs w agg (lags : Z) out :
  resample_and_aggregate obs w = Some agg ->
  create_lag_features agg lags = Some out ->
  (forall t, df_index agg !! 0%nat = Some t -> t ∉ df_index out) /\
  (lags <= 0 ->
   colnames out = (raw_columns ++ derived_columns)%list /\
   create_lag_features agg 0 = Some out).
Proof.
  intros Hres Hout. split.
  - intros t Ht Hin.
    apply (proj2 (retained_intervals obs w agg lags out Hres Hout) 0%nat t Ht) in Hin
      as (_ & _ & Hm).
    destruct (Hm 1 ltac:(lia)) as [q Hq]. by apply cell_at_lookup in Hq as [? _].
  - intros Hle.
    assert (Hrange : PyStr.range 1 (lags + 1) = []).
    { unfold PyStr.range. by replace (Z.to_nat (lags + 1 - 1)) with 0%nat by lia. }
    split.
    + apply resample_and_aggregate_spec in Hres as (_ & Hraw & _).
      destruct (lag_frame_cells agg lags Hraw) as (X & Hrun & _ & Hcols & _).
      rewrite Hrun in Hout. injection Hout as <-. simpl. by rewrite Hcols, Hrange.
    + rewrite <- Hout. unfold create_lag_features. by rewrite Hrange.
Qed.

Lemma create_lag_features_row_values_witness :
  exists (i : nat) (a b : Q),
    df_index demo_agg !! i = Some demo_kept.1 /\
    (forall c, c ∈ raw_columns -> cell_of demo_kept.2 c = cell_at demo_agg c (Z.of_nat i)) /\
    cell_at demo_agg "moisture" (Z.of_nat i) = Some a /\
    cell_at demo_agg "moisture" (Z.of_nat i - 1) = Some b /\
    cell_of demo_kept.2 "moisture_diff_1" = Some (a - b)%Q /\
    cell_of demo_kept.2 "moisture_rolling_mean_3"
    = Some (Qmean (present [cell_at demo_agg "moisture" (Z.of_nat i - 2);
                            cell_at demo_agg "moisture" (Z.of_nat i - 1);
                            cell_at demo_agg "moisture" (Z.of_nat i)])) /\
    cell_of demo_kept.2 "hour" = Some (inject_Z (hour_of demo_kept.1)) /\
    cell_of demo_kept.2 "dayofyear" = Some (inject_Z (dayofyear_of demo_kept.1)) /\
    cell_of demo_kept.2 "dayofweek" = Some (inject_Z (dayofweek_of demo_kept.1)).
Proof.
  apply (create_lag_features_row_values demo_obs 15 demo_agg 2 demo_feats).
  - vm_compute. reflexivity.
  - vm_compute. reflexivity.
  - apply (list_elem_of_lookup_2 _ 0%nat). vm_compute. reflexivity.
Defined.

Lemma create_lag_features_first_interval_and_no_lags_witness :
  (forall t, df_index demo_agg !! 0%nat = Some t -> t ∉ df_index demo_feats) /\
  (2 <= 0 ->
   colnames demo_feats = (raw_columns ++ derived_columns)%list /\
   create_lag_features demo_agg 0 = Some demo_feats).
Proof.
  apply (create_lag_features_first_interval_and_no_lags demo_obs 15 demo_agg 2 demo_feats).
  - vm_compute. reflexivity.
  - vm_compute. reflexivity.
Defined.

(** X4.  [build_dataset] keeps the row of an interval exactly when
    [create_lag_features] does and the moisture [h] intervals later is
    known: the temperature and humidity of the interval, the moisture of the
    interval, of the [max lags 1] before it and of the one [h] later. *)
Theorem build_dataset_keeps_exactly obs w agg (lags h : Z) X y (i : nat) t :
  resample_and_aggregate obs w = Some agg ->
  build_dataset agg lags h = Some (X, y) ->
  df_index agg !! i = Some t ->
  (t ∈ df_index X <->
   is_Some (cell_at agg "temperature" (Z.of_nat i)) /\
   is_Some (cell_at agg "humidity" (Z.of_nat i)) /\
   (forall k, 0 <= k <= Z.max lags 1 ->
      is_Some (cell_at agg "moisture" (Z.of_nat i - k))) /\
   is_Some (cell_at agg "moisture" (Z.of_nat i + h))).
Proof. apply kept_by_build_dataset. Qed.

Lemma build_dataset_keeps_exactly_witness :
  demo_label 3 ∈ df_index demo_pair.1 <->
  is_Some (cell_at demo_agg "temperature" (Z.of_nat 3)) /\
  is_Some (cell_at demo_agg "humidity" (Z.of_nat 3)) /\
  (forall k, 0 <= k <= Z.max 2 1 ->
     is_Some (cell_at demo_agg "moisture" (Z.of_nat 3 - k))) /\
  is_Some (cell_at demo_agg "moisture" (Z.of_nat 3 + 1)).
Proof.
  apply (build_dataset_keeps_exactly demo_obs 15 demo_agg 2 1 demo_pair.1 demo_pair.2 3).
  - vm_compute. reflexivity.
  - vm_compute. reflexivity.
  - vm_compute. reflexivity.
Defined.

(** X5.  The rows of [X] and the entries of [y] come in the order of the
    series, none twice: their labels are the labels [create_lag_features]
    keeps, less some, and these are the labels of the series, less some. *)
Theorem build_dataset_rows_in_order obs w agg (lags h : Z) feats X y :
  resample_and_aggregate obs w = Some agg ->
  create_lag_features agg lags = Some feats ->
  build_dataset agg lags h = Some (X, y) ->
  df_index X `sublist_of` df_index feats /\
  df_index feats `sublist_of` df_index agg /\
  y.*1 = df_index X /\
  NoDup (df_index X).
Proof.
  intros Hres Hfeats Hrun. pose proof (resampled_NoDup _ _ _ Hres) as Hnd.
  destruct (build_dataset_rows obs w agg lags h Hres)
    as (feats' & X' & y' & Hfeats' & Hrun' & _ & Hy & HX).
  rewrite Hrun in Hrun'. injection Hrun' as <- <-.
  rewrite Hfeats in Hfeats'. injection Hfeats' as <-.
  destruct (retained_intervals obs w agg lags feats Hres Hfeats) as [Hsub _].
  assert (HsubX : df_index X `sublist_of` df_index feats).
  { unfold df_index. rewrite HX, <- list_fmap_compose.
    change ((fun r : row => r.1) <$> filter (fun r : row => is_Some (target_at agg h r.1))
                                         (rows feats)
            `sublist_of` (rows feats).*1).
    apply fmap_sublist, sublist_filter. }
  split; [done|]. split; [done|]. split.
  - unfold df_index. rewrite Hy, HX, <- !list_fmap_compose. done.
  - eapply sublist_NoDup; [exact Hnd|]. by etrans.
Qed.

Lemma build_dataset_rows_in_order_witness :
  df_index demo_pair.1 `sublist_of` df_index demo_feats /\
  df_index demo_feats `sublist_of` df_index demo_agg /\
  demo_pair.2.*1 = df_index demo_pair.1 /\
  NoDup (df_index demo_pair.1).
Proof.
  apply (build_dataset_rows_in_order demo_obs 15 demo_agg 2 1 demo_feats
           demo_pair.1 demo_pair.2).
  - vm_compute. reflexivity.
  - vm_compute. reflexivity.
  - vm_compute. reflexivity.
Defined.

(** X6.  [build_dataset] does not touch the features: the row at a position
    of [X] and the entry of [y] at that position have the same label, the
    entry holds the known target of that label, and the row holds, in every
    column of [X], the cell of the row [create_lag_features] kept under
    that label. *)
Theorem build_dataset_features_unchanged obs w agg (lags h : Z) feats X y
    (j : nat) t r :
  resample_and_aggregate obs w = Some agg ->
  create_lag_features agg lags = Some feats ->
  build_dataset agg lags h = Some (X, y) ->
  rows X !! j = Some (t, r) ->
  exists r0 (v : Q),
    (t, r0) ∈ rows feats /\
    y !! j = Some (t, Some v) /\
    target_at agg h t = Some v /\
    forall c, c ∈ colnames X -> r !! c = r0 !! c.
Proof.
  intros Hres Hfeats Hrun Hj.
  destruct (build_dataset_rows obs w agg lags h Hres)
    as (feats' & X' & y' & Hfeats' & Hrun' & Hcols & Hy & HX).
  rewrite Hrun in Hrun'. injection Hrun' as <- <-.
  rewrite Hfeats in Hfeats'. injection Hfeats' as <-.
  rewrite HX, list_lookup_fmap in Hj.
  destruct (filter _ (rows feats) !! j) as [[t0 r0]|] eqn:Hf; [|done].
  simpl in Hj. injection Hj as <- <-.
  assert (Hin : (t0, r0) ∈ filter (fun r : row => is_Some (target_at agg h r.1))
                                  (rows feats)) by (by eapply list_elem_of_lookup_2).
  apply list_elem_of_filter in Hin as [[v Hv] Hin]. simpl in Hv.
  exists r0, v. split; [done|]. split.
  { by rewrite Hy, list_lookup_fmap, Hf; simpl; rewrite Hv. }
  split; [done|].
  intros c Hc. rewrite map_lookup_filter.
  assert (Hne : target_name h <> c).
  { intros <-. rewrite Hcols, !elem_of_app in Hc.
    destruct (target_name_fresh h 0) as [_ Hfix]. destruct Hc as [Hc|[Hc|Hc]].
    - apply Hfix. split_elem; rewrite Hc; is_elem.
    - apply list_elem_of_fmap in Hc as (k & Hk & _).
      by destruct (target_name_fresh h k).
    - apply Hfix. unfold derived_columns in Hc. split_elem; rewrite Hc; is_elem. }
  rewrite lookup_insert_ne by done.
  destruct (r0 !! c) as [x|]; simpl; [|done]. by rewrite option_guard_True.
Qed.

Lemma build_dataset_features_unchanged_witness :
  exists r0 (v : Q),
    (demo_first.1, r0) ∈ rows demo_feats /\
    demo_pair.2 !! 0%nat = Some (demo_first.1, Some v) /\
    target_at demo_agg 1 demo_first.1 = Some v /\
    forall c, c ∈ colnames demo_pair.1 -> demo_first.2 !! c = r0 !! c.
Proof.
  apply (build_dataset_features_unchanged demo_obs 15 demo_agg 2 1 demo_feats
           demo_pair.1 demo_pair.2 0%nat demo_first.1 demo_first.2).
  - vm_compute. reflexivity.
  - vm_compute. reflexivity.
  - vm_compute. reflexivity.
  - vm_compute. reflexivity.
Defined.

(** X7.  The training pair has at most [n - max lags 1 (-h) - max h 0] rows,
    for a series of [n] intervals, lag count [lags] and horizon [h]: the
    intervals at the head without enough predecessors and those at the tail
    without a target are gone.  On a series without a missing value it has
    exactly that many. *)
Theorem build_dataset_size obs w agg (lags h : Z) X y :
  resample_and_aggregate obs w = Some agg ->
  build_dataset agg lags h = Some (X, y) ->
  length y = length (rows X) /\
  Z.of_nat (length (rows X))
  <= Z.max 0 (Z.of_nat (length (rows agg)) - Z.max h 0 - Z.max (Z.max lags 1) (- h)) /\
  (Forall (row_complete raw_columns) (rows agg) ->
   Z.of_nat (length (rows X))
   = Z.max 0 (Z.of_nat (length (rows agg)) - Z.max h 0 - Z.max (Z.max lags 1) (- h))).
Proof.
  intros Hres Hrun. pose proof (resampled_NoDup _ _ _ Hres) as Hnd.
  destruct (build_dataset_rows obs w agg lags h Hres)
    as (feats & X' & y' & Hfeats & Hrun' & _ & Hy & HX).
  rewrite Hrun in Hrun'. injection Hrun' as <- <-.
  set (n := Z.of_nat (length (rows agg))).
  set (lo := Z.max (Z.max lags 1) (- h)).
  set (hi := n - Z.max h 0).
  replace (n - Z.max h 0 - lo) with (hi - lo) by (unfold hi; lia).
  set (K := take (Z.to_nat (hi - lo)) (drop (Z.to_nat lo) (df_index agg))).
  assert (Hlen : length (df_index agg) = length (rows agg))
    by (unfold df_index; by rewrite length_fmap).
  assert (HlenX : length (df_index X) = length (rows X))
    by (unfold df_index; by rewrite length_fmap).
  assert (HsubX : df_index X `sublist_of` df_index agg).
  { etrans; [|exact (proj1 (retained_intervals obs w agg lags feats Hres Hfeats))].
    unfold df_index. rewrite HX, <- list_fmap_compose.
    change ((fun r : row => r.1) <$> filter (fun r : row => is_Some (target_at agg h r.1))
                                         (rows feats)
            `sublist_of` (rows feats).*1).
    apply fmap_sublist, sublist_filter. }
  assert (HndX : NoDup (df_index X)) by (by eapply sublist_NoDup).
  assert (HndK : NoDup K).
  { eapply sublist_NoDup; [exact Hnd|]. unfold K.
    etrans; [apply sublist_take|apply sublist_drop]. }
  assert (HKlookup : forall (i : nat) t, df_index agg !! i = Some t ->
            lo <= Z.of_nat i < hi -> t ∈ K).
  { intros i t Hi Hrange. apply list_elem_of_lookup. exists (i - Z.to_nat lo)%nat.
    unfold K. rewrite lookup_take_lt by lia. rewrite lookup_drop.
    by replace (Z.to_nat lo + (i - Z.to_nat lo))%nat with i by lia. }
  assert (HXK : forall t, t ∈ df_index X -> t ∈ K).
  { intros t Ht. assert (Hin : t ∈ df_index agg) by (by eapply elem_of_sublist).
    apply list_elem_of_lookup in Hin as [i Hi].
    destruct (proj1 (kept_by_build_dataset obs w agg lags h X y i t Hres Hrun Hi) Ht)
      as (_ & _ & Hm & Htg).
    apply (HKlookup i t Hi).
    pose proof (cell_at_in_range _ _ _ (Hm (Z.max lags 1) ltac:(lia))).
    pose proof (cell_at_in_range _ _ _ (Hm 0 ltac:(lia))).
    pose proof (cell_at_in_range _ _ _ Htg). unfold lo, hi, n. lia. }
  assert (HlenK : (length K <= Z.to_nat (hi - lo))%nat).
  { unfold K. rewrite length_take. lia. }
  split. { rewrite Hy, HX. by rewrite !length_fmap. }
  split.
  { pose proof (submseteq_length _ _ (NoDup_submseteq _ _ HndX HXK)). lia. }
  intros Hall.
  assert (HKX : forall t, t ∈ K -> t ∈ df_index X).
  { intros t Ht. apply list_elem_of_lookup in Ht as [j Hj]. unfold K in Hj.
    assert (Hjlt : (j < Z.to_nat (hi - lo))%nat).
    { apply lookup_lt_Some in Hj. rewrite length_take in Hj. lia. }
    rewrite lookup_take_lt, lookup_drop in Hj by done.
    assert (Hi : (Z.to_nat lo + j < length (rows agg))%nat).
    { apply lookup_lt_Some in Hj. lia. }
    apply (proj2 (kept_by_build_dataset obs w agg lags h X y _ t Hres Hrun Hj)).
    unfold raw_columns in *.
    repeat split; try intros k Hk;
      (apply cell_at_complete; [done|unfold raw_columns; is_elem|unfold lo, hi, n in *; lia]). }
  assert (Hperm : df_index X ≡ₚ K).
  { apply NoDup_Permutation; [done|done|]. intros t. split; [apply HXK|apply HKX]. }
  apply Permutation_length in Hperm. rewrite HlenX in Hperm.
  rewrite Hperm. unfold K. rewrite length_take, length_drop. unfold hi, n in *. lia.
Qed.

Lemma build_dataset_size_witness :
  length demo_pair.2 = length (rows demo_pair.1) /\
  Z.of_nat (length (rows demo_pair.1))
  <= Z.max 0 (Z.of_nat (length (rows demo_agg)) - Z.max 1 0 - Z.max (Z.max 2 1) (- 1)) /\
  (Forall (row_complete raw_columns) (rows demo_agg) ->
   Z.of_nat (length (rows demo_pair.1))
   = Z.max 0 (Z.of_nat (length (rows demo_agg)) - Z.max 1 0 - Z.max (Z.max 2 1) (- 1))).
Proof.
  apply (build_dataset_size demo_obs 15 demo_agg 2 1 demo_pair.1 demo_pair.2).
  - vm_compute. reflexivity.
  - vm_compute. reflexivity.
Defined.

(** X8.  With horizon 0 [build_dataset] drops nothing more than
    [create_lag_features] did, and [y] is the moisture column of the frame
    [create_lag_features] returns: the target is the very column that is
    kept out of [X]. *)
Theorem build_dataset_horizon_zero obs w agg (lags : Z) feats X y :
  resample_and_aggregate obs w = Some agg ->
  create_lag_features agg lags = Some feats ->
  build_dataset agg lags 0 = Some (X, y) ->
  df_index X = df_index feats /\ y = col feats "moisture".
Proof.
  intros Hres Hfeats Hrun. pose proof (resampled_NoDup _ _ _ Hres) as Hnd.
  destruct (build_dataset_rows obs w agg lags 0 Hres)
    as (feats' & X' & y' & Hfeats' & Hrun' & _ & Hy & HX).
  rewrite Hrun in Hrun'. injection Hrun' as <- <-.
  rewrite Hfeats in Hfeats'. injection Hfeats' as <-.
  assert (Htarget : forall r : row, r ∈ rows feats ->
            target_at agg 0 r.1 = cell_of r.2 "moisture" /\
            is_Some (target_at agg 0 r.1)).
  { intros [t r] Hin. simpl.
    destruct (retained_row_cells _ _ _ _ _ _ _ Hres Hfeats Hin)
      as (i & Hi & Hfull & Craw & _ & _ & _ & _ & _ & Hcols).
    rewrite (target_at_interval agg 0 i t Hnd Hi), Z.add_0_r.
    rewrite <- (Craw "moisture") by (unfold raw_columns; is_elem).
    split; [done|]. apply Hfull. rewrite Hcols, elem_of_app. left.
    unfold raw_columns. is_elem. }
  assert (Hall : filter (fun r : row => is_Some (target_at agg 0 r.1)) (rows feats)
                 = rows feats).
  { apply filter_everything, Forall_forall. intros r Hr. by apply Htarget. }
  rewrite Hall in Hy, HX. split.
  - unfold df_index. by rewrite HX, <- list_fmap_compose.
  - rewrite Hy. unfold col. apply list_fmap_ext. intros j r Hr.
    f_equal. apply Htarget. by eapply list_elem_of_lookup_2.
Qed.

Lemma build_dataset_horizon_zero_witness :
  df_index demo_pair0.1 = df_index demo_feats /\ demo_pair0.2 = col demo_feats "moisture".
Proof.
  apply (build_dataset_horizon_zero demo_obs 15 demo_agg 2 demo_feats
           demo_pair0.1 demo_pair0.2).
  - vm_compute. reflexivity.
  - vm_compute. reflexivity.
  - vm_compute. reflexivity.
Defined.

(** X9.  A value of a resampled series is never invented and never more
    than two intervals old: it is the mean of what was observed in the
    interval itself or in one of the two intervals before, nothing having
    been observed in that column since. *)
Theorem resampled_value_is_recent obs w out (c : string) (k : nat) t r (v : Q) :
  resample_and_aggregate obs w = Some out ->
  c ∈ raw_columns ->
  rows out !! k = Some (t, r) ->
  cell_of r c = Some v ->
  exists j : nat, (j <= 2)%nat /\ (j <= k)%nat /\
    interval_values obs c (t - Z.of_nat j * (w * ns_per_minute)) (w * ns_per_minute) <> [] /\
    v = Qmean (interval_values obs c (t - Z.of_nat j * (w * ns_per_minute))
                               (w * ns_per_minute)) /\
    forall i : nat, (i < j)%nat ->
      interval_values obs c (t - Z.of_nat i * (w * ns_per_minute)) (w * ns_per_minute) = [].
Proof.
  intros Hres Hc Hk Hv.
  destruct (resample_and_aggregate_spec _ _ _ Hres)
    as (_ & _ & start & n & Hidx & _ & Hvals).
  specialize (Hvals c Hc). set (width := w * ns_per_minute) in *.
  assert (Ht : t = start + Z.of_nat k * width).
  { assert (Hti : df_index out !! k = Some t) by (apply index_lookup_row; by exists r).
    rewrite Hidx, list_lookup_fmap in Hti.
    destruct (seq 0 n !! k) as [k'|] eqn:Hs; [|done].
    apply lookup_seq in Hs as [-> _]. simpl in Hti. by injection Hti. }
  assert (Hcell : (col out c).*2 !! k = Some (Some v)).
  { by rewrite list_lookup_fmap, (col_lookup _ _ _ _ _ Hk); simpl; rewrite Hv. }
  rewrite Hvals in Hcell.
  destruct (ffill_values_origin _ _ _ _ Hcell) as (j & Hjk & Hj2 & Hsrc & Hgap).
  assert (Hpre : forall (i : nat) x,
            ((fun k : nat => nanmean 1 (interval_cells obs c (start + Z.of_nat k * width) width))
               <$> seq 0 n) !! i = Some x ->
            x = if decide (interval_values obs c (start + Z.of_nat i * width) width = [])
                then None
                else Some (Qmean (interval_values obs c (start + Z.of_nat i * width) width))).
  { intros i x Hi. rewrite list_lookup_fmap in Hi.
    destruct (seq 0 n !! i) as [i'|] eqn:Hs; [|done].
    apply lookup_seq in Hs as [-> _]. simpl in Hi. injection Hi as <-.
    by rewrite FeatureClaims.nanmean_values. }
  exists j. split; [done|]. split; [done|].
  replace (t - Z.of_nat j * width) with (start + Z.of_nat (k - j) * width)
    by (rewrite Ht, Nat2Z.inj_sub by lia; ring).
  apply Hpre in Hsrc. destruct (decide _) as [|Hne]; [done|]. injection Hsrc as ->.
  split; [done|]. split; [done|].
  intros i Hi.
  replace (t - Z.of_nat i * width) with (start + Z.of_nat (k - i) * width)
    by (rewrite Ht, Nat2Z.inj_sub by lia; ring).
  specialize (Hgap (k - i)%nat ltac:(lia)). apply Hpre in Hgap.
  by destruct (decide _).
Qed.

Lemma resampled_value_is_recent_witness :
  exists j : nat, (j <= 2)%nat /\ (j <= 2)%nat /\
    interval_values gap_obs "moisture"
      (gap_filled.1 - Z.of_nat j * (15 * ns_per_minute)) (15 * ns_per_minute) <> [] /\
    0%Q = Qmean (interval_values gap_obs "moisture"
                   (gap_filled.1 - Z.of_nat j * (15 * ns_per_minute))
                   (15 * ns_per_minute)) /\
    forall i : nat, (i < j)%nat ->
      interval_values gap_obs "moisture"
        (gap_filled.1 - Z.of_nat i * (15 * ns_per_minute)) (15 * ns_per_minute) = [].
Proof.
  apply (resampled_value_is_recent gap_obs 15 gap_agg "moisture" 2 gap_filled.1 gap_filled.2).
  - vm_compute. reflexivity.
  - unfold raw_columns. by repeat constructor.
  - vm_compute. reflexivity.
  - vm_compute. reflexivity.
Defined.

(** X10.  The resampled frame is a regular grid.  It is empty exactly when
    there are no observations; consecutive labels are one interval apart,
    so an interval without observations still has its row; the first
    interval holds the earliest observation and the last one the latest;
    and when the interval divides the day, every label is a multiple of
    it. *)
Theorem resampled_index_is_a_grid obs w out :
  resample_and_aggregate obs w = Some out ->
  (df_index out = [] <-> df_index obs = []) /\
  (forall (i : nat) t t',
     df_index out !! i = Some t -> df_index out !! S i = Some t' ->
     t' = t + w * ns_per_minute) /\
  (forall t, df_index out !! 0%nat = Some t ->
     exists s, s ∈ df_index obs /\ (forall s', s' ∈ df_index obs -> s <= s') /\
               t <= s < t + w * ns_per_minute) /\
  (forall t, last (df_index out) = Some t ->
     exists s, s ∈ df_index obs /\ (forall s', s' ∈ df_index obs -> s' <= s) /\
               t <= s < t + w * ns_per_minute) /\
  (ns_per_day mod (w * ns_per_minute) = 0 ->
   forall t, t ∈ df_index out -> t mod (w * ns_per_minute) = 0).
Proof.
  intros H. apply resampled_index in H as [Hw H].
  set (width := w * ns_per_minute) in *.
  assert (Hwidth : 0 < width) by (unfold width, ns_per_minute; lia).
  destruct (df_index obs) as [|t0 ts] eqn:Hobs.
  { rewrite H. split; [done|]. split; [done|]. split; [done|]. split; [done|].
    intros _ t Ht. by apply elem_of_nil in Ht. }
  cbv zeta in H. fold width in H.
  set (lo := Zmin_list t0 ts) in *. set (hi := Zmax_list t0 ts) in *.
  set (start := bin_origin width lo) in *.
  destruct (bin_origin_bounds width lo Hwidth) as [Hstart Halign]. fold start in Hstart, Halign.
  assert (Hlohi : lo <= hi).
  { transitivity t0; [apply Zmin_list_le|apply Zmax_list_ge]; apply list_elem_of_here. }
  assert (Hq : 0 <= (hi - start) / width) by (apply Z.div_pos; lia).
  assert (Hn : bin_count width start hi = S (Z.to_nat ((hi - start) / width))).
  { unfold bin_count. lia. }
  assert (Hlook : forall (i : nat) t, df_index out !! i = Some t ->
            t = start + Z.of_nat i * width /\ (i < bin_count width start hi)%nat).
  { intros i t Hi. rewrite H, list_lookup_fmap in Hi.
    destruct (seq 0 (bin_count width start hi) !! i) as [k|] eqn:Hk; [|done].
    apply lookup_seq in Hk as [-> Hlt]. simpl in Hi. injection Hi as <-. done. }
  split; [|split; [|split; [|split]]].
  - split; [|done]. rewrite H, Hn. done.
  - intros i t t' Hi Hi'. apply Hlook in Hi as [-> _]. apply Hlook in Hi' as [-> _]. lia.
  - intros t Ht. apply Hlook in Ht as [-> _]. exists lo.
    split; [apply Zmin_list_attained|]. split; [intros s' Hs'; by apply Zmin_list_le|lia].
  - intros t Ht. rewrite H, fmap_last, Hn, seq_S, last_snoc in Ht. simpl in Ht.
    injection Ht as <-. exists hi.
    split; [apply Zmax_list_attained|]. split; [intros s' Hs'; by apply Zmax_list_ge|].
    rewrite Z2Nat.id by done.
    pose proof (Z.div_mod (hi - start) width ltac:(lia)) as Hdm.
    pose proof (Z.mod_pos_bound (hi - start) width Hwidth) as Hmod. lia.
  - intros Hday t Ht. apply list_elem_of_lookup in Ht as [i Hi].
    apply Hlook in Hi as [-> _]. rewrite Z.mod_add by lia. by apply Halign.
Qed.

Lemma resampled_index_is_a_grid_witness :
  (df_index gap_agg = [] <-> df_index gap_obs = []) /\
  (forall (i : nat) t t',
     df_index gap_agg !! i = Some t -> df_index gap_agg !! S i = Some t' ->
     t' = t + 15 * ns_per_minute) /\
  (forall t, df_index gap_agg !! 0%nat = Some t ->
     exists s, s ∈ df_index gap_obs /\ (forall s', s' ∈ df_index gap_obs -> s <= s') /\
               t <= s < t + 15 * ns_per_minute) /\
  (forall t, last (df_index gap_agg) = Some t ->
     exists s, s ∈ df_index gap_obs /\ (forall s', s' ∈ df_index gap_obs -> s' <= s) /\
               t <= s < t + 15 * ns_per_minute) /\
  (ns_per_day mod (15 * ns_per_minute) = 0 ->
   forall t, t ∈ df_index gap_agg -> t mod (15 * ns_per_minute) = 0).
Proof.
  apply (resampled_index_is_a_grid gap_obs 15 gap_agg). vm_compute. reflexivity.
Defined.

End FrameProperties.

(** ** The runs of the prediction script *)

Module RunProperties.
Import Predict PredictFacts Examples Runs Scenarios.

Section Only.
Context {A B : Type} (P : event -> Prop).

Lemma only_ret (a : A) : only P (mret a : io A).
Proof.
  intros w r w' [= <- <-]. exists []. by rewrite app_nil_r.
Qed.

Lemma only_raise (e : string) : only P (raise e : io A).
Proof. intros w r w' [= <- <-]. exists []. by rewrite app_nil_r. Qed.

Lemma only_exit (c : Z) : only P (exit c : io A).
Proof. intros w r w' [= <- <-]. exists []. by rewrite app_nil_r. Qed.

Lemma only_emit (e : event) : P e -> only P (emit e).
Proof.
  intros He w r w' [= <- <-]. exists [e]. split; [done|]. by apply Forall_singleton.
Qed.

Lemma only_bind (m : io A) (f : A -> io B) :
  only P m -> (forall a, only P (f a)) -> only P (m ≫= f).
Proof.
  intros Hm Hf w r w' Hrun. unfold mbind, io_bind in Hrun.
  destruct (m w) as [[a|e|c|] w1] eqn:Hmw.
  - destruct (Hm _ _ _ Hmw) as (evs1 & Ht1 & HP1).
    destruct (Hf a _ _ _ Hrun) as (evs2 & Ht2 & HP2).
    exists (evs1 ++ evs2)%list. split; [by rewrite Ht2, Ht1, app_assoc|].
    by apply Forall_app.
  - injection Hrun as <- <-. by apply (Hm _ _ _ Hmw).
  - injection Hrun as <- <-. by apply (Hm _ _ _ Hmw).
  - injection Hrun as <- <-. by apply (Hm _ _ _ Hmw).
Qed.

Lemma only_try_except (body : io A) (handler : string -> io A) :
  only P body -> (forall e, only P (handler e)) -> only P (try_except body handler).
Proof.
  intros Hb Hh w r w' Hrun. unfold try_except in Hrun.
  destruct (body w) as [[a|e|c|] w1] eqn:Hbw.
  - injection Hrun as <- <-. by apply (Hb _ _ _ Hbw).
  - destruct (Hb _ _ _ Hbw) as (evs1 & Ht1 & HP1).
    destruct (Hh e _ _ _ Hrun) as (evs2 & Ht2 & HP2).
    exists (evs1 ++ evs2)%list. split; [by rewrite Ht2, Ht1, app_assoc|].
    by apply Forall_app.
  - injection Hrun as <- <-. by apply (Hb _ _ _ Hbw).
  - injection Hrun as <- <-. by apply (Hb _ _ _ Hbw).
Qed.
End Only.

Lemma only_prompt_float (name : string) : only is_console (prompt_float name).
Proof.
  intros w r w' Hrun. unfold prompt_float in Hrun.
  destruct w as [lines tr]. simpl in *. revert tr Hrun.
  induction lines as [|[q|] lines IH]; intros tr Hrun; simpl in Hrun.
  - injection Hrun as <- <-. exists [Input (enter name)]. split; [done|].
    by apply Forall_singleton.
  - injection Hrun as <- <-. exists [Input (enter name)]. split; [done|].
    by apply Forall_singleton.
  - destruct (IH _ Hrun) as (evs & Ht & HP).
    exists ([Input (enter name); Stdout "Please enter a numeric value."] ++ evs)%list.
    split; [by rewrite Ht, <- app_assoc|]. by repeat constructor.
Qed.
Section Ends.
Context {A B : Type} (R : ending -> Prop).

Lemma ends_bind (m : io A) (f : A -> io B) :
  ends R m -> (forall a, ends R (f a)) -> ends R (m ≫= f).
Proof.
  intros Hm Hf w. specialize (Hm w). unfold mbind, io_bind.
  destruct (m w) as [[a|e|c|] w1]; simpl in *; [apply Hf|done..].
Qed.

Lemma ends_try_except (body : io A) (handler : string -> io A) :
  ends R body -> (forall e, ends R (handler e)) -> ends R (try_except body handler).
Proof.
  intros Hb Hh w. specialize (Hb w). unfold try_except.
  destruct (body w) as [[a|e|c|] w1]; simpl in *; [done|apply Hh|done..].
Qed.
End Ends.

Lemma ends_prompt_float (name : string) : ends returns_or_hangs (prompt_float name).
Proof.
  intros [lines tr]. unfold prompt_float. simpl. revert tr.
  induction lines as [|[q|] lines IH]; intros tr; simpl;
    [by right|by left|apply IH].
Qed.

Lemma ends_feature_value provided feat : ends returns_or_hangs (feature_value provided feat).
Proof.
  unfold feature_value.
  destruct (keyword_scan _ _) as [key|].
  - destruct (provided !! key); [intros w; by left|apply ends_prompt_float].
  - destruct (exact_scan _ _ _); [intros w; by left|apply ends_prompt_float].
Qed.

Lemma ends_map_inputs_loop features provided : forall row,
  ends returns_or_hangs (map_inputs_loop features provided row).
Proof.
  induction features as [|f rest IH]; intros row; simpl.
  - intros w. by left.
  - apply ends_bind; [apply ends_feature_value|]. intros a. apply IH.
Qed.

Lemma map_inputs_loop_keys (features : list string) (provided : gmap string Q) :
  forall (row0 row : gmap string Q) (w w' : world),
    map_inputs_loop features provided row0 w = (Ret row, w') ->
    forall f, is_Some (row !! f) <-> f ∈ features \/ is_Some (row0 !! f).
Proof.
  induction features as [|g rest IH]; intros row0 row w w' Hrun f.
  - injection Hrun as <- <-. rewrite elem_of_nil. tauto.
  - simpl in Hrun. unfold mbind, io_bind in Hrun.
    destruct (feature_value provided g w) as [[val| | |] w1]; try done.
    rewrite (IH _ _ _ _ Hrun f), elem_of_cons, lookup_insert.
    destruct (decide (g = f)) as [->|Hne].
    + split; [intros _; by left; left|intros _; right; by eexists].
    + split; [intros [?|?]; [by left; right|by right]|].
      intros [[->|?]|?]; [done|by left|by right].
Qed.

Lemma prompt_loop_skips (name : string) (n : nat) (q : Q) (rest : list reply) :
  forall tr : list event,
    prompt_loop name (replicate n NotNumeric ++ Numeric q :: rest) tr
    = (Ret q,
       {| stdin := rest;
          trace := tr ++ mjoin (replicate n [Input (enter name);
                                             Stdout "Please enter a numeric value."])
                      ++ [Input (enter name)] |}).
Proof.
  induction n as [|n IH]; intros tr; simpl; [done|].
  rewrite IH. by rewrite <- !app_assoc.
Qed.

Lemma prompt_loop_hangs (name : string) (lines : list reply) :
  forall tr : list event,
    (prompt_loop name lines tr).1 = Hang <-> Forall (fun x => x = NotNumeric) lines.
Proof.
  induction lines as [|[q|] lines IH]; intros tr; simpl.
  - split; [intros _; constructor|done].
  - split; [done|]. intros H. apply Forall_cons in H as [H _]. done.
  - rewrite IH. split; [intros H; by constructor|]. intros H. by apply Forall_cons in H as [_ H].
Qed.
Lemma bind_inv_Ret {A B} (m : io A) (f : A -> io B) (w w' : world) (b : B) :
  (m ≫= f) w = (Ret b, w') ->
  exists a w1, m w = (Ret a, w1) /\ f a w1 = (Ret b, w').
Proof.
  unfold mbind, io_bind. destruct (m w) as [[a|e|c|] w1]; try done. intros H. by exists a, w1.
Qed.

Lemma find_None_existsb {A} (f : A -> bool) (l : list A) :
  List.find f l = None -> existsb f l = false.
Proof.
  induction l as [|a l IH]; simpl; [done|]. destruct (f a); [done|exact IH].
Qed.

Lemma find_Some_holds {A} (f : A -> bool) (l : list A) (x : A) :
  List.find f l = Some x -> f x = true.
Proof. intros H. by apply List.find_some in H as [_ H]. Qed.

Lemma truthy_not_none (v : pyval) : truthy v = true -> is_none v = false.
Proof. by destruct v. Qed.

Lemma has_predict_not_none (v : pyval) : has_predict v = true -> is_none v = false.
Proof. by destruct v. Qed.

Lemma resolved_Some (provided : gmap string Q) (feat : string) (q : Q) :
  resolved provided feat = Some q <->
  exists key, priority_key (PyStr.lower feat) = Some key /\ provided !! key = Some q.
Proof. unfold resolved. apply bind_Some. Qed.
Lemma py_or_chain (a b : pyval) :
  py_or (py_or a b) PyNone = if truthy a then a else if truthy b then b else PyNone.
Proof.
  unfold py_or. destruct (truthy a) eqn:Ha; cbn beta iota; [by rewrite Ha|].
  by destruct (truthy b) eqn:Hb.
Qed.

Lemma only_produced {A} (P : event -> Prop) (m : io A) (w : world) :
  only P m -> trace (m w).2 = (trace w ++ produced m w)%list /\ Forall P (produced m w).
Proof.
  intros H. unfold produced. destruct (m w) as [r w'] eqn:Hrun.
  destruct (H _ _ _ Hrun) as (evs & Ht & HP). simpl. rewrite Ht.
  by rewrite drop_app_length.
Qed.

Lemma produced_run {A} (m : io A) (w w' : world) (r : result A) (evs : list event) :
  m w = (r, w') -> trace w' = (trace w ++ evs)%list -> produced m w = evs.
Proof.
  intros Hrun Ht. unfold produced. rewrite Hrun. simpl. by rewrite Ht, drop_app_length.
Qed.

Ltac console :=
  repeat first
    [ apply only_prompt_float
    | apply only_ret | apply only_raise | apply only_exit
    | apply only_emit; exact I
    | apply only_bind; [|intros ?]
    | apply only_try_except; [|intros ?]
    | progress cbv zeta ].

Lemma only_feature_value provided feat : only is_console (feature_value provided feat).
Proof.
  unfold feature_value.
  destruct (keyword_scan _ _) as [key|].
  - destruct (provided !! key); console.
  - destruct (exact_scan _ _ _); console.
Qed.

Lemma only_map_inputs_loop features provided : forall row,
  only is_console (map_inputs_loop features provided row).
Proof.
  induction features as [|f rest IH]; intros row; simpl; [console|].
  apply only_bind; [apply only_feature_value|]. intros a. apply IH.
Qed.

Lemma only_fill_missing keys : forall provided,
  only is_console (fill_missing keys provided).
Proof.
  induction keys as [|k rest IH]; intros provided; simpl; [console|].
  destruct (provided !! k); [apply IH|].
  apply only_bind; [apply only_prompt_float|]. intros a. apply IH.
Qed.

Lemma only_reconcile features provided : only is_console (reconcile features provided).
Proof.
  unfold reconcile. destruct (truthy features).
  - apply only_bind; [destruct features; console|]. intros l.
    apply only_bind; [apply only_map_inputs_loop|]. intros row. apply only_ret.
  - apply only_bind; [apply only_fill_missing|]. intros row. apply only_ret.
Qed.

Lemma only_load_artifact obj : only is_console (load_artifact obj).
Proof.
  destruct obj as [| | |o]; simpl; try console.
  destruct (obj_predict o); console.
Qed.

Lemma load_artifact_mapping (items : list (string * pyval)) (w : world) :
  exists model features metadata,
    load_artifact (PyDict items) w = (Ret (model, features, metadata), w) /\
    model = (if truthy (dict_get items "model") then dict_get items "model"
             else if truthy (dict_get items "pipeline") then dict_get items "pipeline"
             else default PyNone (List.find has_predict items.*2)) /\
    (is_none model = true <->
     truthy (dict_get items "model") = false /\
     truthy (dict_get items "pipeline") = false /\
     predictable_somewhere (PyDict items) = false) /\
    features = (if truthy (dict_get items "features") then dict_get items "features"
                else if truthy (dict_get items "feature_names")
                     then dict_get items "feature_names"
                else PyNone) /\
    (truthy features = false -> features = PyNone) /\
    metadata = dict_get_default items "metadata" (PyDict []).
Proof.
  unfold load_artifact. cbv zeta. rewrite !py_or_chain.
  generalize (dict_get items "model") (dict_get items "pipeline")
             (dict_get items "features") (dict_get items "feature_names").
  intros m p f n. eexists _, _, _. split; [reflexivity|].
  split; [|split; [|split; [|split; [|done]]]].
  - destruct (truthy m) eqn:Hm; [by rewrite (truthy_not_none _ Hm)|].
    by destruct (truthy p) eqn:Hp; [rewrite (truthy_not_none _ Hp)|].
  - destruct (truthy m) eqn:Hm.
    { rewrite !(truthy_not_none _ Hm). split; [done|by intros [? _]]. }
    destruct (truthy p) eqn:Hp.
    { rewrite !(truthy_not_none _ Hp). split; [done|by intros (_ & ? & _)]. }
    cbn [is_none]. unfold predictable_somewhere.
    destruct (List.find has_predict items.*2) as [v|] eqn:Hfind; cbn [default id from_option].
    + pose proof (find_Some_holds _ _ _ Hfind) as Hv.
      rewrite (has_predict_not_none _ Hv). split; [done|]. intros (_ & _ & Hex).
      apply find_existsb_false in Hex. congruence.
    + split; [|done]. intros _. by rewrite (find_None_existsb _ _ Hfind).
  - done.
  - destruct (truthy f) eqn:Hf; [congruence|].
    destruct (truthy n) eqn:Hn; [congruence|done].
Qed.

Lemma load_artifact_finds_model (obj : pyval) (w : world) :
  predictable_somewhere obj = true ->
  exists model features metadata,
    load_artifact obj w = (Ret (model, features, metadata), w) /\ is_none model = false.
Proof.
  intros Hp. destruct obj as [| |items|o]; try done.
  - destruct (load_artifact_mapping items w)
      as (model & features & metadata & Hrun & _ & Hnone & _).
    exists model, features, metadata. split; [done|].
    destruct (is_none model); [|done].
    destruct Hnone as [Hnone _]. destruct (Hnone eq_refl) as (_ & _ & Hno). congruence.
  - exists (PyObj o), PyNone, (PyDict []). simpl in *. by destruct (obj_predict o).
Qed.

Section ScriptFacts.
Variable str_float : Q -> string.
Variable E : env.

Lemma fetch_by_filter (uri : string) (d : option string) :
  fetch_latest_sensor_data E uri d
  = match find_latest E uri (nonempty d) with
    | Returns (Some latest) => mret latest
    | Returns None =>
        raise ("Failed to fetch from MongoDB: No sensor data found"
                 ++ match nonempty d with
                    | Some d => " for device " ++ d
                    | None => ""
                    end)
    | Raises e => raise ("Failed to fetch from MongoDB: " ++ e)
    end.
Proof. done. Qed.

Lemma only_fetch uri d : only is_console (fetch_latest_sensor_data E uri d).
Proof.
  unfold fetch_latest_sensor_data.
  destruct (find_latest E uri _) as [[s|]|e]; console.
Qed.

Lemma only_obtain_raw_input args : only is_console (obtain_raw_input str_float E args).
Proof.
  unfold obtain_raw_input. destruct (arg_from_db args); [|console].
  apply only_try_except; [|intros e; console].
  apply only_bind; [console|]. intros _.
  apply only_bind; [apply only_fetch|]. intros s. console.
Qed.

Lemma only_prepare args : only is_console (prepare str_float E args).
Proof.
  unfold prepare. destruct (negb _); [console|].
  apply only_bind; [destruct (joblib_load E _); console|]. intros obj.
  apply only_bind; [apply only_load_artifact|]. intros [[model features] metadata].
  destruct (is_none model); [console|].
  apply only_bind; [apply only_obtain_raw_input|]. intros [provided dev].
  apply only_bind; [apply only_reconcile|]. intros X. console.
Qed.

Lemma ends_weaken {A} (m : io A) : ends returns_or_hangs m -> ends exits_with_1 m.
Proof. intros H w c Hc. destruct (H w) as [Hk|Hk]; rewrite Hk in Hc; done. Qed.

Lemma ends_ret {A} (a : A) : ends exits_with_1 (mret a : io A).
Proof. by intros w c. Qed.

Lemma ends_raise {A} (e : string) : ends exits_with_1 (raise e : io A).
Proof. by intros w c. Qed.

Lemma ends_exit_1 {A} : ends exits_with_1 (exit 1 : io A).
Proof. by intros w c [= <-]. Qed.

Lemma ends_emit (e : event) : ends exits_with_1 (emit e).
Proof. by intros w c. Qed.

Ltac status :=
  repeat first
    [ apply ends_ret | apply ends_raise | apply ends_exit_1 | apply ends_emit
    | apply ends_bind; [|intros ?]
    | apply ends_try_except; [|intros ?]
    | progress cbv zeta ].

Lemma ends_fill_missing keys : forall provided,
  ends exits_with_1 (fill_missing keys provided).
Proof.
  induction keys as [|k rest IH]; intros provided; simpl; [status|].
  destruct (provided !! k); [apply IH|].
  apply ends_bind; [apply ends_weaken, ends_prompt_float|]. intros a. apply IH.
Qed.

Lemma ends_reconcile features provided : ends exits_with_1 (reconcile features provided).
Proof.
  unfold reconcile. destruct (truthy features).
  - apply ends_bind; [destruct features; status|]. intros l.
    apply ends_bind; [apply ends_weaken, ends_map_inputs_loop|]. intros row. status.
  - apply ends_bind; [apply ends_fill_missing|]. intros row. status.
Qed.

Lemma ends_prepare args : ends exits_with_1 (prepare str_float E args).
Proof.
  unfold prepare. destruct (negb _); [status|].
  apply ends_bind; [destruct (joblib_load E _); status|]. intros obj.
  apply ends_bind.
  { destruct obj as [| | |o]; simpl; try status. destruct (obj_predict o); status. }
  intros [[model features] metadata].
  destruct (is_none model); [status|].
  apply ends_bind.
  { unfold obtain_raw_input. destruct (arg_from_db args); [|status].
    apply ends_try_except; [|intros e; status].
    apply ends_bind; [status|]. intros _.
    apply ends_bind; [|intros s; status].
    unfold fetch_latest_sensor_data.
    destruct (find_latest E _ _) as [[s|]|e]; status. }
  intros [provided dev].
  apply ends_bind; [apply ends_reconcile|]. intros X. status.
Qed.

(** What [conclude] adds to the trace: the calls of the model, then what it
    prints and writes. *)
Lemma conclude_run (args : arguments) (model : pyval) (X : list (string * Q))
    (dev : option string) (w w' : world) (r : result unit) :
  conclude E args model X dev w = (r, w') ->
  exists calls post,
    trace w' = (trace w ++ calls ++ post)%list /\
    (calls = [] \/ calls = [PredictCall (Structured X)]
     \/ calls = [PredictCall (Structured X); PredictCall (Flat X.*2)]) /\
    ((r = Ret tt /\ calls <> [] /\
      exists out last,
        post = [Stdout (decision_text (arg_raw args) out);
                Stdout (newline ++ "Saving prediction to MongoDB...");
                InsertOne (make_prediction_doc E dev out);
                last] /\ is_console last)
     \/ (((exists e, r = Raise e) \/ r = Exit 1) /\ Forall is_console post)).
Proof.
  intros Hrun.
  assert (Htail : forall (yhat : list Z) (w1 : world) (calls : list event),
            trace w1 = (trace w ++ calls)%list ->
            (calls = [PredictCall (Structured X)]
             \/ calls = [PredictCall (Structured X); PredictCall (Flat X.*2)]) ->
            (out ← first_label yhat;
             print (decision_text (arg_raw args) out);;
             try_except
               (print (newline ++ "Saving prediction to MongoDB...");;
                inserted_id ← save_prediction_to_db E (arg_mongo_uri args) dev out;
                print ("Prediction saved with ID: " ++ inserted_id))
               (fun e => eprint ("Warning: Failed to save prediction to database: " ++ e)))
              w1 = (r, w') ->
            exists post,
              trace w' = (trace w ++ calls ++ post)%list /\
              ((r = Ret tt /\ calls <> [] /\
                exists out last,
                  post = [Stdout (decision_text (arg_raw args) out);
                          Stdout (newline ++ "Saving prediction to MongoDB...");
                          InsertOne (make_prediction_doc E dev out);
                          last] /\ is_console last)
               \/ (((exists e, r = Raise e) \/ r = Exit 1) /\ Forall is_console post))).
  { intros yhat w1 calls Ht Hcalls Htl.
    destruct yhat as [|out others].
    - injection Htl as <- <-. exists []. rewrite app_nil_r. split; [done|].
      right. split; [left; by eexists|constructor].
    - unfold try_except, save_prediction_to_db, mbind, io_bind, print, eprint, emit,
        raise, mret, io_ret, first_label in Htl.
      change ((mret out : io Z) w1) with (Ret out, w1) in Htl. cbv beta iota zeta in Htl.
      destruct (insert_one E (arg_mongo_uri args) (make_prediction_doc E dev out))
        as [id|e]; injection Htl as <- <-; rewrite !extend_extend;
        (eexists; split; [simpl; rewrite Ht, <- app_assoc; reflexivity|]);
        left; (split; [done|]); (split; [by destruct Hcalls as [->| ->]|]);
        eexists _, _; (split; [reflexivity|exact I]). }
  unfold conclude in Hrun.
  destruct model as [| | |[t [f|]]].
  4: {
    unfold predict_with_fallback in Hrun.
    unfold mbind at 1, io_bind at 1, try_except at 1 in Hrun.
    rewrite call_predict_run in Hrun.
    destruct (f (calls_before w) (Structured X)) as [labels|e1].
    - destruct (Htail labels (extend w [PredictCall (Structured X)])
                  [PredictCall (Structured X)] eq_refl (or_introl eq_refl) Hrun)
        as (post & Ht & Hshape).
      exists [PredictCall (Structured X)], post. split; [done|]. split; [by right; left|done].
    - unfold try_except at 1 in Hrun. rewrite call_predict_run in Hrun.
      destruct (f (calls_before (extend w [PredictCall (Structured X)])) (Flat X.*2))
        as [labels|e2].
      + rewrite extend_extend in Hrun.
        destruct (Htail labels
                    (extend w [PredictCall (Structured X); PredictCall (Flat X.*2)])
                    [PredictCall (Structured X); PredictCall (Flat X.*2)]
                    eq_refl (or_intror eq_refl) Hrun) as (post & Ht & Hshape).
        exists [PredictCall (Structured X); PredictCall (Flat X.*2)], post.
        split; [done|]. split; [by right; right|done].
      + injection Hrun as <- <-.
        exists [PredictCall (Structured X); PredictCall (Flat X.*2)].
        eexists. split; [simpl; rewrite <- !app_assoc; reflexivity|].
        split; [by right; right|]. right. split; [by right|by repeat constructor]. }
  all: unfold predict_with_fallback, try_except, call_predict, raise, print, emit, exit,
         mbind, io_bind in Hrun;
       injection Hrun as <- <-; exists []; eexists;
    (split; [simpl; reflexivity|]); (split; [by left|]);
    right; (split; [by right|by repeat constructor]).
Qed.

Lemma main_split (args : arguments) (w w' : world) (r : result unit) :
  main str_float E args w = (r, w') ->
  (exists model X dev w1,
     prepare str_float E args w = (Ret (model, X, dev), w1) /\
     conclude E args model X dev w1 = (r, w'))
  \/ (r <> Ret tt /\ (prepare str_float E args w).2 = w' /\
      ending_of (prepare str_float E args w).1 = ending_of r).
Proof.
  unfold main, mbind, io_bind.
  destruct (prepare str_float E args w) as [[[[model X] dev]|e|c|] w1].
  - intros H. left. by exists model, X, dev, w1.
  - intros [= <- <-]. by right.
  - intros [= <- <-]. by right.
  - intros [= <- <-]. by right.
Qed.

Lemma prepare_device (args : arguments) (w w1 : world) model X dev :
  prepare str_float E args w = (Ret (model, X, dev), w1) ->
  (arg_from_db args = false -> dev = None) /\
  (arg_from_db args = true ->
   exists s, find_latest E (arg_mongo_uri args) (nonempty (arg_device_id args))
             = Returns (Some s) /\ dev = sensor_deviceId s).
Proof.
  unfold prepare. destruct (negb _); [done|]. intros H.
  apply bind_inv_Ret in H as (obj & w2 & _ & H).
  apply bind_inv_Ret in H as ([[model' features] metadata] & w3 & _ & H).
  destruct (is_none model'); [done|].
  apply bind_inv_Ret in H as ([provided dev'] & w4 & Hraw & H).
  apply bind_inv_Ret in H as (X' & w5 & _ & H). injection H as _ _ -> _.
  unfold obtain_raw_input in Hraw. split; intros Hdb; rewrite Hdb in Hraw.
  - by injection Hraw as _ <- _.
  - unfold try_except in Hraw.
    destruct ((print "Fetching latest sensor data from MongoDB...";;
               sensor_data ← fetch_latest_sensor_data E (arg_mongo_uri args)
                               (arg_device_id args);
               let device_id := sensor_deviceId sensor_data in
               print ("Using sensor data from device: " ++ str_or device_id "N/A");;
               print ("  Moisture: " ++ str_value str_float (moisture sensor_data) ++ "%");;
               print ("  Temperature: " ++ str_value str_float (temperature sensor_data)
                        ++ "Â°C");;
               print ("  Humidity: " ++ str_value str_float (humidity sensor_data) ++ "%");;
               mret (provided_of (moisture sensor_data) (temperature sensor_data)
                                 (humidity sensor_data),
                     device_id)) w3) as [[a|e|c|] w6] eqn:Hbody.
    2: { unfold mbind, io_bind, eprint, emit, exit in Hraw. done. }
    2, 3: done.
    injection Hraw as -> _.
    apply bind_inv_Ret in Hbody as (u & w7 & _ & Hbody).
    apply bind_inv_Ret in Hbody as (s & w8 & Hfetch & Hbody).
    cbv zeta in Hbody.
    apply bind_inv_Ret in Hbody as (u1 & w9 & _ & Hbody).
    apply bind_inv_Ret in Hbody as (u2 & w10 & _ & Hbody).
    apply bind_inv_Ret in Hbody as (u3 & w11 & _ & Hbody).
    apply bind_inv_Ret in Hbody as (u4 & w12 & _ & Hbody).
    injection Hbody as _ <- _.
    exists s. split; [|done]. rewrite fetch_by_filter in Hfetch.
    destruct (find_latest E (arg_mongo_uri args) (nonempty (arg_device_id args)))
      as [[s'|]|e]; [|done..].
    by injection Hfetch as -> _.
Qed.

Lemma console_quiet (l : list event) :
  Forall is_console l ->
  List.filter is_predict_call l = [] /\ List.filter is_insert l = [] /\
  (forall doc, InsertOne doc ∉ l) /\ (forall arg, PredictCall arg ∉ l).
Proof.
  induction 1 as [|e l He _ (IH1 & IH2 & IH3 & IH4)]; simpl.
  - repeat split; try done; intros ?; apply not_elem_of_nil.
  - destruct e; try done; simpl; (split; [done|]); (split; [done|]);
      split; intros ?; rewrite not_elem_of_cons; (split; [done|auto]).
Qed.

(** What a whole run adds to the trace. *)
Lemma main_run (args : arguments) (w w' : world) (r : result unit) :
  main str_float E args w = (r, w') ->
  exists pre calls post,
    trace w' = (trace w ++ pre ++ calls ++ post)%list /\
    Forall is_console pre /\
    ((calls = [] /\ post = [] /\ r <> Ret tt /\ (forall c, r = Exit c -> c = 1))
     \/ (exists model X dev w1,
           prepare str_float E args w = (Ret (model, X, dev), w1) /\
           r <> Hang /\ (forall c, r = Exit c -> c = 1) /\
           (calls = [] \/ calls = [PredictCall (Structured X)]
            \/ calls = [PredictCall (Structured X); PredictCall (Flat X.*2)]) /\
           ((r = Ret tt /\ calls <> [] /\
             exists out last,
               post = [Stdout (decision_text (arg_raw args) out);
                       Stdout (newline ++ "Saving prediction to MongoDB...");
                       InsertOne (make_prediction_doc E dev out);
                       last] /\ is_console last)
            \/ (r <> Ret tt /\ Forall is_console post)))).
Proof.
  intros Hrun. destruct (main_split _ _ _ _ Hrun) as
    [(model & X & dev & w1 & Hprep & Hconc)|(Hr & Hw & Hend)].
  - destruct (only_prepare args _ _ _ Hprep) as (pre & Hpre & Hconsole).
    destruct (conclude_run _ _ _ _ _ _ _ Hconc) as (calls & post & Ht & Hcalls & Hshape).
    exists pre, calls, post. split; [by rewrite Ht, Hpre, <- app_assoc|].
    split; [done|]. right. exists model, X, dev, w1. split; [done|].
    destruct Hshape as [(-> & Hne & Hpost)|([[e ->]| ->] & Hpost)].
    + repeat split; try done. by left.
    + repeat split; try done. by right.
    + repeat split; try done; [by intros c [= <-]|by right].
  - destruct (prepare str_float E args w) as [r0 w0] eqn:Hprep. simpl in *. subst w0.
    destruct (only_prepare args _ _ _ Hprep) as (pre & Hpre & Hconsole).
    exists pre, [], []. rewrite !app_nil_r. split; [done|]. split; [done|].
    left. repeat split; try done.
    intros c ->. pose proof (ends_prepare args w) as Hone. rewrite Hprep in Hone.
    apply Hone. by destruct r0.
Qed.

End ScriptFacts.

(** X11.  [prompt_float] skips the lines that are not numbers, printing its
    reminder after each and asking again, and returns the first number
    typed, leaving what follows it unread.  It never raises and never
    exits; it goes on for ever exactly when no number is ever typed. *)
Theorem prompt_float_returns_first_number (name : string) (w : world) :
  (forall (n : nat) (q : Q) rest,
     stdin w = (replicate n NotNumeric ++ Numeric q :: rest)%list ->
     prompt_float name w
     = (Ret q,
        {| stdin := rest;
           trace := trace w
                      ++ mjoin (replicate n [Input (enter name);
                                             Stdout "Please enter a numeric value."])
                      ++ [Input (enter name)] |})) /\
  ((prompt_float name w).1 = Hang <-> Forall (fun x => x = NotNumeric) (stdin w)) /\
  (forall e, (prompt_float name w).1 <> Raise e) /\
  (forall c, (prompt_float name w).1 <> Exit c).
Proof.
  split; [|split; [|split]].
  - intros n q rest Hin. unfold prompt_float. rewrite Hin. apply prompt_loop_skips.
  - apply prompt_loop_hangs.
  - intros e He. pose proof (ends_prompt_float name w) as Hk. rewrite He in Hk.
    by destruct Hk.
  - intros c Hc. pose proof (ends_prompt_float name w) as Hk. rewrite Hc in Hk.
    by destruct Hk.
Qed.

(** X12.  [map_inputs_to_features] neither raises nor exits, and the row it
    returns has a value for every feature name and for nothing else. *)
Theorem map_inputs_assigns_every_feature (features : list string)
    (provided : gmap string Q) (w : world) :
  (forall e, (map_inputs_to_features features provided w).1 <> Raise e) /\
  (forall c, (map_inputs_to_features features provided w).1 <> Exit c) /\
  (forall row w',
     map_inputs_to_features features provided w = (Ret row, w') ->
     forall f, is_Some (row !! f) <-> f ∈ features).
Proof.
  pose proof (ends_map_inputs_loop features provided ∅ w) as Hk.
  split; [|split].
  - intros e He. unfold map_inputs_to_features in He. rewrite He in Hk. by destruct Hk.
  - intros c Hc. unfold map_inputs_to_features in Hc. rewrite Hc in Hk. by destruct Hk.
  - intros row w' Hrun f.
    rewrite (map_inputs_loop_keys _ _ _ _ _ _ Hrun f), lookup_empty.
    split; [intros [?|[? ?]]; done|by left].
Qed.

(** X13.  With a list of feature names, the row handed to the model has one
    column per name, in the order of the list; a column whose name resolves
    by keyword to a supplied raw input holds that input; and when every name
    does, nothing is asked. *)
Theorem reconcile_follows_feature_list (features : list string)
    (provided : gmap string Q) (w : world) :
  features <> [] ->
  (forall X w',
     reconcile (PyNames features) provided w = (Ret X, w') ->
     X.*1 = features /\
     forall (j : nat) f v q,
       X !! j = Some (f, v) -> resolved provided f = Some q -> v = q) /\
  ((forall f, f ∈ features -> is_Some (resolved provided f)) ->
   exists X, reconcile (PyNames features) provided w = (Ret X, w) /\ X.*1 = features).
Proof.
  intros Hne.
  assert (Htruthy : truthy (PyNames features) = true).
  { simpl. by rewrite bool_decide_eq_false_2. }
  assert (Hcols : forall row : gmap string Q,
            ((fun f => (f, default 0%Q (row !! f))) <$> features).*1 = features).
  { intros row. rewrite <- list_fmap_compose. apply list_fmap_id. }
  split.
  - intros X w' Hrun. unfold reconcile in Hrun. rewrite Htruthy in Hrun.
    rewrite (bind_run _ _ w w features) in Hrun by done.
    apply bind_inv_Ret in Hrun as (row & w1 & Hrow & Hret).
    injection Hret as <- <-. split; [apply Hcols|].
    intros j f v q Hj Hq. rewrite list_lookup_fmap in Hj.
    destruct (features !! j) as [f'|] eqn:Hf; [|done]. simpl in Hj.
    injection Hj as -> <-.
    apply resolved_Some in Hq as (key & Hkey & Hv).
    assert (Hin : f ∈ features) by (by eapply list_elem_of_lookup_2).
    destruct (map_inputs_loop_spec features provided ∅ row w w1 Hrow f) as [Hval _].
    by rewrite (Hval Hin key q Hkey Hv).
  - intros Hall.
    destruct (map_inputs_loop_total features provided) with (row0 := (∅ : gmap string Q))
                                                          (w := w) as [row Hrow].
    { intros f Hf. destruct (Hall f Hf) as [q Hq].
      apply resolved_Some in Hq as (key & Hkey & Hv). exists key. split; [done|by eexists]. }
    eexists. split; [|apply (Hcols row)].
    unfold reconcile. rewrite Htruthy.
    rewrite (bind_run _ _ w w features) by done.
    by rewrite (bind_run _ _ w w row Hrow).
Qed.

Lemma reconcile_follows_feature_list_witness :
  (forall X w',
     reconcile (PyNames ["air_temp"; "rel_humidity"; "soil_lag_1"]) demo_provided fresh_world
     = (Ret X, w') ->
     X.*1 = ["air_temp"; "rel_humidity"; "soil_lag_1"] /\
     forall (j : nat) f v q,
       X !! j = Some (f, v) -> resolved demo_provided f = Some q -> v = q) /\
  ((forall f, f ∈ ["air_temp"; "rel_humidity"; "soil_lag_1"] ->
      is_Some (resolved demo_provided f)) ->
   exists X,
     reconcile (PyNames ["air_temp"; "rel_humidity"; "soil_lag_1"]) demo_provided fresh_world
     = (Ret X, fresh_world) /\
     X.*1 = ["air_temp"; "rel_humidity"; "soil_lag_1"]).
Proof.
  apply (reconcile_follows_feature_list ["air_temp"; "rel_humidity"; "soil_lag_1"]
           demo_provided fresh_world).
  discriminate.
Defined.


(** X16.  The record a run hands to the prediction store names the device
    of the sensor document it fetched, or "unknown" when that document
    names none; when the raw inputs come from the command line it is always
    "unknown", whatever [--device-id] says.  The record always asks for
    10 mm and 20 s, is dated by the clock, and is flagged used exactly when
    the label, whose decision the run has printed, is 0. *)
Theorem saved_record_contents (str_float : Q -> string) (E : env) (args : arguments)
    (w : world) (doc : prediction_doc) :
  InsertOne doc ∈ produced (main str_float E args) w ->
  (arg_from_db args = false -> deviceId doc = "unknown") /\
  (arg_from_db args = true ->
   exists s, find_latest E (arg_mongo_uri args) (nonempty (arg_device_id args))
             = Returns (Some s) /\
             deviceId doc = str_or (sensor_deviceId s) "unknown") /\
  waterMM doc = 10 /\ pumpTimeSec doc = 20 /\
  predictionId doc = utcnow_isoformat E ++ "Z" /\
  exists out, Stdout (decision_text (arg_raw args) out) ∈ produced (main str_float E args) w /\
              (used doc = true <-> out = 0).
Proof.
  destruct (main str_float E args w) as [r w'] eqn:Hrun.
  destruct (main_run _ _ _ _ _ _ Hrun) as (pre & calls & post & Ht & Hpre & Hshape).
  rewrite (produced_run _ _ _ _ _ Hrun Ht).
  destruct (console_quiet _ Hpre) as (_ & _ & Hp3 & _).
  rewrite !elem_of_app. intros Hdoc.
  destruct Hshape as [(-> & -> & _)|(model & X & dev & w1 & Hprep & _ & _ & Hcalls & Hpost)].
  { destruct Hdoc as [H|[H|H]]; [by apply Hp3 in H|by apply elem_of_nil in H..]. }
  assert (Hc3 : forall d, InsertOne d ∉ calls).
  { intros d H. destruct Hcalls as [->|[->| ->]];
      by repeat apply elem_of_cons in H as [H|H]; try apply elem_of_nil in H. }
  destruct Hpost as [(_ & _ & out & last & -> & Hlast)|(_ & Hpost)].
  2: { destruct (console_quiet _ Hpost) as (_ & _ & Hq3 & _).
       destruct Hdoc as [H|[H|H]];
         [by apply Hp3 in H|by apply Hc3 in H|by apply Hq3 in H]. }
  assert (Hd : doc = make_prediction_doc E dev out).
  { destruct Hdoc as [H|[H|H]]; [by apply Hp3 in H|by apply Hc3 in H|].
    repeat apply elem_of_cons in H as [H|H]; try done.
    - by injection H.
    - subst last. done.
    - by apply elem_of_nil in H. }
  destruct (prepare_device _ _ _ _ _ _ _ _ Hprep) as [Hcli Hdb].
  subst doc. cbn [deviceId waterMM pumpTimeSec predictionId used make_prediction_doc].
  split; [intros Hm; by rewrite (Hcli Hm)|].
  split; [intros Hm; destruct (Hdb Hm) as (s & Hs & ->); by exists s|].
  do 3 (split; [done|]). exists out. split; [|apply Z.eqb_eq].
  rewrite !elem_of_app. right. right. apply list_elem_of_here.
Qed.

Lemma saved_record_contents_witness :
  (arg_from_db store_args = false ->
   deviceId (make_prediction_doc (demo_env picky_handle) None 1) = "unknown") /\
  (arg_from_db store_args = true ->
   exists s, find_latest (demo_env picky_handle) (arg_mongo_uri store_args)
               (nonempty (arg_device_id store_args)) = Returns (Some s) /\
             deviceId (make_prediction_doc (demo_env picky_handle) None 1)
             = str_or (sensor_deviceId s) "unknown") /\
  waterMM (make_prediction_doc (demo_env picky_handle) None 1) = 10 /\
  pumpTimeSec (make_prediction_doc (demo_env picky_handle) None 1) = 20 /\
  predictionId (make_prediction_doc (demo_env picky_handle) None 1)
  = utcnow_isoformat (demo_env picky_handle) ++ "Z" /\
  exists out,
    Stdout (decision_text (arg_raw store_args) out)
    ∈ produced (main no_format (demo_env picky_handle) store_args) fresh_world /\
    (used (make_prediction_doc (demo_env picky_handle) None 1) = true <-> out = 0).
Proof.
  apply (saved_record_contents no_format (demo_env picky_handle) store_args fresh_world
           (make_prediction_doc (demo_env picky_handle) None 1)).
  apply (list_elem_of_lookup_2 _ 4). vm_compute. reflexivity.
Defined.

(** X17.  With [--from-db], once a model has been found in the bundle, a
    lookup of the latest sensor document that raises or finds nothing ends
    the run with status 1: the run announces the lookup, reports the reason
    on the error stream, and does nothing else; it asks for no input, does
    not call the model and writes no record. *)
Theorem store_lookup_failure_is_fatal (str_float : Q -> string) (E : env)
    (args : arguments) (obj : pyval) (w : world) :
  path_exists E (arg_model args) = true ->
  joblib_load E (arg_model args) = Returns obj ->
  predictable_somewhere obj = true ->
  arg_from_db args = true ->
  (forall s, find_latest E (arg_mongo_uri args) (nonempty (arg_device_id args))
             <> Returns (Some s)) ->
  exists reason,
    main str_float E args w
    = (Exit 1,
       extend w [Stdout "Fetching latest sensor data from MongoDB...";
                 Stderr ("Error fetching from database: "
                           ++ "Failed to fetch from MongoDB: " ++ reason)]) /\
    (forall e, find_latest E (arg_mongo_uri args) (nonempty (arg_device_id args))
               = Raises e -> reason = e) /\
    (find_latest E (arg_mongo_uri args) (nonempty (arg_device_id args)) = Returns None ->
     reason = "No sensor data found"
                ++ match nonempty (arg_device_id args) with
                   | Some d => " for device " ++ d
                   | None => ""
                   end).
Proof.
  intros Hpath Hload Hmodel Hdb Hfail.
  destruct (load_artifact_finds_model obj w Hmodel)
    as (model & features & metadata & Hart & Hnone).
  assert (Hmain : forall reason,
            fetch_latest_sensor_data E (arg_mongo_uri args) (arg_device_id args)
              (extend w [Stdout "Fetching latest sensor data from MongoDB..."])
            = (Raise ("Failed to fetch from MongoDB: " ++ reason),
               extend w [Stdout "Fetching latest sensor data from MongoDB..."]) ->
            main str_float E args w
            = (Exit 1,
               extend w [Stdout "Fetching latest sensor data from MongoDB...";
                         Stderr ("Error fetching from database: "
                                   ++ "Failed to fetch from MongoDB: " ++ reason)])).
  { intros reason Hfetch. unfold main. apply bind_exit.
    unfold prepare. rewrite Hpath, Hload. cbn [negb].
    rewrite (bind_run _ _ w w obj) by done.
    rewrite (bind_run _ _ w w (model, features, metadata) Hart). rewrite Hnone.
    unfold obtain_raw_input. rewrite Hdb.
    unfold try_except, mbind, io_bind, print, eprint, emit, exit.
    rewrite Hfetch. by rewrite extend_extend. }
  rewrite fetch_by_filter in Hmain.
  destruct (find_latest E (arg_mongo_uri args) (nonempty (arg_device_id args)))
    as [[s|]|e] eqn:Hfind.
  - by destruct (Hfail s).
  - exists ("No sensor data found"
              ++ match nonempty (arg_device_id args) with
                 | Some d => " for device " ++ d
                 | None => ""
                 end).
    split; [by apply Hmain|]. done.
  - exists e. split; [by apply Hmain|]. split; [by intros e' [= ->]|done].
Qed.

Lemma store_lookup_failure_is_fatal_witness :
  exists reason,
    main no_format (demo_env picky_handle) lookup_args fresh_world
    = (Exit 1,
       extend fresh_world
         [Stdout "Fetching latest sensor data from MongoDB...";
          Stderr ("Error fetching from database: "
                    ++ "Failed to fetch from MongoDB: " ++ reason)]) /\
    (forall e, find_latest (demo_env picky_handle) (arg_mongo_uri lookup_args)
                 (nonempty (arg_device_id lookup_args)) = Raises e -> reason = e) /\
    (find_latest (demo_env picky_handle) (arg_mongo_uri lookup_args)
       (nonempty (arg_device_id lookup_args)) = Returns None ->
     reason = "No sensor data found"
                ++ match nonempty (arg_device_id lookup_args) with
                   | Some d => " for device " ++ d
                   | None => ""
                   end).
Proof.
  apply (store_lookup_failure_is_fatal no_format (demo_env picky_handle) lookup_args
           (PyDict [("model", PyObj picky_handle)]) fresh_world).
  - reflexivity.
  - reflexivity.
  - reflexivity.
  - reflexivity.
  - intros s. simpl. discriminate.
Defined.

End RunProperties.
